(** * Hub control panel: the hand-rolled rendering runtime, the persistence
    hook and the request handlers, embedded and verified.

    The development follows the source files:
    - the [React] object of the inline page (createElement, render, the three
      hooks, setProp, createDom);
    - [useLocalStorage];
    - [buildUrl], [sendRequest] and the handlers of [App], in the inline page
      and in [hub-ui/src/App.jsx], which differ in two message texts only.

    Conventions.  A JavaScript string is the sequence of its code units,
    restricted here to code units below 256; a number is an integer; arrays
    and objects carry no address, so strict equality on them is structural.
    What the browser provides (JSON.parse, JSON.stringify) is an interface the
    code is parametrised by. *)

From stdpp Require Import gmap strings list pretty.
From Stdlib Require Import ZArith Ascii Lia.

Open Scope string_scope.

Set Warnings "-register-all".

(** ** JavaScript values *)

Module JS.

(** The values that flow through the page: what JSON.parse returns, plus
    [undefined]. *)
Inductive value : Type :=
| VUndef
| VNull
| VBool (b : bool)
| VNum (n : Z)
| VStr (s : string)
| VArr (items : list value)
| VObj (fields : list (string * value)).

(** An error object, as thrown and caught: its constructor name and its
    [message]. *)
Record js_error : Type := JsError { err_name : string; err_message : string }.

Definition TypeError (msg : string) : js_error := JsError "TypeError" msg.

(** ToBoolean. *)
Definition truthy (v : value) : bool :=
  match v with
  | VUndef | VNull => false
  | VBool b => b
  | VNum n => negb (n =? 0)%Z
  | VStr s => negb (String.eqb s "")
  | VArr _ | VObj _ => true
  end.

Definition is_undefined (v : value) : bool :=
  match v with VUndef => true | _ => false end.

(** [a === b].  On arrays and objects JavaScript compares addresses, which
    these values do not carry; the test is structural there.  The two agree
    on a value kept in a cell from one render to the next, and where a
    structurally equal copy is set instead, the page's effects write the same
    text and its factories return an equal value. *)
Fixpoint strict_eq (a b : value) {struct a} : bool :=
  match a, b with
  | VUndef, VUndef => true
  | VNull, VNull => true
  | VBool x, VBool y => Bool.eqb x y
  | VNum x, VNum y => (x =? y)%Z
  | VStr x, VStr y => String.eqb x y
  | VArr xs, VArr ys =>
      (fix items (xs ys : list value) {struct xs} : bool :=
         match xs, ys with
         | [], [] => true
         | x :: xs', y :: ys' => strict_eq x y && items xs' ys'
         | _, _ => false
         end) xs ys
  | VObj xs, VObj ys =>
      (fix fields (xs ys : list (string * value)) {struct xs} : bool :=
         match xs, ys with
         | [], [] => true
         | (k, x) :: xs', (k', y) :: ys' =>
             String.eqb k k' && strict_eq x y && fields xs' ys'
         | _, _ => false
         end) xs ys
  | _, _ => false
  end.

(** The number of constructors of a value, to recurse on. *)
Fixpoint value_size (v : value) : nat :=
  match v with
  | VArr items => S (fold_right (fun x acc => value_size x + acc) 0 items)
  | VObj fields => S (fold_right (fun kx acc => value_size (snd kx) + acc) 0 fields)
  | _ => 1
  end.

(** [a !== b]. *)
Definition strict_neq (a b : value) : bool := negb (strict_eq a b).

Definition join (sep : string) (parts : list string) : string :=
  match parts with
  | [] => ""
  | p :: rest => fold_left (fun acc q => acc +:+ sep +:+ q) rest p
  end.

(** ToString, as a template literal and the DOM apply it. *)
Fixpoint to_string (v : value) : string :=
  match v with
  | VUndef => "undefined"
  | VNull => "null"
  | VBool true => "true"
  | VBool false => "false"
  | VNum n => pretty n
  | VStr s => s
  | VArr items =>
      join ","
        ((fix each (l : list value) : list string :=
            match l with
            | [] => []
            | VUndef :: l' => "" :: each l'
            | VNull :: l' => "" :: each l'
            | x :: l' => to_string x :: each l'
            end) items)
  | VObj _ => "[object Object]"
  end.

(** Own-property lookup in an object literal. *)
Fixpoint assoc (k : string) (fields : list (string * value)) : option value :=
  match fields with
  | [] => None
  | (k', v) :: rest => if String.eqb k k' then Some v else assoc k rest
  end.

(** [v.k] for a value that is neither [undefined] nor [null]; the only
    built-in property modelled is [length]. *)
Definition get_prop (v : value) (k : string) : value :=
  match v with
  | VObj fields => default VUndef (assoc k fields)
  | VArr items => if String.eqb k "length" then VNum (Z.of_nat (List.length items)) else VUndef
  | VStr s => if String.eqb k "length" then VNum (Z.of_nat (String.length s)) else VUndef
  | _ => VUndef
  end.

(** [v?.k]. *)
Definition get_prop_opt (v : value) (k : string) : value :=
  match v with
  | VUndef | VNull => VUndef
  | _ => get_prop v k
  end.

(** [v[i]]: a TypeError on [undefined] and [null]. *)
Definition get_index (v : value) (i : nat) : js_error + value :=
  match v with
  | VUndef => inl (TypeError "Cannot read properties of undefined")
  | VNull => inl (TypeError "Cannot read properties of null")
  | VArr items => inr (default VUndef (items !! i))
  | VStr s => inr (match String.get i s with
                   | Some c => VStr (String c "")
                   | None => VUndef
                   end)
  | VObj fields => inr (default VUndef (assoc (pretty i) fields))
  | _ => inr VUndef
  end.

(** *** Strings *)

Definition slash : ascii := "/"%char.

(** [s.startsWith('/')]. *)
Definition startsWith_slash (s : string) : bool :=
  match s with
  | String c _ => Ascii.eqb c slash
  | EmptyString => false
  end.

(** [s.replace(/\/$/, '')]: the pattern matches one slash at the end of the
    input, so at most the last code unit goes. *)
Fixpoint strip_trailing_slash (s : string) : string :=
  match s with
  | EmptyString => EmptyString
  | String c EmptyString => if Ascii.eqb c slash then EmptyString else s
  | String c rest => String c (strip_trailing_slash rest)
  end.

(** White space and line terminators of [String.prototype.trim], among the
    code units below 256. *)
Definition is_js_space (c : ascii) : bool :=
  let n := nat_of_ascii c in
  (Nat.eqb n 9 || Nat.eqb n 10 || Nat.eqb n 11 || Nat.eqb n 12 || Nat.eqb n 13
   || Nat.eqb n 32 || Nat.eqb n 160)%bool.

Fixpoint trim_start (s : string) : string :=
  match s with
  | String c rest => if is_js_space c then trim_start rest else s
  | EmptyString => EmptyString
  end.

Fixpoint trim_end (s : string) : string :=
  match s with
  | EmptyString => EmptyString
  | String c rest =>
      match trim_end rest with
      | EmptyString => if is_js_space c then EmptyString else String c EmptyString
      | kept => String c kept
      end
  end.

(** [s.trim()]. *)
Definition trim (s : string) : string := trim_end (trim_start s).

(** [s.toLowerCase()]: the capital letters below 256 are A-Z and the
    accented capitals 192-222, the multiplication sign 215 apart. *)
Definition lower_char (c : ascii) : ascii :=
  let n := nat_of_ascii c in
  if ((Nat.leb 65 n && Nat.leb n 90)
      || (Nat.leb 192 n && Nat.leb n 222 && negb (Nat.eqb n 215)))%bool
  then ascii_of_nat (n + 32) else c.

Fixpoint toLowerCase (s : string) : string :=
  match s with
  | EmptyString => EmptyString
  | String c rest => String (lower_char c) (toLowerCase rest)
  end.

(** [s.substring(n)]. *)
Fixpoint substring_from (n : nat) (s : string) : string :=
  match n, s with
  | O, _ => s
  | S n', String _ rest => substring_from n' rest
  | S _, EmptyString => EmptyString
  end.

(** [s.includes(t)]. *)
Fixpoint includes (t s : string) : bool :=
  if String.prefix t s then true
  else match s with
       | EmptyString => false
       | String _ rest => includes t rest
       end.

End JS.

Export JS.

(** ** The page: URL resolution *)

Module Url.

(** [buildUrl(baseUrl, path)], the same text in both builds. *)
Definition buildUrl (baseUrl path : string) : string :=
  if negb (startsWith_slash path)
  then strip_trailing_slash baseUrl +:+ "/" +:+ path
  else strip_trailing_slash baseUrl +:+ path.

(** What "joined by exactly one separator" asks of a result: every slash at
    the end of the base and at the start of the path is gone, and one slash
    stands between what is left. *)
Fixpoint drop_leading_slashes (s : string) : string :=
  match s with
  | String c rest => if Ascii.eqb c slash then drop_leading_slashes rest else s
  | EmptyString => EmptyString
  end.

Fixpoint drop_trailing_slashes (s : string) : string :=
  match s with
  | EmptyString => EmptyString
  | String c rest =>
      match drop_trailing_slashes rest with
      | EmptyString => if Ascii.eqb c slash then EmptyString else String c EmptyString
      | kept => String c kept
      end
  end.

Definition joined_once (baseUrl path : string) : string :=
  drop_trailing_slashes baseUrl +:+ "/" +:+ drop_leading_slashes path.

(** [s] ends with two slashes. *)
Fixpoint ends_with_two_slashes (s : string) : bool :=
  match s with
  | EmptyString => false
  | String c rest =>
      match rest with
      | String d EmptyString => Ascii.eqb c slash && Ascii.eqb d slash
      | _ => ends_with_two_slashes rest
      end
  end.

(** [s] starts with two slashes. *)
Definition starts_with_two_slashes (s : string) : bool :=
  match s with
  | String c (String d _) => Ascii.eqb c slash && Ascii.eqb d slash
  | _ => false
  end.

End Url.

Export Url.

(** ** What the browser provides *)

(** [JSON_parse text] is [None] when JSON.parse throws its SyntaxError;
    [JSON_stringify v] is [None] when JSON.stringify returns [undefined]. *)
Class Browser : Type := {
  JSON_parse : string -> option value;
  JSON_stringify : value -> option string
}.

(** ** The page: state, requests and handlers

    The handlers are modelled on the state they read and write.  A setter
    call is its write to the state: the re-render it triggers in the inline
    build reads the state and writes none of it, and it completes whenever
    the values the tree shows as children (the token among them) are strings
    or numbers, as the tokens the hub issues are.  An [await] is the point
    where the outcome of the network call comes in; a handler is run from
    its first statement to its last against that outcome. *)

Module App.

(** The two builds of the page: the inline one on the hand-rolled runtime and
    the bundled one of [hub-ui/src/App.jsx]. *)
Inductive Build : Type := Inline | Bundled.

Inductive Tone : Type := success | error.

Record Toast : Type := { tone : Tone; message : string }.

(** [status] of a response record: the HTTP status, or the text "error". *)
Inductive Status : Type :=
| StatusCode (code : nat)
| StatusErrorText.

Record ResponseRecord : Type := {
  r_method : string;
  r_path : string;
  r_status : Status;
  r_data : value
}.

(** The state slots of [App], in the order of its hook calls.  The page only
    ever sets [baseUrl] to a string (an input's text or the origin) and
    stores it as such; [token] receives whatever the server sent as
    [access_token]. *)
Record AppState : Type := {
  baseUrl : string;
  token : value;
  username : string;
  password : string;
  isLoading : bool;
  response : option ResponseRecord;
  toast : Toast;
  customPath : string;
  customMethod : string;
  customBody : string
}.







Definition setToken (v : value) (st : AppState) : AppState :=
  {| baseUrl := baseUrl st; token := v; username := username st;
     password := password st; isLoading := isLoading st;
     response := response st; toast := toast st; customPath := customPath st;
     customMethod := customMethod st; customBody := customBody st |}.

Definition setIsLoading (b : bool) (st : AppState) : AppState :=
  {| baseUrl := baseUrl st; token := token st; username := username st;
     password := password st; isLoading := b;
     response := response st; toast := toast st; customPath := customPath st;
     customMethod := customMethod st; customBody := customBody st |}.

Definition setResponse (r : option ResponseRecord) (st : AppState) : AppState :=
  {| baseUrl := baseUrl st; token := token st; username := username st;
     password := password st; isLoading := isLoading st;
     response := r; toast := toast st; customPath := customPath st;
     customMethod := customMethod st; customBody := customBody st |}.

Definition setToast (t : Toast) (st : AppState) : AppState :=
  {| baseUrl := baseUrl st; token := token st; username := username st;
     password := password st; isLoading := isLoading st;
     response := response st; toast := t; customPath := customPath st;
     customMethod := customMethod st; customBody := customBody st |}.

(** The state of the first render, before anything is restored from storage. *)
Definition initialState (origin : string) : AppState :=
  {| baseUrl := origin; token := VStr ""; username := ""; password := "";
     isLoading := false; response := None;
     toast := {| tone := success; message := "" |};
     customPath := "/admin/providers"; customMethod := "GET"; customBody := "" |}.

(** [config] and [url] of one [fetch(url, config)] call; [req_body = None] is
    a config without a [body] property. *)
Record Request : Type := {
  req_url : string;
  req_method : string;
  req_headers : list (string * string);
  req_body : option string
}.

(** What [await fetch(...)] followed by [await res.text()] comes to: a
    rejection with an error, or a status and the body text. *)
Inductive FetchOutcome : Type :=
| Rejected (e : js_error)
| Responded (status : nat) (text : string).

(** [res.ok]. *)
Definition is_ok (status : nat) : bool :=
  ((200 <=? status)%nat && (status <=? 299)%nat)%bool.

(** The page and the network calls it has issued, oldest first. *)
Record Page : Type := { app : AppState; sent : list Request }.

Definition update (f : AppState -> AppState) (p : Page) : Page :=
  {| app := f (app p); sent := sent p |}.

Definition issue (r : Request) (p : Page) : Page :=
  {| app := app p; sent := sent p ++ [r] |}.

(** [data] of what [sendRequest] returns: the parsed body, or the error. *)
Inductive ResultData : Type :=
| DataValue (v : value)
| DataError (e : js_error).

Record SendResult : Type := { ok : bool; data : ResultData }.

Record QuickAction : Type := {
  title : string;
  qa_path : string;
  qa_method : string;
  description : string
}.

Definition QUICK_ACTIONS (b : Build) : list QuickAction :=
  match b with
  | Inline =>
      [ {| title := "Providers"; qa_path := "/admin/providers"; qa_method := "GET";
           description := "List providers and their statuses." |};
        {| title := "Devices"; qa_path := "/admin/devices"; qa_method := "GET";
           description := "Fetch registered devices." |};
        {| title := "Workspaces"; qa_path := "/admin/workspaces"; qa_method := "GET";
           description := "Workspaces visible to the session." |};
        {| title := "User Info"; qa_path := "/user-info"; qa_method := "GET";
           description := "Inspect current user scopes." |};
        {| title := "Health"; qa_path := "/health"; qa_method := "GET";
           description := "Readiness check for the hub." |} ]
  | Bundled =>
      [ {| title := "Providers"; qa_path := "/admin/providers"; qa_method := "GET";
           description := "List all configured providers and their statuses." |};
        {| title := "Devices"; qa_path := "/admin/devices"; qa_method := "GET";
           description := "Fetch registered devices from the hub." |};
        {| title := "Workspaces"; qa_path := "/admin/workspaces"; qa_method := "GET";
           description := "Retrieve workspaces available to the current user." |};
        {| title := "User Info"; qa_path := "/user-info"; qa_method := "GET";
           description := "Inspect the authenticated session and scopes." |};
        {| title := "Health"; qa_path := "/health"; qa_method := "GET";
           description := "Quick readiness check for the hub service." |} ]
  end.

Section Handlers.

Context `{Browser}.

(** The build, and [window.location.origin]. *)
Variable build : Build.
Variable origin : string.

(** [useMemo(() => baseUrl || origin, [baseUrl, origin])]. *)
Definition resolvedBaseUrl (st : AppState) : string :=
  if negb (String.eqb (baseUrl st) "") then baseUrl st else origin.

(** The headers object of [sendRequest]. *)
Definition request_headers (st : AppState) : list (string * string) :=
  ("Content-Type", "application/json")
    :: (if truthy (token st) then [("Authorization", "Bearer " +:+ to_string (token st))]
        else []).

(** [config] as [sendRequest] builds it: the body is attached under
    [body && method !== 'GET']. *)
Definition build_request (st : AppState) (path method : string) (body : value) : Request :=
  {| req_url := buildUrl (resolvedBaseUrl st) path;
     req_method := method;
     req_headers := request_headers st;
     req_body := if truthy body && negb (String.eqb method "GET")
                 then JSON_stringify body else None |}.

(** The toast after a response, in each build. *)
Definition outcome_message (method path : string) (status : nat) : string :=
  if is_ok status then method +:+ " " +:+ path +:+ " succeeded"
  else match build with
       | Inline => method +:+ " " +:+ path +:+ " failed"
       | Bundled => method +:+ " " +:+ path +:+ " failed (" +:+ pretty status +:+ ")"
       end.

(** [sendRequest({ path, method = 'GET', body })], run to completion against
    the outcome [o] of its network call.  The closure reads [token] and
    [resolvedBaseUrl] of the render it was created in. *)
Definition sendRequest (o : FetchOutcome) (path : string) (method_arg : option string)
    (body : value) (p : Page) : SendResult * Page :=
  let method := default "GET" method_arg in
  let st := app p in
  let p1 := update (setIsLoading true) p in
  let p2 := update (setToast {| tone := success; message := "" |}) p1 in
  let p3 := issue (build_request st path method body) p2 in
  let '(result, p4) :=
    match o with
    | Responded status text =>
        let parsed := match JSON_parse text with
                      | Some v => v
                      | None => VStr text
                      end in
        let payload := {| r_method := method; r_path := path;
                          r_status := StatusCode status; r_data := parsed |} in
        let q1 := update (setResponse (Some payload)) p3 in
        let q2 := update (setToast
                            {| tone := if is_ok status then success else error;
                               message := outcome_message method path status |}) q1 in
        ({| ok := is_ok status; data := DataValue parsed |}, q2)
    | Rejected e =>
        let q1 := update (setToast {| tone := error; message := err_message e |}) p3 in
        let q2 := update (setResponse
                            (Some {| r_method := method; r_path := path;
                                     r_status := StatusErrorText;
                                     r_data := VStr (err_message e) |})) q1 in
        ({| ok := false; data := DataError e |}, q2)
    end in
  (result, update (setIsLoading false) p4).

(** [onClick: () => sendRequest(action)]: an action has no [body]. *)
Definition triggerQuickAction (o : FetchOutcome) (action : QuickAction) (p : Page) : Page :=
  snd (sendRequest o (qa_path action) (Some (qa_method action)) VUndef p).

(** The name in the sign-in toast, in each build. *)
Definition signed_in_name (st : AppState) (d : value) : string :=
  match build with
  | Inline =>
      let u := get_prop d "username" in
      if truthy u then to_string u else username st
  | Bundled => to_string (get_prop d "username")
  end.

Definition handleLogin (o : FetchOutcome) (p : Page) : Page :=
  let st := app p in
  let '(result, p1) :=
    sendRequest o "/authenticate" (Some "POST")
      (VObj [("username", VStr (username st)); ("password", VStr (password st))]) p in
  match data result with
  | DataValue d =>
      if ok result && truthy (get_prop_opt d "access_token")
      then
        let p2 := update (setToken (get_prop d "access_token")) p1 in
        update (setToast {| tone := success;
                            message := "Signed in as " +:+ signed_in_name st d |}) p2
      else p1
  | DataError _ => p1
  end.

Definition handleLogout (o : FetchOutcome) (p : Page) : Page :=
  let '(_, p1) := sendRequest o "/logout" (Some "POST") VUndef p in
  let p2 := update (setToken (VStr "")) p1 in
  update (setToast {| tone := success; message := "Logged out and token cleared" |}) p2.

Definition handleCustom (o : FetchOutcome) (p : Page) : Page :=
  let st := app p in
  if negb (String.eqb (trim (customBody st)) "")
  then
    match JSON_parse (customBody st) with
    | Some parsedBody =>
        snd (sendRequest o (customPath st) (Some (customMethod st)) parsedBody p)
    | None =>
        update (setToast {| tone := error;
                            message := "Request body must be valid JSON" |}) p
    end
  else snd (sendRequest o (customPath st) (Some (customMethod st)) VUndef p).

Definition clearResponse (p : Page) : Page := update (setResponse None) p.

End Handlers.

(** [headers[name]] of a request. *)
Fixpoint header (name : string) (headers : list (string * string)) : option string :=
  match headers with
  | [] => None
  | (k, v) :: rest => if String.eqb name k then Some v else header name rest
  end.

(** The cells behind the form fields: the base URL, the credentials, and the
    path, method and body of the custom call. *)
Definition same_forms (a b : AppState) : Prop :=
  baseUrl a = baseUrl b /\
  username a = username b /\
  password a = password b /\
  customPath a = customPath b /\
  customMethod a = customMethod b /\
  customBody a = customBody b.

(** What a failed response leaves behind: a response record with the status,
    an error toast, the token as it was. *)
Definition failure_recorded (status : nat) (before after : Page) : Prop :=
  (exists r, response (app after) = Some r /\ r_status r = StatusCode status) /\
  tone (toast (app after)) = error /\
  token (app after) = token (app before).

End App.

(** ** The rendering runtime *)

Module Runtime.

(** A dependency list argument: [None] when it is left out. *)
Definition deps_arg : Type := option (list value).

Definition deps_value (d : deps_arg) : value :=
  match d with
  | Some l => VArr l
  | None => VUndef
  end.

(** A property value of an element: a plain value, or a function (an event
    handler, known by its number). *)
Inductive prop_value : Type :=
| PValue (v : value)
| PFunction (f : nat).

Definition props : Type := list (string * prop_value).

(** [type] of a node: a tag name, the Fragment symbol, or a component
    function (known by its number). *)
Inductive node_type : Type :=
| Tag (name : string)
| Fragment
| Component (c : nat).

(** A virtual node: a leaf, or what [createElement] returns; [None] for
    [props] is [null]. *)
Inductive vnode : Type :=
| VnNull
| VnUndefined
| VnBool (b : bool)
| VnString (s : string)
| VnNumber (n : Z)
| VnNode (type : node_type) (node_props : option props) (children : list vnode).

(** One argument after [props] of [createElement]: a node or an array of
    nodes. *)
Inductive child_arg : Type :=
| One (v : vnode)
| Many (l : list vnode).

(** [children.flat()], one level deep. *)
Definition flat (children : list child_arg) : list vnode :=
  flat_map (fun c => match c with One v => [v] | Many l => l end) children.

(** [createElement(type, props = {}, ...children)]. *)
Definition createElement (type : node_type) (p : option props)
    (children : list child_arg) : vnode :=
  VnNode type p (flat children).

(** The root node [h(C)] for the component number 0. *)
Definition root : vnode := createElement (Component 0) (Some []) [].

(** [vnode === null || vnode === undefined || vnode === false]. *)
Definition is_nothing (v : vnode) : bool :=
  match v with
  | VnNull | VnUndefined | VnBool false => true
  | _ => false
  end.

(** The text of a string or a number, the two types the second test of
    [createDom] names. *)
Definition text_of (v : vnode) : option string :=
  match v with
  | VnString s => Some s
  | VnNumber n => Some (pretty n)
  | _ => None
  end.

(** [vnode.type], [vnode.props] and [vnode.children]: [None] is [undefined]
    (or, for [props], [null]), which is what a boolean has for each. *)
Definition vnode_type (v : vnode) : option node_type :=
  match v with
  | VnNode type _ _ => Some type
  | _ => None
  end.

Definition vnode_props (v : vnode) : option props :=
  match v with
  | VnNode _ p _ => p
  | _ => None
  end.

Definition vnode_children (v : vnode) : option (list vnode) :=
  match v with
  | VnNode _ _ children => Some children
  | _ => None
  end.

(** The name [document.createElement(type)] gives the element: the tag, or
    the text of [undefined]. *)
Definition tag_name (type : option node_type) : string :=
  match type with
  | Some (Tag name) => name
  | _ => "undefined"
  end.

(** ToBoolean of a virtual node. *)
Definition vnode_truthy (v : vnode) : bool :=
  match v with
  | VnNull | VnUndefined => false
  | VnBool b => b
  | VnString s => negb (String.eqb s "")
  | VnNumber n => negb (n =? 0)%Z
  | VnNode _ _ _ => true
  end.

(** What [setProp] writes on a DOM node. *)
Record node_data : Type := {
  attributes : list (string * prop_value);
  style : list (string * value);
  listeners : list (string * nat);
  properties : list (string * prop_value)
}.

Definition empty_node : node_data :=
  {| attributes := []; style := []; listeners := []; properties := [] |}.

Inductive dom : Type :=
| TextNode (text : string)
| ElementNode (tag : string) (d : node_data) (kids : list dom)
| DocumentFragment (d : node_data) (kids : list dom).

Fixpoint set_assoc {A : Type} (k : string) (v : A) (l : list (string * A)) : list (string * A) :=
  match l with
  | [] => [(k, v)]
  | (k', v') :: rest =>
      if String.eqb k k' then (k, v) :: rest else (k', v') :: set_assoc k v rest
  end.

Definition setAttribute (name : string) (v : prop_value) (d : node_data) : node_data :=
  {| attributes := set_assoc name v (attributes d); style := style d;
     listeners := listeners d; properties := properties d |}.

(** [Object.assign(dom.style, value)]. *)
Definition assign_style (entries : list (string * value)) (d : node_data) : node_data :=
  {| attributes := attributes d;
     style := fold_left (fun acc kv => set_assoc (fst kv) (snd kv) acc) entries (style d);
     listeners := listeners d; properties := properties d |}.

Definition addEventListener (evt : string) (f : nat) (d : node_data) : node_data :=
  {| attributes := attributes d; style := style d;
     listeners := listeners d ++ [(evt, f)]; properties := properties d |}.

Definition set_property (name : string) (v : prop_value) (d : node_data) : node_data :=
  {| attributes := attributes d; style := style d;
     listeners := listeners d; properties := set_assoc name v (properties d) |}.

(** The own enumerable entries of an object or an array. *)
Definition own_entries (v : value) : option (list (string * value)) :=
  match v with
  | VObj fields => Some fields
  | VArr items => Some (imap (fun i x => (pretty i, x)) items)
  | _ => None
  end.

Definition starts_with_on (name : string) : bool := String.prefix "on" name.

(** [setProp(dom, name, value)].  [on_fragment] tells a document fragment,
    which has neither [setAttribute] nor [style], from an element. *)
Definition setProp (on_fragment : bool) (d : node_data) (name : string)
    (v : prop_value) : js_error + node_data :=
  let attribute (n : string) : js_error + node_data :=
    if on_fragment then inl (TypeError "dom.setAttribute is not a function")
    else inr (setAttribute n v d) in
  if String.eqb name "key" then inr d
  else if String.eqb name "className" then attribute "class"
  else
    match (if String.eqb name "style"
           then match v with PValue o => own_entries o | PFunction _ => None end
           else None) with
    | Some entries =>
        if on_fragment then inl (TypeError "Cannot convert undefined or null to object")
        else inr (assign_style entries d)
    | None =>
        match (if starts_with_on name
               then match v with PFunction f => Some f | PValue _ => None end
               else None) with
        | Some f => inr (addEventListener (toLowerCase (substring_from 2 name)) f d)
        | None =>
            if String.eqb name "value" || String.eqb name "checked"
            then inr (set_property name v d)
            else
              let kept := match v with
                          | PValue (VBool false) | PValue VUndef => false
                          | _ => true
                          end in
              if negb (String.eqb name "children") && kept then attribute name
              else inr d
        end
    end.

(** [Object.entries(props).forEach(([name, value]) => setProp(dom, name, value))]. *)
Fixpoint setProps (on_fragment : bool) (d : node_data) (p : props) : js_error + node_data :=
  match p with
  | [] => inr d
  | (name, v) :: rest =>
      match setProp on_fragment d name v with
      | inl e => inl e
      | inr d' => setProps on_fragment d' rest
      end
  end.

(** [parent.appendChild(child)] for each child in turn: a fragment gives its
    children instead of itself. *)
Definition appended (kids : list dom) : list dom :=
  flat_map (fun k => match k with DocumentFragment _ ks => ks | _ => [k] end) kids.

(** A value other than [undefined]. *)
Definition defined (v : value) : Prop := is_undefined v = false.



(** How a computation ends: with a value, with a thrown error, or, for the
    recursion of [createDom] only, out of fuel. *)
Inductive result (A : Type) : Type :=
| Ok (a : A)
| Throw (e : js_error)
| OutOfFuel.

Arguments Ok {A} a.
Arguments Throw {A} e.
Arguments OutOfFuel {A}.

Section Hooks.

(** What initialisers, factories and effect bodies act on outside the
    runtime: browser storage, the console. *)
Context {Ext : Type}.

(** A cell of the [hooks] array: a plain value (a state hook's, or a hole
    read as [undefined]), [{ value, deps }], or [{ deps, cleanup }]. *)
Inductive slot : Type :=
| SValue (v : value)
| SMemo (v : value) (deps : deps_arg)
| SEffect (deps : deps_arg) (cleanup : option (Ext -> Ext)).

(** An effect body returns its cleanup function, or nothing. *)
Definition effect_body : Type := Ext -> option (Ext -> Ext) * Ext.

(** The closure [useEffect] pushes, by what it captured. *)
Record pending : Type := {
  pe_idx : nat;
  pe_previous : slot;
  pe_effect : effect_body;
  pe_deps : deps_arg
}.

(** The variables of the [React] closure. *)
Record runtime : Type := {
  hooks : gmap nat slot;
  hookIndex : nat;
  pendingEffects : list pending;
  currentRoot : option nat;
  currentVNode : option vnode
}.

(** The runtime, the world outside it, and the children of each container. *)
Record page : Type := {
  rt : runtime;
  ext : Ext;
  containers : gmap nat (list dom)
}.

Definition initial_runtime : runtime :=
  {| hooks := ∅; hookIndex := 0; pendingEffects := [];
     currentRoot := None; currentVNode := None |}.

Definition initial_page (e : Ext) : page :=
  {| rt := initial_runtime; ext := e; containers := ∅ |}.

Definition with_rt (f : runtime -> runtime) (p : page) : page :=
  {| rt := f (rt p); ext := ext p; containers := containers p |}.

Definition with_ext (e : Ext) (p : page) : page :=
  {| rt := rt p; ext := e; containers := containers p |}.

Definition set_hooks (h : gmap nat slot) (r : runtime) : runtime :=
  {| hooks := h; hookIndex := hookIndex r; pendingEffects := pendingEffects r;
     currentRoot := currentRoot r; currentVNode := currentVNode r |}.

Definition set_hookIndex (i : nat) (r : runtime) : runtime :=
  {| hooks := hooks r; hookIndex := i; pendingEffects := pendingEffects r;
     currentRoot := currentRoot r; currentVNode := currentVNode r |}.

Definition set_pendingEffects (l : list pending) (r : runtime) : runtime :=
  {| hooks := hooks r; hookIndex := hookIndex r; pendingEffects := l;
     currentRoot := currentRoot r; currentVNode := currentVNode r |}.

(** [hooks[idx]]: a hole reads as [undefined]. *)
Definition read_slot (r : runtime) (idx : nat) : slot :=
  default (SValue VUndef) (hooks r !! idx).

(** [hooks[idx] = s]. *)
Definition write_slot (idx : nat) (s : slot) (r : runtime) : runtime :=
  set_hooks (<[idx := s]> (hooks r)) r.

(** A cell read as a value; a cleanup function has no image among the values
    and reads as [undefined]. *)
Definition slot_as_value (s : slot) : value :=
  match s with
  | SValue v => v
  | SMemo v d => VObj [("value", v); ("deps", deps_value d)]
  | SEffect d _ => VObj [("deps", deps_value d); ("cleanup", VUndef)]
  end.

Definition slot_truthy (s : slot) : bool :=
  match s with
  | SValue v => truthy v
  | SMemo _ _ | SEffect _ _ => true
  end.

(** [previous.deps] and [previous.value], for a truthy [previous]. *)
Definition slot_deps (s : slot) : value :=
  match s with
  | SValue v => get_prop v "deps"
  | SMemo _ d | SEffect d _ => deps_value d
  end.

Definition slot_value (s : slot) : value :=
  match s with
  | SValue v => get_prop v "value"
  | SMemo v _ => v
  | SEffect _ _ => VUndef
  end.

(** [previous.cleanup], when [typeof previous.cleanup === 'function']. *)
Definition slot_cleanup (s : slot) : option (Ext -> Ext) :=
  match s with
  | SEffect _ c => c
  | _ => None
  end.

(** Code that reads and writes the page and may throw; what was written
    before a throw stays written. *)
Definition M (A : Type) : Type := page -> result A * page.

Definition ret {A : Type} (a : A) : M A := fun p => (Ok a, p).

Definition throw {A : Type} (e : js_error) : M A := fun p => (Throw e, p).

Definition bind {A B : Type} (m : M A) (k : A -> M B) : M B :=
  fun p =>
    match m p with
    | (Ok a, p') => k a p'
    | (Throw e, p') => (Throw e, p')
    | (OutOfFuel, p') => (OutOfFuel, p')
    end.

Definition modify_rt (f : runtime -> runtime) : M unit := fun p => (Ok tt, with_rt f p).

Notation "x <- m ;; k" := (bind m (fun x => k))
  (at level 62, m at next level, right associativity, only parsing).

(** The argument of [useState]: a value, or a function to call for it. *)
Inductive initial : Type :=
| InitValue (v : value)
| InitFunction (f : Ext -> value * Ext).

(** The argument of a state setter: a value, or a function of the previous
    one. *)
Inductive update : Type :=
| SetValue (v : value)
| SetFunction (f : value -> value).

(** The body of [useState] up to its [return]: the value read from the cell
    and the index its setter closes over. *)
Definition useState (initialValue : initial) : M (value * nat) :=
  fun p =>
    let idx := hookIndex (rt p) in
    let p1 := with_rt (set_hookIndex (S idx)) p in
    let p2 :=
      if is_undefined (slot_as_value (read_slot (rt p1) idx))
      then match initialValue with
           | InitValue v => with_rt (write_slot idx (SValue v)) p1
           | InitFunction f =>
               let '(v, e) := f (ext p1) in
               with_rt (write_slot idx (SValue v)) (with_ext e p1)
           end
      else p1 in
    (Ok (slot_as_value (read_slot (rt p2) idx), idx), p2).

(** [deps.some((dep, i) => dep !== previous.deps[i])], from position [i]. *)
Fixpoint some_differs (previous_deps : value) (deps : list value) (i : nat)
    : js_error + bool :=
  match deps with
  | [] => inr false
  | dep :: rest =>
      match get_index previous_deps i with
      | inl e => inl e
      | inr old =>
          if strict_neq dep old then inr true
          else some_differs previous_deps rest (S i)
      end
  end.

(** [changed], as [useMemo] and [useEffect] compute it. *)
Definition deps_changed (previous : slot) (deps : deps_arg) : js_error + bool :=
  if negb (slot_truthy previous) then inr true
  else match deps with
       | None => inr true
       | Some [] => inr true
       | Some l => some_differs (slot_deps previous) l 0
       end.

(** A factory returns its value; it may act on the world outside. *)
Definition factory_body : Type := Ext -> value * Ext.

Definition useMemo (factory : factory_body) (deps : deps_arg) : M value :=
  fun p =>
    let idx := hookIndex (rt p) in
    let p1 := with_rt (set_hookIndex (S idx)) p in
    let previous := read_slot (rt p1) idx in
    match deps_changed previous deps with
    | inl e => (Throw e, p1)
    | inr true =>
        let '(v, e) := factory (ext p1) in
        (Ok v, with_rt (write_slot idx (SMemo v deps)) (with_ext e p1))
    | inr false => (Ok (slot_value previous), p1)
    end.

Definition useEffect (effect : effect_body) (deps : deps_arg) : M unit :=
  fun p =>
    let idx := hookIndex (rt p) in
    let p1 := with_rt (set_hookIndex (S idx)) p in
    let previous := read_slot (rt p1) idx in
    match deps_changed previous deps with
    | inl e => (Throw e, p1)
    | inr true =>
        let entry := {| pe_idx := idx; pe_previous := previous;
                        pe_effect := effect; pe_deps := deps |} in
        (Ok tt, with_rt (fun r => set_pendingEffects (pendingEffects r ++ [entry]) r) p1)
    | inr false => (Ok tt, p1)
    end.

(** One pushed closure, called: the previous cleanup, the effect, the cell. *)
Definition run_pending (entry : pending) (p : page) : page :=
  let e1 := match slot_cleanup (pe_previous entry) with
            | Some cleanup => cleanup (ext p)
            | None => ext p
            end in
  let '(cleanup, e2) := pe_effect entry e1 in
  with_rt (write_slot (pe_idx entry) (SEffect (pe_deps entry) cleanup)) (with_ext e2 p).

(** [pendingEffects.forEach((fn) => fn())]. *)
Definition flush_effects (p : page) : page :=
  fold_left (fun q entry => run_pending entry q) (pendingEffects (rt p)) p.

(** The component functions of the page, by number: each is applied to its
    props and children and may call hooks. *)
Variable component : nat -> option props -> list vnode -> M vnode.

(** [children.forEach((child) => dom.appendChild(createDom(child)))]. *)
Fixpoint each_child (create : vnode -> M dom) (children : list vnode) : M (list dom) :=
  match children with
  | [] => ret []
  | child :: rest =>
      d <- create child ;;
      ds <- each_child create rest ;;
      ret (d :: ds)
  end.

Definition lift_error {A : Type} (r : js_error + A) : M A :=
  match r with
  | inl e => throw e
  | inr a => ret a
  end.

(** [createDom(vnode)], test by test.  A component may return a component
    without end, so the recursion is bounded by [fuel].

    - [vnode === null || vnode === undefined || vnode === false]: an empty
      text node;
    - [typeof vnode === 'string' || typeof vnode === 'number']: a text node;
    - [typeof vnode.type === 'function']: the component is called and its
      result materialised;
    - otherwise a fragment, or an element named by [vnode.type], is created,
      the entries of [vnode.props || {}] are set, and [vnode.children] is
      walked; a value without [children] throws there. *)
Fixpoint createDom (fuel : nat) (v : vnode) : M dom :=
  match fuel with
  | O => fun p => (OutOfFuel, p)
  | S fuel' =>
      if is_nothing v then ret (TextNode "")
      else
        match text_of v with
        | Some text => ret (TextNode text)
        | None =>
            match vnode_type v with
            | Some (Component c) =>
                rendered <- component c (vnode_props v) (default [] (vnode_children v)) ;;
                createDom fuel' rendered
            | type =>
                let fragment := match type with Some Fragment => true | _ => false end in
                d <- lift_error (setProps fragment empty_node (default [] (vnode_props v))) ;;
                match vnode_children v with
                | None =>
                    throw (TypeError "Cannot read properties of undefined (reading 'forEach')")
                | Some children =>
                    kids <- each_child (createDom fuel') children ;;
                    ret (if fragment then DocumentFragment d (appended kids)
                         else ElementNode (tag_name type) d (appended kids))
                end
            end
        end
  end.

(** [container.replaceChildren(dom)]. *)
Definition replaceChildren (container : nat) (d : dom) : M unit :=
  fun p =>
    (Ok tt, {| rt := rt p; ext := ext p;
               containers := <[container := appended [d]]> (containers p) |}).

(** The four assignments [render] starts with. *)
Definition reset_for (container : nat) (v : vnode) (r : runtime) : runtime :=
  {| hooks := hooks r; hookIndex := 0; pendingEffects := [];
     currentRoot := Some container; currentVNode := Some v |}.

(** [render(vnode, container)]. *)
Definition render (fuel : nat) (v : vnode) (container : nat) : M unit :=
  _ <- modify_rt (reset_for container v) ;;
  d <- createDom fuel v ;;
  _ <- replaceChildren container d ;;
  fun p => (Ok tt, flush_effects p).

(** [rerender()]. *)
Definition rerender (fuel : nat) : M unit :=
  fun p =>
    match currentRoot (rt p), currentVNode (rt p) with
    | Some container, Some v =>
        if vnode_truthy v then render fuel v container p else (Ok tt, p)
    | _, _ => (Ok tt, p)
    end.

(** [typeof value === 'function' ? value(old) : value]. *)
Definition apply_update (u : update) (old : value) : value :=
  match u with
  | SetValue v => v
  | SetFunction f => f old
  end.

(** The runtime after [hooks[idx] = typeof value === 'function' ?
    value(hooks[idx]) : value]. *)
Definition assign_state (idx : nat) (u : update) (r : runtime) : runtime :=
  write_slot idx (SValue (apply_update u (slot_as_value (read_slot r idx)))) r.

(** The setter [useState] returned for the cell [idx], called with [u]. *)
Definition setState (fuel : nat) (idx : nat) (u : update) : M unit :=
  _ <- modify_rt (assign_state idx u) ;;
  rerender fuel.

End Hooks.

Notation "x <- m ;; k" := (bind m (fun x => k))
  (at level 62, m at next level, right associativity, only parsing).

Arguments slot : clear implicits.
Arguments pending : clear implicits.
Arguments runtime : clear implicits.
Arguments page : clear implicits.
Arguments M : clear implicits.
Arguments initial : clear implicits.
Arguments effect_body : clear implicits.
Arguments factory_body : clear implicits.

End Runtime.

(** ** The persistence hook *)

Module Storage.

Import Runtime.

(** The part of the browser the hook touches: [window.localStorage] and the
    console. *)
Record browser : Type := {
  localStorage : gmap string string;
  console : list string
}.

Definition getItem (key : string) (b : browser) : option string :=
  localStorage b !! key.

Definition setItem (key text : string) (b : browser) : browser :=
  {| localStorage := <[key := text]> (localStorage b); console := console b |}.

Definition removeItem (key : string) (b : browser) : browser :=
  {| localStorage := delete key (localStorage b); console := console b |}.

Definition warn (msg : string) (b : browser) : browser :=
  {| localStorage := localStorage b; console := console b ++ [msg] |}.

Section Hook.

Context `{Browser}.

(** The function [useLocalStorage] passes to [useState]. *)
Definition read_stored (key : string) (initialValue : value) (b : browser)
    : value * browser :=
  match getItem key b with
  | Some raw =>
      match JSON_parse raw with
      | Some v => (v, b)
      | None => (initialValue, warn "Failed to parse localStorage value" b)
      end
  | None => (initialValue, b)
  end.

(** The effect [useLocalStorage] registers; [setItem] turns a missing
    serialisation into the text "undefined". *)
Definition write_stored (key : string) (stored : value) (b : browser)
    : option (browser -> browser) * browser :=
  if is_undefined stored then (None, removeItem key b)
  else (None, setItem key (default "undefined" (JSON_stringify stored)) b).

(** [useLocalStorage(key, initialValue)]: the stored value and the index of
    its setter's cell. *)
Definition useLocalStorage (key : string) (initialValue : value)
    : M browser (value * nat) :=
  r <- useState (InitFunction (read_stored key initialValue)) ;;
  _ <- useEffect (write_stored key (fst r)) (Some [VStr key; fst r]) ;;
  ret r.

(** A page of one component, number 0, that calls the hook and shows the
    value; any other number is a component that renders nothing. *)
Definition stored_view (key : string) (initialValue : value)
    (c : nat) (_ : option props) (_ : list vnode) : M browser vnode :=
  match c with
  | O =>
      r <- useLocalStorage key initialValue ;;
      ret (VnString (to_string (fst r)))
  | S _ => ret VnNull
  end.

(** The text [setItem] stores for a value. *)
Definition stored_text (v : value) : string := default "undefined" (JSON_stringify v).

(** What the key holds for a value: nothing for [undefined], the text
    otherwise. *)
Definition stored_entry (v : value) : option string :=
  if is_undefined v then None else Some (stored_text v).

(** The value the hook reads in the re-render after its cell was assigned
    [c]: [c], or what the initialiser reads from the storage [b] when [c] is
    [undefined]. *)
Definition stored_next (key : string) (initialValue c : value) (b : browser) : value :=
  if is_undefined c then fst (read_stored key initialValue b) else c.

(** The page after a render of [stored_view] in which the hook's value was
    [v]: the two cells of the hook, the mount, the key agreeing with [v],
    and [v] shown. *)
Definition agrees (key : string) (v : value) (container : nat) (p : page browser)
    : Prop :=
  hooks (rt p) = map_seq 0 [SValue v; SEffect (Some [VStr key; v]) None] /\
  currentRoot (rt p) = Some container /\
  currentVNode (rt p) = Some root /\
  getItem key (ext p) = stored_entry v /\
  containers p !! container = Some [TextNode (to_string v)].

(** The storage [b'] differs from [b] at most under [key]. *)
Definition only_key (key : string) (b b' : browser) : Prop :=
  forall other, other <> key -> getItem other b' = getItem other b.

(** The browser after the re-render that follows the assignment of [c] to
    the hook's cell, which held [old]: storage is read when [c] is
    [undefined], and written when the value read is not the one recorded. *)
Definition browser_after (key : string) (initialValue old c : value) (b : browser)
    : browser :=
  let v := stored_next key initialValue c b in
  let b1 := if is_undefined c then snd (read_stored key initialValue b) else b in
  if strict_neq v old then snd (write_stored key v b1) else b1.

(** The setter of the hook called with each argument in turn, each call with
    the re-render it triggers. *)
Fixpoint store_each (fuel : nat) (key : string) (initialValue : value)
    (calls : list update) : M browser unit :=
  match calls with
  | [] => ret tt
  | u :: rest =>
      _ <- setState (stored_view key initialValue) fuel 0 u ;;
      store_each fuel key initialValue rest
  end.

End Hook.

End Storage.

(** ** Components made of state cells *)

Module Cells.

Import Runtime.

Section Views.

Context {Ext : Type}.

(** A component body that calls the state hook once for each initial value,
    in order, and returns the values it read. *)
Fixpoint use_states (inits : list value) : M Ext (list value) :=
  match inits with
  | [] => ret []
  | v :: rest =>
      r <- useState (InitValue v) ;;
      rs <- use_states rest ;;
      ret (fst r :: rs)
  end.

Definition show (vals : list value) : string := join "," (to_string <$> vals).

(** The page of one component, number 0, that shows its cells. *)
Definition states_view (inits : list value) (c : nat) (_ : option props)
    (_ : list vnode) : M Ext vnode :=
  match c with
  | O =>
      vs <- use_states inits ;;
      ret (VnString (show vs))
  | S _ => ret VnNull
  end.

(** Setter calls made in turn, each with the re-render it triggers. *)
Fixpoint set_each (fuel : nat) (inits : list value) (calls : list (nat * update))
    : M Ext unit :=
  match calls with
  | [] => ret tt
  | (idx, u) :: rest =>
      _ <- setState (states_view inits) fuel idx u ;;
      set_each fuel inits rest
  end.

(** What a render reads from a cell that holds [c]: [c] itself, or the
    initial value again when [c] is [undefined]. *)
Definition settle (init c : value) : value := if is_undefined c then init else c.

(** The cells after one setter call and its re-render. *)
Definition cells_step (inits : list value) (idx : nat) (u : update)
    (cells : list value) : list value :=
  zip_with settle inits (<[idx := apply_update u (default VUndef (cells !! idx))]> cells).

(** The cells after the calls and their re-renders. *)
Definition cells_after (inits : list value) (calls : list (nat * update))
    (cells : list value) : list value :=
  fold_left (fun acc c => cells_step inits (fst c) (snd c) acc) calls cells.

(** Every call names a cell of the component. *)
Definition calls_in_range (n : nat) (calls : list (nat * update)) : Prop :=
  Forall (fun c => fst c < n) calls.

(** What one call writes, when nothing is [undefined]: its own position. *)
Definition cells_set (idx : nat) (u : update) (cells : list value) : list value :=
  <[idx := apply_update u (default VUndef (cells !! idx))]> cells.

(** What the calls write, when nothing is [undefined]. *)
Definition cells_written (calls : list (nat * update)) (cells : list value) : list value :=
  fold_left (fun acc c => cells_set (fst c) (snd c) acc) calls cells.

(** Every call names a cell of the component and sets a value other than
    [undefined]. *)
Fixpoint calls_defined (calls : list (nat * update)) (cells : list value) : Prop :=
  match calls with
  | [] => True
  | (idx, u) :: rest =>
      idx < length cells /\
      defined (apply_update u (default VUndef (cells !! idx))) /\
      calls_defined rest (cells_set idx u cells)
  end.

(** The page with the view mounted in [container], its cells holding [vals]
    and shown. *)
Definition mounted (vals : list value) (e : Ext) (container : nat) : page Ext :=
  {| rt := {| hooks := map_seq 0 (SValue <$> vals); hookIndex := length vals;
              pendingEffects := []; currentRoot := Some container;
              currentVNode := Some root |};
     ext := e;
     containers := {[ container := [TextNode (show vals)] ]} |}.

End Views.

End Cells.

(** ** A reference JSON reader and writer

    One [Browser] to run the page against: JSON over the values of this
    development.  A number with a fraction or an exponent, and an escape
    above code unit 255, have no image here and are refused. *)

Module Json.

Definition is_ws (c : ascii) : bool :=
  let n := nat_of_ascii c in
  (Nat.eqb n 32 || Nat.eqb n 9 || Nat.eqb n 10 || Nat.eqb n 13)%bool.

Fixpoint skip_ws (s : string) : string :=
  match s with
  | String c rest => if is_ws c then skip_ws rest else s
  | EmptyString => EmptyString
  end.

Definition is_digit (c : ascii) : bool :=
  let n := nat_of_ascii c in (Nat.leb 48 n && Nat.leb n 57)%bool.

Definition digit_value (c : ascii) : Z := Z.of_nat (nat_of_ascii c - 48).

(** The digits at the head of [s], read onto [acc]. *)
Fixpoint read_digits (acc : Z) (s : string) : Z * string :=
  match s with
  | String c rest =>
      if is_digit c then read_digits (10 * acc + digit_value c)%Z rest else (acc, s)
  | EmptyString => (acc, s)
  end.

Definition starts_fraction (s : string) : bool :=
  match s with
  | String c _ => (Ascii.eqb c "." || Ascii.eqb c "e" || Ascii.eqb c "E")%bool
  | EmptyString => false
  end.

(** [int] of the JSON grammar: [0], or a non-zero digit and more digits. *)
Definition read_int (s : string) : option (Z * string) :=
  match s with
  | String c rest =>
      if Ascii.eqb c "0" then
        if starts_fraction rest then None else Some (0%Z, rest)
      else if is_digit c then
        let '(n, rest') := read_digits (digit_value c) rest in
        if starts_fraction rest' then None else Some (n, rest')
      else None
  | EmptyString => None
  end.

Definition hex_value (c : ascii) : option nat :=
  let n := nat_of_ascii c in
  if (Nat.leb 48 n && Nat.leb n 57)%bool then Some (n - 48)
  else if (Nat.leb 65 n && Nat.leb n 70)%bool then Some (n - 55)
  else if (Nat.leb 97 n && Nat.leb n 102)%bool then Some (n - 87)
  else None.

Definition read_escape (s : string) : option (ascii * string) :=
  match s with
  | String c rest =>
      match nat_of_ascii c with
      | 34 => Some ("034"%char, rest)
      | 92 => Some ("092"%char, rest)
      | 47 => Some ("/"%char, rest)
      | 98 => Some ("008"%char, rest)
      | 102 => Some ("012"%char, rest)
      | 110 => Some ("010"%char, rest)
      | 114 => Some ("013"%char, rest)
      | 116 => Some ("009"%char, rest)
      | 117 =>
          match rest with
          | String a (String b (String c' (String d rest'))) =>
              match hex_value a, hex_value b, hex_value c', hex_value d with
              | Some 0, Some 0, Some x, Some y => Some (ascii_of_nat (16 * x + y), rest')
              | _, _, _, _ => None
              end
          | _ => None
          end
      | _ => None
      end
  | EmptyString => None
  end.

(** The characters of a string literal after its opening quote. *)
Fixpoint read_chars (fuel : nat) (s : string) : option (string * string) :=
  match fuel with
  | O => None
  | S fuel' =>
      match s with
      | EmptyString => None
      | String c rest =>
          if Ascii.eqb c "034" then Some (EmptyString, rest)
          else if Ascii.eqb c "092" then
            match read_escape rest with
            | Some (x, rest') =>
                match read_chars fuel' rest' with
                | Some (str, out) => Some (String x str, out)
                | None => None
                end
            | None => None
            end
          else if Nat.ltb (nat_of_ascii c) 32 then None
          else
            match read_chars fuel' rest with
            | Some (str, out) => Some (String c str, out)
            | None => None
            end
      end
  end.

Definition read_string (s : string) : option (string * string) :=
  match s with
  | String c rest =>
      if Ascii.eqb c "034" then read_chars (S (String.length rest)) rest else None
  | EmptyString => None
  end.

Section Composite.

Variable read_value : string -> option (value * string).

(** The elements of an array after the first, up to the closing bracket. *)
Fixpoint read_items (fuel : nat) (s : string) : option (list value * string) :=
  match fuel with
  | O => None
  | S fuel' =>
      match skip_ws s with
      | String c rest =>
          if Ascii.eqb c "]" then Some ([], rest)
          else if Ascii.eqb c "," then
            match read_value rest with
            | Some (v, rest') =>
                match read_items fuel' rest' with
                | Some (vs, out) => Some (v :: vs, out)
                | None => None
                end
            | None => None
            end
          else None
      | EmptyString => None
      end
  end.

Definition read_member (s : string) : option ((string * value) * string) :=
  match read_string (skip_ws s) with
  | Some (k, rest) =>
      match skip_ws rest with
      | String c rest' =>
          if Ascii.eqb c ":" then
            match read_value rest' with
            | Some (v, out) => Some ((k, v), out)
            | None => None
            end
          else None
      | EmptyString => None
      end
  | None => None
  end.

(** The members of an object after the first, up to the closing brace. *)
Fixpoint read_members (fuel : nat) (s : string)
    : option (list (string * value) * string) :=
  match fuel with
  | O => None
  | S fuel' =>
      match skip_ws s with
      | String c rest =>
          if Ascii.eqb c "}" then Some ([], rest)
          else if Ascii.eqb c "," then
            match read_member rest with
            | Some (m, rest') =>
                match read_members fuel' rest' with
                | Some (ms, out) => Some (m :: ms, out)
                | None => None
                end
            | None => None
            end
          else None
      | EmptyString => None
      end
  end.

End Composite.

(** A later member of the same name replaces the value of an earlier one. *)
Definition object_of (members : list (string * value)) : value :=
  VObj (fold_left (fun acc m => Runtime.set_assoc (fst m) (snd m) acc) members []).

Definition literal (word : string) (v : value) (s : string) : option (value * string) :=
  if String.prefix word s then Some (v, substring_from (String.length word) s) else None.

Fixpoint read_value (fuel : nat) (s : string) : option (value * string) :=
  match fuel with
  | O => None
  | S fuel' =>
      match skip_ws s with
      | EmptyString => None
      | String c rest as s' =>
          if Ascii.eqb c "034" then
            match read_string s' with
            | Some (str, out) => Some (VStr str, out)
            | None => None
            end
          else if Ascii.eqb c "[" then
            match skip_ws rest with
            | String d rest' =>
                if Ascii.eqb d "]" then Some (VArr [], rest')
                else
                  match read_value fuel' rest with
                  | Some (v, rest'') =>
                      match read_items (read_value fuel') fuel' rest'' with
                      | Some (vs, out) => Some (VArr (v :: vs), out)
                      | None => None
                      end
                  | None => None
                  end
            | EmptyString => None
            end
          else if Ascii.eqb c "{" then
            match skip_ws rest with
            | String d rest' =>
                if Ascii.eqb d "}" then Some (VObj [], rest')
                else
                  match read_member (read_value fuel') rest with
                  | Some (m, rest'') =>
                      match read_members (read_value fuel') fuel' rest'' with
                      | Some (ms, out) => Some (object_of (m :: ms), out)
                      | None => None
                      end
                  | None => None
                  end
            | EmptyString => None
            end
          else if Ascii.eqb c "-" then
            match read_int rest with
            | Some (n, out) => Some (VNum (- n), out)
            | None => None
            end
          else if is_digit c then
            match read_int s' with
            | Some (n, out) => Some (VNum n, out)
            | None => None
            end
          else
            match literal "null" VNull s' with
            | Some r => Some r
            | None =>
                match literal "true" (VBool true) s' with
                | Some r => Some r
                | None => literal "false" (VBool false) s'
                end
            end
      end
  end.

Definition parse (text : string) : option value :=
  match read_value (S (String.length text)) text with
  | Some (v, rest) =>
      match skip_ws rest with
      | EmptyString => Some v
      | String _ _ => None
      end
  | None => None
  end.

Definition hex_digit (n : nat) : ascii :=
  if Nat.ltb n 10 then ascii_of_nat (48 + n) else ascii_of_nat (87 + n).

Definition quote_char (c : ascii) : string :=
  let n := nat_of_ascii c in
  match n with
  | 34 => String "092" (String "034" EmptyString)
  | 92 => "\\"
  | 8 => "\b"
  | 12 => "\f"
  | 10 => "\n"
  | 13 => "\r"
  | 9 => "\t"
  | _ =>
      if Nat.ltb n 32
      then "\u00" +:+ String (hex_digit (n / 16)) (String (hex_digit (n mod 16)) "")
      else String c ""
  end.

Fixpoint quote_chars (s : string) : string :=
  match s with
  | EmptyString => EmptyString
  | String c rest => quote_char c +:+ quote_chars rest
  end.

Definition quote (s : string) : string :=
  String "034" (quote_chars s) +:+ String "034" "".

(** [JSON.stringify(v)]: [None] for [undefined]; an [undefined] array
    element is written [null], an [undefined] member is left out. *)
Fixpoint stringify (v : value) : option string :=
  match v with
  | VUndef => None
  | VNull => Some "null"
  | VBool true => Some "true"
  | VBool false => Some "false"
  | VNum n => Some (pretty n)
  | VStr s => Some (quote s)
  | VArr items =>
      Some ("[" +:+ join ","
              ((fix each (l : list value) : list string :=
                  match l with
                  | [] => []
                  | x :: l' => default "null" (stringify x) :: each l'
                  end) items) +:+ "]")
  | VObj fields =>
      Some ("{" +:+ join ","
              ((fix each (l : list (string * value)) : list string :=
                  match l with
                  | [] => []
                  | (k, x) :: l' =>
                      match stringify x with
                      | Some text => (quote k +:+ ":" +:+ text) :: each l'
                      | None => each l'
                      end
                  end) fields) +:+ "}")
  end.

#[export] Instance reference_browser : Browser :=
  {| JSON_parse := parse; JSON_stringify := stringify |}.

End Json.

(** ** Reading a tree and the DOM made of it *)

Module Tree.

Import Runtime.

(** The texts of a list, one after the other. *)
Fixpoint glue (parts : list string) : string :=
  match parts with
  | [] => ""
  | [x] => x
  | x :: rest => x +:+ glue rest
  end.

(** [node.textContent]: the texts below a node, in document order. *)
Fixpoint textContent (d : dom) : string :=
  match d with
  | TextNode text => text
  | ElementNode _ _ kids => glue (map textContent kids)
  | DocumentFragment _ kids => glue (map textContent kids)
  end.




(** A node is a document fragment. *)
Definition is_fragment (d : dom) : bool :=
  match d with
  | DocumentFragment _ _ => true
  | _ => false
  end.

(** No document fragment below the node: fragments give their children away
    when they are appended. *)
Fixpoint fragment_free (d : dom) : bool :=
  match d with
  | TextNode _ => true
  | ElementNode _ _ kids => forallb (fun k => negb (is_fragment k) && fragment_free k) kids
  | DocumentFragment _ kids => forallb (fun k => negb (is_fragment k) && fragment_free k) kids
  end.

(** A node that is no fragment and has none below. *)
Definition settled (k : dom) : bool := negb (is_fragment k) && fragment_free k.

(** [element.hasAttribute(name)]. *)
Definition has_attribute (name : string) (d : node_data) : bool :=
  existsb (fun kv => String.eqb name (fst kv)) (attributes d).

(** The functions listening for an event on a node. *)
Definition listening (evt : string) (d : node_data) : list nat :=
  map snd (filter (fun l => String.eqb evt (fst l)) (listeners d)).

(** The buttons at and below a node, in document order: each with its
    label, whether it has the disabled attribute, and its click listeners. *)
Fixpoint buttons (d : dom) : list (string * bool * list nat) :=
  match d with
  | TextNode _ => []
  | ElementNode tag data kids =>
      (if String.eqb tag "button"
       then [(glue (map textContent kids), has_attribute "disabled" data,
              listening "click" data)]
       else [])
      ++ flat_map buttons kids
  | DocumentFragment _ kids => flat_map buttons kids
  end.

(** The class attribute of a node is the text [c]. *)
Definition has_class (c : string) (d : node_data) : bool :=
  existsb (fun kv => String.eqb "class" (fst kv)
                     && match snd kv with
                        | PValue (VStr x) => String.eqb x c
                        | _ => false
                        end) (attributes d).

(** The texts of the elements of class [c] at and below a node, in document
    order. *)
Fixpoint texts_of_class (c : string) (d : dom) : list string :=
  match d with
  | TextNode _ => []
  | ElementNode _ data kids =>
      (if has_class c data then [glue (map textContent kids)] else [])
      ++ flat_map (texts_of_class c) kids
  | DocumentFragment _ kids => flat_map (texts_of_class c) kids
  end.

End Tree.

(** ** The components of the inline page *)

Module View.

Import Runtime Storage.

#[local] Open Scope list_scope.

(** [const h = React.createElement]. *)
Definition h : node_type -> option props -> list child_arg -> vnode := createElement.

(** A primitive value as a leaf of the tree. *)
Definition leaf (v : value) : option vnode :=
  match v with
  | VUndef => Some VnUndefined
  | VNull => Some VnNull
  | VBool b => Some (VnBool b)
  | VNum n => Some (VnNumber n)
  | VStr s => Some (VnString s)
  | VArr _ | VObj _ => None
  end.

(** The functions of [App] that the tree holds as props. *)
Inductive handler : Type :=
| InputBaseUrl
| ResetBaseUrl
| InputUsername
| InputPassword
| HandleLogin
| HandleLogout
| SendQuick (i : nat)
| InputCustomMethod
| InputCustomPath
| InputCustomBody
| HandleCustom
| ClearResponse.

(** The number each is known by. *)
Definition handler_id (f : handler) : nat :=
  match f with
  | InputBaseUrl => 0
  | ResetBaseUrl => 1
  | InputUsername => 2
  | InputPassword => 3
  | HandleLogin => 4
  | HandleLogout => 5
  | InputCustomMethod => 6
  | InputCustomPath => 7
  | InputCustomBody => 8
  | HandleCustom => 9
  | ClearResponse => 10
  | SendQuick i => 11 + i
  end.

Definition fn (f : handler) : prop_value := PFunction (handler_id f).

Definition str (s : string) : prop_value := PValue (VStr s).

(** [{ className: c }]. *)
Definition cls (c : string) : option props := Some [("className", str c)].

(** A text passed as a child. *)
Definition text (s : string) : child_arg := One (VnString s).

(** The double quote. *)
Definition quote_mark : string := String "034" EmptyString.

(** The placeholder of the body field: an object with the key "key" and the
    value "value", as JSON text. *)
Definition body_placeholder : string :=
  "{" +:+ quote_mark +:+ "key" +:+ quote_mark +:+ ":"
      +:+ quote_mark +:+ "value" +:+ quote_mark +:+ "}".

(** [v.k] where [v] may be [undefined] or [null]. *)
Definition member (v : value) (k : string) : js_error + value :=
  match v with
  | VUndef =>
      inl (TypeError ("Cannot read properties of undefined (reading '" +:+ k +:+ "')"))
  | VNull =>
      inl (TypeError ("Cannot read properties of null (reading '" +:+ k +:+ "')"))
  | _ => inr (get_prop v k)
  end.

(** A property of the props object a component is called with; a name the
    object lacks reads [undefined]. *)
Definition prop (name : string) (p : option props) : prop_value :=
  fold_left (fun found kv => if String.eqb name (fst kv) then snd kv else found)
    (default [] p) (PValue VUndef).

Definition prop_truthy (v : prop_value) : bool :=
  match v with
  | PValue v => truthy v
  | PFunction _ => true
  end.

(** [r.k] for a truthy [r]: a function has none of the properties read. *)
Definition field (r : prop_value) (k : string) : value :=
  match r with
  | PValue v => get_prop v k
  | PFunction _ => VUndef
  end.

Section Page.

Context `{Browser}.

(** [JSON.stringify(v, null, 2)]. *)
Variable stringify_indented : value -> option string.

(** The text of a function, as a template literal prints it. *)
Variable function_text : nat -> string.

(** How [h] and [createDom] read a child that is not a primitive: an array,
    an object or a function.  The tree has no such node; the page passes
    none. *)
Variable other_child : prop_value -> child_arg.

(** [window.location.origin]. *)
Variable origin : string.

Definition prop_text (v : prop_value) : string :=
  match v with
  | PValue v => to_string v
  | PFunction f => function_text f
  end.

(** A value passed to [h] as a child. *)
Definition child (v : prop_value) : child_arg :=
  match v with
  | PValue x =>
      match leaf x with
      | Some node => One node
      | None => other_child v
      end
  | PFunction _ => other_child v
  end.

(** [Toast({ tone, message })]. *)
Definition Toast (p : option props) : vnode :=
  let tone := prop "tone" p in
  let message := prop "message" p in
  if negb (prop_truthy message) then VnNull
  else h (Tag "div") (Some [("className", str ("toast " +:+ prop_text tone))])
         [child message].

(** [typeof data === 'string' ? data : JSON.stringify(data, null, 2)], as
    the node it makes. *)
Definition prettyPayload (data : value) : vnode :=
  match data with
  | VStr s => VnString s
  | _ =>
      match stringify_indented data with
      | Some s => VnString s
      | None => VnUndefined
      end
  end.

(** [ResultPanel({ response, onClear })]. *)
Definition ResultPanel (p : option props) : vnode :=
  let response := prop "response" p in
  let onClear := prop "onClear" p in
  if negb (prop_truthy response) then VnNull
  else
    h (Tag "div") (cls "card")
      [One (h (Tag "div") (cls "res-header")
              [One (h (Tag "div") None
                      [One (h (Tag "p") (cls "eyebrow") [text "Last response"]);
                       One (h (Tag "h2") None
                              [text (to_string (field response "method") +:+ " "
                                     +:+ to_string (field response "path"))]);
                       One (h (Tag "p") None
                              [text "Status: ";
                               One (h (Tag "span") (cls "chip")
                                      [child (PValue (field response "status"))])])]);
               One (h (Tag "button")
                      (Some [("className", str "secondary"); ("onClick", onClear)])
                      [text "Clear"])]);
       One (h (Tag "div") (cls "results")
              [One (h (Tag "pre") None [One (prettyPayload (field response "data"))])])].

(** The numbers of the three components of the page. *)
Definition App_number : nat := 0.
Definition Toast_number : nat := 1.
Definition ResultPanel_number : nat := 2.

(** The header of the page. *)
Definition header (token : value) : vnode :=
  h (Tag "header") (cls "header")
    [One (h (Tag "div") (cls "header__titles")
            [One (h (Tag "p") (cls "eyebrow") [text "GADS Hub"]);
             One (h (Tag "h1") None [text "React control surface"]);
             One (h (Tag "p") None
                    [text "Configure a hub endpoint, authenticate, and call common APIs from an extendable React workspace."])]);
     One (h (Tag "div") (cls "status-chip")
            [text (if truthy token then "Authenticated" else "Guest mode")])].

(** The card of the base URL. *)
Definition connection_card (resolvedBaseUrl : value) : vnode :=
  h (Tag "div") (cls "card")
    [One (h (Tag "p") (cls "eyebrow") [text "Connection"]);
     One (h (Tag "h2") None [text "API base URL"]);
     One (h (Tag "p") None
            [text "Use your running hub address. Values persist locally so you can reconnect faster."]);
     One (h (Tag "div") (cls "field")
            [One (h (Tag "label") (Some [("htmlFor", str "base")]) [text "Base URL"]);
             One (h (Tag "input")
                    (Some [("id", str "base"); ("type", str "url");
                           ("value", PValue resolvedBaseUrl);
                           ("onInput", fn InputBaseUrl);
                           ("placeholder", str "http://localhost:10000")])
                    [])]);
     One (h (Tag "div") (cls "button-row")
            [One (h (Tag "button")
                    (Some [("className", str "secondary"); ("onClick", fn ResetBaseUrl)])
                    [text "Reset to page origin"]);
             One (h (Tag "span") (cls "chip") [text "Saved locally"])])].

(** The card of the credentials. *)
Definition authentication_card (token username password isLoading : value) : vnode :=
  h (Tag "div") (cls "card")
    [One (h (Tag "p") (cls "eyebrow") [text "Authentication"]);
     One (h (Tag "h2") None [text "Sign in"]);
     One (h (Tag "p") None
            [text "Obtain a bearer token from the hub. Credentials are not stored locally."]);
     One (h (Tag "div") (cls "field")
            [One (h (Tag "label") (Some [("htmlFor", str "username")]) [text "Username"]);
             One (h (Tag "input")
                    (Some [("id", str "username"); ("value", PValue username);
                           ("onInput", fn InputUsername);
                           ("autoComplete", str "username")])
                    [])]);
     One (h (Tag "div") (cls "field")
            [One (h (Tag "label") (Some [("htmlFor", str "password")]) [text "Password"]);
             One (h (Tag "input")
                    (Some [("id", str "password"); ("type", str "password");
                           ("value", PValue password);
                           ("onInput", fn InputPassword);
                           ("autoComplete", str "current-password")])
                    [])]);
     One (h (Tag "div") (cls "button-row")
            [One (h (Tag "button")
                    (Some [("onClick", fn HandleLogin); ("disabled", PValue isLoading)])
                    [text "Request token"]);
             One (h (Tag "button")
                    (Some [("className", str "secondary"); ("onClick", fn HandleLogout);
                           ("disabled",
                            PValue (if truthy token then isLoading else VBool true))])
                    [text "Log out"])]);
     (if truthy token
      then One (h (Tag "div") (cls "panel")
                  [One (h (Tag "strong") None [text "Bearer token"]);
                   One (h (Tag "p") (Some [("style", str "word-break: break-all")])
                          [child (PValue token)])])
      else One VnNull)].

(** The card of the quick actions. *)
Definition quick_actions_card (isLoading : value) : vnode :=
  h (Tag "div") (cls "card")
    ([One (h (Tag "p") (cls "eyebrow") [text "Quick actions"]);
      One (h (Tag "h2") None [text "Common endpoints"]);
      One (h (Tag "p") None
             [text "Send authenticated hub requests without writing curl scripts. Extend this list with new components as features grow."]);
      One (h (Tag "div") (cls "button-row")
             (imap (fun i action =>
                      One (h (Tag "button")
                             (Some [("key", str (App.qa_path action));
                                    ("disabled", PValue isLoading);
                                    ("onClick", fn (SendQuick i))])
                             [text (App.title action)]))
                (App.QUICK_ACTIONS App.Inline)));
      One (h (Tag "div") (cls "panel")
             (map (fun action =>
                     One (h (Tag "div")
                            (Some [("key", str (App.title action));
                                   ("style", str "margin-bottom: 8px")])
                            [One (h (Tag "strong") None [text (App.title action)]);
                             text " ";
                             One (h (Tag "span") (cls "badge")
                                    [text (App.qa_method action +:+ " "
                                           +:+ App.qa_path action)]);
                             One (h (Tag "p") (Some [("style", str "margin-top: 4px")])
                                    [text (App.description action)])]))
                (App.QUICK_ACTIONS App.Inline)))]).

(** The card of the custom call. *)
Definition request_lab_card (customMethod customPath customBody isLoading : value)
    : vnode :=
  h (Tag "div") (cls "card")
    [One (h (Tag "p") (cls "eyebrow") [text "Request lab"]);
     One (h (Tag "h2") None [text "Custom call"]);
     One (h (Tag "p") None
            [text "Experiment with any hub endpoint. JSON bodies are supported for non-GET methods."]);
     One (h (Tag "div") (cls "grid")
            [One (h (Tag "div") (cls "field")
                    [One (h (Tag "label") (Some [("htmlFor", str "method")])
                            [text "Method"]);
                     One (h (Tag "select")
                            (Some [("id", str "method"); ("value", PValue customMethod);
                                   ("onInput", fn InputCustomMethod)])
                            [One (h (Tag "option") None [text "GET"]);
                             One (h (Tag "option") None [text "POST"]);
                             One (h (Tag "option") None [text "PUT"]);
                             One (h (Tag "option") None [text "DELETE"])])]);
             One (h (Tag "div") (cls "field")
                    [One (h (Tag "label") (Some [("htmlFor", str "path")]) [text "Path"]);
                     One (h (Tag "input")
                            (Some [("id", str "path"); ("value", PValue customPath);
                                   ("onInput", fn InputCustomPath)])
                            [])])]);
     One (h (Tag "div") (cls "field")
            [One (h (Tag "label") (Some [("htmlFor", str "body")])
                    [text "JSON body (optional)"]);
             One (h (Tag "textarea")
                    (Some [("id", str "body"); ("value", PValue customBody);
                           ("onInput", fn InputCustomBody);
                           ("placeholder", str body_placeholder)])
                    [])]);
     One (h (Tag "div") (cls "button-row")
            [One (h (Tag "button")
                    (Some [("onClick", fn HandleCustom); ("disabled", PValue isLoading)])
                    [text "Send request"]);
             One (h (Tag "span") (cls "chip") [text "Authorization header auto-applied"])])].

(** The tree [App] returns, from the values its hooks gave it. *)
Definition App_view (token username password isLoading response
                       customPath customMethod customBody resolvedBaseUrl
                       toast_tone toast_message : value) : vnode :=
  h (Tag "div") (cls "app-shell")
    [One (header token);
     One (h (Tag "div") (cls "grid")
            [One (connection_card resolvedBaseUrl);
             One (authentication_card token username password isLoading)]);
     One (quick_actions_card isLoading);
     One (request_lab_card customMethod customPath customBody isLoading);
     One (h (Component Toast_number)
            (Some [("tone", PValue toast_tone); ("message", PValue toast_message)]) []);
     One (h (Component ResultPanel_number)
            (Some [("response", PValue response); ("onClear", fn ClearResponse)]) [])].

(** [App()]: the hook calls in their order, then the tree. *)
Definition App : M browser vnode :=
  baseUrl <- useLocalStorage "hub.baseUrl" (VStr origin) ;;
  token <- useLocalStorage "hub.token" (VStr "") ;;
  username <- useState (InitValue (VStr "")) ;;
  password <- useState (InitValue (VStr "")) ;;
  isLoading <- useState (InitValue (VBool false)) ;;
  response <- useState (InitValue VNull) ;;
  toast <- useState (InitValue (VObj [("tone", VStr "success"); ("message", VStr "")])) ;;
  customPath <- useState (InitValue (VStr "/admin/providers")) ;;
  customMethod <- useState (InitValue (VStr "GET")) ;;
  customBody <- useState (InitValue (VStr "")) ;;
  resolvedBaseUrl <-
    useMemo (fun e => (if truthy (fst baseUrl) then fst baseUrl else VStr origin, e))
      (Some [fst baseUrl; VStr origin]) ;;
  toast_tone <- lift_error (member (fst toast) "tone") ;;
  toast_message <- lift_error (member (fst toast) "message") ;;
  ret (App_view (fst token) (fst username) (fst password) (fst isLoading) (fst response)
         (fst customPath) (fst customMethod) (fst customBody) resolvedBaseUrl
         toast_tone toast_message).

(** The components of the page, by number; no other number names one. *)
Definition page_component (c : nat) (p : option props) (children : list vnode)
    : M browser vnode :=
  match c with
  | 0 => App
  | 1 => ret (Toast p)
  | 2 => ret (ResultPanel p)
  | _ => ret VnNull
  end.

(** *** The state of the page in the cells of [App] *)

Definition tone_text (t : App.Tone) : string :=
  match t with
  | App.success => "success"
  | App.error => "error"
  end.

(** The object [setToast] is called with. *)
Definition toast_object (t : App.Toast) : value :=
  VObj [("tone", VStr (tone_text (App.tone t))); ("message", VStr (App.message t))].

Definition status_value (s : App.Status) : value :=
  match s with
  | App.StatusCode code => VNum (Z.of_nat code)
  | App.StatusErrorText => VStr "error"
  end.

(** The object [setResponse] is called with, or [null]. *)
Definition response_object (r : option App.ResponseRecord) : value :=
  match r with
  | Some r =>
      VObj [("method", VStr (App.r_method r)); ("path", VStr (App.r_path r));
            ("status", status_value (App.r_status r)); ("data", App.r_data r)]
  | None => VNull
  end.

(** The thirteen cells of [App] after a render in which its hooks read the
    state [st]: two for each stored value, one for each other state, one
    for the memo. *)
Definition state_cells (st : App.AppState) : list (slot browser) :=
  let baseUrl := VStr (App.baseUrl st) in
  [SValue baseUrl;
   SEffect (Some [VStr "hub.baseUrl"; baseUrl]) None;
   SValue (App.token st);
   SEffect (Some [VStr "hub.token"; App.token st]) None;
   SValue (VStr (App.username st));
   SValue (VStr (App.password st));
   SValue (VBool (App.isLoading st));
   SValue (response_object (App.response st));
   SValue (toast_object (App.toast st));
   SValue (VStr (App.customPath st));
   SValue (VStr (App.customMethod st));
   SValue (VStr (App.customBody st));
   SMemo (if truthy baseUrl then baseUrl else VStr origin) (Some [baseUrl; VStr origin])].

(** The tree [App] returns in the state [st]. *)
Definition state_view (st : App.AppState) : vnode :=
  App_view (App.token st) (VStr (App.username st)) (VStr (App.password st))
    (VBool (App.isLoading st)) (response_object (App.response st))
    (VStr (App.customPath st)) (VStr (App.customMethod st)) (VStr (App.customBody st))
    (if truthy (VStr (App.baseUrl st)) then VStr (App.baseUrl st) else VStr origin)
    (VStr (tone_text (App.tone (App.toast st)))) (VStr (App.message (App.toast st))).

(** The text the result panel shows for the data of a response. *)
Definition payload_text (data : value) : string :=
  match data with
  | VStr s => s
  | _ => default "" (stringify_indented data)
  end.

End Page.

(** What the theorems on the page read off a node: it is no fragment; its
    buttons; the texts of its status chip, of its toast of the given tone
    and of its results block. *)
Definition shows (d : dom) (bs : list (string * bool * list nat))
    (chip toasts results : list string) (tone : App.Tone) : Prop :=
  Tree.is_fragment d = false /\
  Tree.buttons d = bs /\
  Tree.texts_of_class "status-chip" d = chip /\
  Tree.texts_of_class ("toast " +:+ tone_text tone) d = toasts /\
  Tree.texts_of_class "results" d = results.

(** The buttons of the page, outside the result panel, when the token is the
    text [t] and the loading flag is [l]: each with its label, whether it is
    disabled, and the function its click calls. *)
Definition page_buttons (t : string) (l : bool) : list (string * bool * list nat) :=
  [("Reset to page origin", false, [handler_id ResetBaseUrl]);
   ("Request token", l, [handler_id HandleLogin]);
   ("Log out", String.eqb t "" || l, [handler_id HandleLogout]);
   ("Providers", l, [handler_id (SendQuick 0)]);
   ("Devices", l, [handler_id (SendQuick 1)]);
   ("Workspaces", l, [handler_id (SendQuick 2)]);
   ("User Info", l, [handler_id (SendQuick 3)]);
   ("Health", l, [handler_id (SendQuick 4)]);
   ("Send request", l, [handler_id HandleCustom])].

(** The button of the result panel. *)
Definition clear_button : string * bool * list nat :=
  ("Clear", false, [handler_id ClearResponse]).

(** What the page shows in the state [st], whose token is the text [t]: the
    buttons, the chip, the toast unless its message is empty, and the data
    of the response if there is one. *)
Definition shows_state (stringify_indented : value -> option string)
    (st : App.AppState) (t : string) (d : dom) : Prop :=
  shows d
    (page_buttons t (App.isLoading st) ++
     match App.response st with
     | Some _ => [clear_button]
     | None => []
     end)
    [if String.eqb t "" then "Guest mode" else "Authenticated"]
    (if String.eqb (App.message (App.toast st)) "" then []
     else [App.message (App.toast st)])
    (match App.response st with
     | Some r => [payload_text stringify_indented (App.r_data r)]
     | None => []
     end)
    (App.tone (App.toast st)).

(** The page [App] leaves after it read the cells of the state [st] in a
    render into [container]. *)
Definition settled_page `{Browser} (origin : string) (st : App.AppState)
    (container : nat) (e : browser) (cs : gmap nat (list dom)) : page browser :=
  {| rt := {| hooks := map_seq 0 (state_cells origin st); hookIndex := 13;
              pendingEffects := []; currentRoot := Some container;
              currentVNode := Some root |};
     ext := e; containers := cs |}.









End View.

(** ** Pages to run *)

Module Samples.

Import App Runtime Storage.

(** A signed-in page with a custom call prepared. *)
Definition signed_in (body : string) : Page :=
  {| app := {| baseUrl := "http://hub/"; token := VStr "abc"; username := "u";
               password := "pw"; isLoading := false; response := None;
               toast := {| tone := success; message := "" |};
               customPath := "admin/devices"; customMethod := "POST";
               customBody := body |};
     sent := [] |}.

(** The same page before anyone signed in. *)
Definition guest : Page :=
  {| app := setToken (VStr "") (app (signed_in "")); sent := [] |}.

(** The body of a successful sign-in, as the hub writes it. *)
Definition login_reply : string :=
  Eval vm_compute in
    default "" (Json.stringify (VObj [("access_token", VStr "abc"); ("username", VStr "u")])).


(** A component with one state cell, shown as text. *)
Definition counter_view (c : nat) (_ : option props) (_ : list vnode) : M unit vnode :=
  match c with
  | O =>
      r <- useState (InitValue (VNum 5)) ;;
      ret (VnString (to_string (fst r)))
  | S _ => ret VnNull
  end.


(** A component that passes a dependency list to its memo and its effect
    only once its flag is set; the effect and the factory count their calls
    in the world outside. *)
Definition late_deps_memo (c : nat) (_ : option props) (_ : list vnode) : M nat vnode :=
  match c with
  | O =>
      flag <- useState (InitValue (VBool false)) ;;
      v <- useMemo (fun calls => (VNum (Z.of_nat calls), S calls))
             (if truthy (fst flag) then Some [VNum 7] else None) ;;
      ret (VnString (to_string v))
  | S _ => ret VnNull
  end.

Definition late_deps_effect (c : nat) (_ : option props) (_ : list vnode) : M nat vnode :=
  match c with
  | O =>
      flag <- useState (InitValue (VBool false)) ;;
      _ <- useEffect (fun calls => (None, S calls))
             (if truthy (fst flag) then Some [VNum 7] else None) ;;
      ret (VnString "effect")
  | S _ => ret VnNull
  end.


(** A component that returns a fragment holding a fragment. *)
Definition fragments_view (c : nat) (_ : option props) (_ : list vnode) : M unit vnode :=
  match c with
  | O =>
      ret (createElement Fragment None
             [One (VnString "a");
              One (createElement Fragment None
                     [One (createElement (Tag "b") None [One (VnString "b")])])])
  | S _ => ret VnNull
  end.


(** A printer, a text for functions and a reading of other children, to
    run the page with. *)
Definition sample_printer (v : value) : option string := Json.stringify v.

Definition sample_function_text (f : nat) : string := "function".

Definition sample_other_child (v : prop_value) : child_arg := One VnNull.

(** A browser with an empty storage. *)
Definition fresh_browser : browser := {| localStorage := ∅; console := [] |}.

(** A browser whose storage holds one key. *)
Definition browser_with (key text : string) : browser :=
  {| localStorage := {[ key := text ]}; console := [] |}.

End Samples.

(** * Verification *)

(** ** URL resolution *)

Section UrlFacts.

Lemma strip_trailing_slash_cons (c d : ascii) (s : string) :
  strip_trailing_slash (String c (String d s)) =
  String c (strip_trailing_slash (String d s)).
Proof. reflexivity. Qed.

(** A base that does not end in two slashes loses all its trailing slashes
    when it loses one. *)
Lemma strip_is_drop (base : string) :
  ends_with_two_slashes base = false ->
  strip_trailing_slash base = drop_trailing_slashes base.
Proof.
  induction base as [|c rest IH]; [reflexivity|].
  destruct rest as [|d rest'].
  - intros _. reflexivity.
  - intros Hends. rewrite strip_trailing_slash_cons.
    destruct rest' as [|e rest''].
    + cbn in Hends. cbn.
      destruct (Ascii.eqb d slash); [|reflexivity].
      rewrite andb_true_r in Hends. rewrite Hends. reflexivity.
    + assert (Hrest : ends_with_two_slashes (String d (String e rest'')) = false)
        by exact Hends.
      specialize (IH Hrest).
      change (drop_trailing_slashes (String c (String d (String e rest''))))
        with (match drop_trailing_slashes (String d (String e rest'')) with
              | EmptyString =>
                  if Ascii.eqb c slash then EmptyString else String c EmptyString
              | kept => String c kept
              end).
      rewrite <- IH. rewrite strip_trailing_slash_cons. reflexivity.
Qed.

(** A path that does not start with two slashes, given its leading slash, is
    one slash and the path without leading slashes. *)
Lemma lead_is_drop (path : string) :
  starts_with_two_slashes path = false ->
  (if negb (startsWith_slash path) then "/" +:+ path else path) =
  "/" +:+ drop_leading_slashes path.
Proof.
  destruct path as [|c rest]; [reflexivity|].
  intros Hstart. cbn.
  destruct (Ascii.eqb_spec c slash) as [->|Hc]; cbn.
  - destruct rest as [|d rest']; [reflexivity|].
    cbn in Hstart. cbn. rewrite Hstart. reflexivity.
  - reflexivity.
Qed.

(** buildUrl always removes at most one slash on each side of the joint. *)
Lemma buildUrl_shape (base path : string) :
  buildUrl base path =
  strip_trailing_slash base +:+
    (if negb (startsWith_slash path) then "/" +:+ path else path).
Proof. unfold buildUrl. destruct (negb (startsWith_slash path)); reflexivity. Qed.

(** C1 (as amended): for every base URL that does not end in two slashes and
    every path that does not start with two slashes, buildUrl joins them with
    exactly one slash, whether or not the base ends with a slash or the path
    starts with one. *)
Theorem buildUrl_one_separator (base path : string) :
  ends_with_two_slashes base = false ->
  starts_with_two_slashes path = false ->
  buildUrl base path = joined_once base path.
Proof.
  intros Hbase Hpath. rewrite buildUrl_shape. unfold joined_once.
  rewrite (strip_is_drop base Hbase), (lead_is_drop path Hpath). reflexivity.
Qed.

(** The two instances the specification names. *)
Lemma buildUrl_one_separator_witness :
  buildUrl "http://x/" "/y" = "http://x/y" /\ buildUrl "http://x" "y" = "http://x/y".
Proof.
  split.
  - exact (buildUrl_one_separator "http://x/" "/y" eq_refl eq_refl).
  - exact (buildUrl_one_separator "http://x" "y" eq_refl eq_refl).
Defined.

(** C1 (as stated) fails: only one trailing slash of the base is removed, so
    a base ending in two slashes is joined by two. *)
Lemma buildUrl_keeps_second_slash :
  buildUrl "http://x//" "/y" = "http://x//y" /\
  joined_once "http://x//" "/y" = "http://x/y" /\
  buildUrl "http://x//" "/y" <> joined_once "http://x//" "/y".
Proof. repeat split. discriminate. Qed.

End UrlFacts.

(** ** Requests and handlers *)

Section HandlerFacts.

Import App.

Context `{Browser}.

#[local] Open Scope list_scope.

Variable build : Build.
Variable origin : string.

Abbreviation sendRequest := (App.sendRequest build origin).
Abbreviation handleLogin := (App.handleLogin build origin).
Abbreviation handleLogout := (App.handleLogout build origin).
Abbreviation handleCustom := (App.handleCustom build origin).
Abbreviation triggerQuickAction := (App.triggerQuickAction build origin).

Lemma sendRequest_sent (o : FetchOutcome) (path : string) (m : option string)
    (body : value) (p : Page) :
  sent (snd (sendRequest o path m body p)) =
  sent p ++ [build_request origin (app p) path (default "GET" m) body].
Proof. unfold App.sendRequest. destruct o; reflexivity. Qed.

Lemma sendRequest_token (o : FetchOutcome) (path : string) (m : option string)
    (body : value) (p : Page) :
  token (app (snd (sendRequest o path m body p))) = token (app p).
Proof. unfold App.sendRequest. destruct o; reflexivity. Qed.

Lemma sendRequest_failure (status : nat) (text path : string) (m : option string)
    (body : value) (p : Page) :
  is_ok status = false ->
  failure_recorded status p (snd (sendRequest (Responded status text) path m body p)).
Proof.
  intros Hfail. unfold failure_recorded, App.sendRequest. cbn.
  rewrite Hfail. split; [|split; reflexivity].
  eexists. split; reflexivity.
Qed.

Lemma sendRequest_failure_result (status : nat) (text path : string)
    (m : option string) (body : value) (p : Page) :
  is_ok status = false ->
  ok (fst (sendRequest (Responded status text) path m body p)) = false.
Proof. intros Hfail. unfold App.sendRequest. cbn. exact Hfail. Qed.

Lemma handleLogin_failure (status : nat) (text : string) (p : Page) :
  is_ok status = false ->
  handleLogin (Responded status text) p =
  snd (sendRequest (Responded status text) "/authenticate" (Some "POST")
         (VObj [("username", VStr (username (app p)));
                ("password", VStr (password (app p)))]) p).
Proof.
  intros Hfail. unfold App.handleLogin.
  pose proof (sendRequest_failure_result status text "/authenticate" (Some "POST")
                (VObj [("username", VStr (username (app p)));
                       ("password", VStr (password (app p)))]) p Hfail) as Hok.
  destruct (sendRequest _ _ _ _ p) as [result p1]. cbn in Hok |- *.
  rewrite Hok. destruct (data result); reflexivity.
Qed.

(** C2 (as amended): a non-2xx response to a request dispatched by
    sendRequest itself, by a quick action, by a custom call or by the login
    flow leaves a response record with that status, an error toast and the
    token unchanged; the logout flow keeps the response record with the
    status, then clears the token and shows its own success toast. *)
Theorem non_2xx_response (status : nat) (text : string) (p : Page) :
  is_ok status = false ->
  (forall path m body,
      failure_recorded status p
        (snd (sendRequest (Responded status text) path m body p))) /\
  (forall action,
      failure_recorded status p (triggerQuickAction (Responded status text) action p)) /\
  (sent (handleCustom (Responded status text) p) <> sent p ->
   failure_recorded status p (handleCustom (Responded status text) p)) /\
  failure_recorded status p (handleLogin (Responded status text) p) /\
  ((exists r, response (app (handleLogout (Responded status text) p)) = Some r /\
              r_status r = StatusCode status) /\
   token (app (handleLogout (Responded status text) p)) = VStr "" /\
   toast (app (handleLogout (Responded status text) p)) =
     {| tone := success; message := "Logged out and token cleared" |}).
Proof.
  intros Hfail. split; [|split; [|split; [|split]]].
  - intros path m body. now apply sendRequest_failure.
  - intros action. unfold App.triggerQuickAction. now apply sendRequest_failure.
  - unfold App.handleCustom.
    destruct (negb (String.eqb (trim (customBody (app p))) "")).
    + destruct (JSON_parse (customBody (app p))).
      * intros _. now apply sendRequest_failure.
      * intros Hsent. now contradiction Hsent.
    + intros _. now apply sendRequest_failure.
  - rewrite (handleLogin_failure status text p Hfail). now apply sendRequest_failure.
  - unfold App.handleLogout, App.sendRequest. cbn. split; [|split; reflexivity].
    eexists. split; reflexivity.
Qed.

(** C3: a custom call whose body text is not blank and is not valid JSON
    issues no network call and sets an error toast; a custom call whose body
    text is blank issues one request, without a body. *)
Theorem custom_call_body (o : FetchOutcome) (p : Page) :
  (trim (customBody (app p)) <> "" ->
   JSON_parse (customBody (app p)) = None ->
   sent (handleCustom o p) = sent p /\
   toast (app (handleCustom o p)) =
     {| tone := error; message := "Request body must be valid JSON" |}) /\
  (trim (customBody (app p)) = "" ->
   exists req,
     sent (handleCustom o p) = sent p ++ [req] /\
     req_body req = None /\
     req_method req = customMethod (app p) /\
     req_url req = buildUrl (resolvedBaseUrl origin (app p)) (customPath (app p))).
Proof.
  split.
  - intros Hblank Hparse. unfold App.handleCustom.
    destruct (String.eqb_spec (trim (customBody (app p))) "") as [E|_];
      [contradiction|].
    cbn. rewrite Hparse. split; reflexivity.
  - intros Hblank. unfold App.handleCustom. rewrite Hblank. cbn.
    eexists. rewrite sendRequest_sent. split; [reflexivity|].
    cbn. repeat split.
Qed.

(** C6: when the network call throws, the error is caught: sendRequest
    returns, the toast is an error toast with the error's message, and the
    response record has the status "error".  Whatever the outcome, the
    loading flag is false when the dispatch completes, in sendRequest and in
    every handler that dispatched a request. *)
Theorem thrown_request_and_loading_flag :
  (forall e path m body p,
      let r := sendRequest (Rejected e) path m body p in
      fst r = {| ok := false; data := DataError e |} /\
      toast (app (snd r)) = {| tone := error; message := err_message e |} /\
      response (app (snd r)) =
        Some {| r_method := default "GET" m; r_path := path;
                r_status := StatusErrorText; r_data := VStr (err_message e) |}) /\
  (forall o path m body p,
      isLoading (app (snd (sendRequest o path m body p))) = false) /\
  (forall o action p, isLoading (app (triggerQuickAction o action p)) = false) /\
  (forall o p, isLoading (app (handleLogin o p)) = false) /\
  (forall o p, isLoading (app (handleLogout o p)) = false) /\
  (forall o p, sent (handleCustom o p) <> sent p ->
               isLoading (app (handleCustom o p)) = false).
Proof.
  assert (Hsend : forall o path m body p,
             isLoading (app (snd (sendRequest o path m body p))) = false).
  { intros o path m body p. unfold App.sendRequest. destruct o; reflexivity. }
  repeat apply conj.
  - intros e path m body p r. subst r. repeat split.
  - exact Hsend.
  - intros o action p. apply Hsend.
  - intros o p. unfold App.handleLogin.
    pose proof (Hsend o "/authenticate" (Some "POST")
                  (VObj [("username", VStr (username (app p)));
                         ("password", VStr (password (app p)))]) p) as Hl.
    destruct (sendRequest _ _ _ _ p) as [result p1]. cbn in Hl.
    destruct (data result); [|exact Hl].
    destruct (ok result && truthy (get_prop_opt v "access_token")); [|exact Hl].
    exact Hl.
  - intros o p. unfold App.handleLogout.
    pose proof (Hsend o "/logout" (Some "POST") VUndef p) as Hl.
    destruct (sendRequest _ _ _ _ p) as [result p1]. exact Hl.
  - intros o p. unfold App.handleCustom.
    destruct (negb (String.eqb (trim (customBody (app p))) "")).
    + destruct (JSON_parse (customBody (app p))).
      * intros _. apply Hsend.
      * intros Hsent. now contradiction Hsent.
    + intros _. apply Hsend.
Qed.

(** C7: a login whose POST to /authenticate is answered with an ok status and
    a body that parses to an object with access_token "abc" and username "u"
    ends with the token "abc" stored and a success toast whose message
    contains "u". *)
Theorem login_stores_token (status : nat) (text : string) (d : value) (p : Page) :
  is_ok status = true ->
  JSON_parse text = Some d ->
  get_prop_opt d "access_token" = VStr "abc" ->
  get_prop d "username" = VStr "u" ->
  let p' := handleLogin (Responded status text) p in
  token (app p') = VStr "abc" /\
  tone (toast (app p')) = success /\
  message (toast (app p')) = "Signed in as u" /\
  includes "u" (message (toast (app p'))) = true /\
  (exists req, sent p' = sent p ++ [req] /\
               req_method req = "POST" /\
               req_url req = buildUrl (resolvedBaseUrl origin (app p)) "/authenticate").
Proof.
  intros Hok Hparse Htoken Huser p'.
  assert (Hd : get_prop d "access_token" = VStr "abc").
  { destruct d; cbn in Htoken; try discriminate; exact Htoken. }
  assert (Hp' : app p' =
                setToast {| tone := success; message := "Signed in as u" |}
                  (setToken (VStr "abc")
                     (app (snd (sendRequest (Responded status text) "/authenticate"
                                  (Some "POST")
                                  (VObj [("username", VStr (username (app p)));
                                         ("password", VStr (password (app p)))]) p)))) /\
                sent p' =
                sent (snd (sendRequest (Responded status text) "/authenticate"
                             (Some "POST")
                             (VObj [("username", VStr (username (app p)));
                                    ("password", VStr (password (app p)))]) p))).
  { subst p'. unfold App.handleLogin, App.sendRequest. cbn.
    rewrite Hparse, Hok. cbn. rewrite Htoken. cbn. rewrite Hd.
    unfold signed_in_name. rewrite Huser. destruct build; split; reflexivity. }
  destruct Hp' as [Happ Hsent]. rewrite Happ. repeat split.
  eexists. rewrite Hsent, sendRequest_sent. repeat split.
Qed.

(** C10: a falsy body (0, false, null, the empty string, or none) is never
    attached to the outgoing call, whatever the method. *)
Theorem falsy_body_not_attached (o : FetchOutcome) (path : string)
    (m : option string) (body : value) (p : Page) :
  truthy body = false ->
  exists req,
    sent (snd (sendRequest o path m body p)) = sent p ++ [req] /\
    req_method req = default "GET" m /\
    req_body req = None.
Proof.
  intros Hfalsy. eexists. rewrite sendRequest_sent. repeat split.
  cbn. rewrite Hfalsy. reflexivity.
Qed.

(** A truthy body goes out serialised, unless the method is GET. *)
Lemma truthy_body_attached (o : FetchOutcome) (path method : string)
    (body : value) (p : Page) :
  truthy body = true ->
  method <> "GET" ->
  exists req,
    sent (snd (sendRequest o path (Some method) body p)) = sent p ++ [req] /\
    req_body req = JSON_stringify body.
Proof.
  intros Htruthy Hmethod. eexists. rewrite sendRequest_sent. split; [reflexivity|].
  cbn. rewrite Htruthy.
  destruct (String.eqb_spec method "GET"); [contradiction | reflexivity].
Qed.

End HandlerFacts.

(** ** The handlers, run against the reference reader *)

Section HandlerRuns.

Import App Samples.

#[local] Open Scope list_scope.

#[local] Existing Instance Json.reference_browser.

(** A 401 answer to the login and to the logout of a signed-in page. *)
Lemma non_2xx_response_witness :
  failure_recorded 401 (signed_in "")
    (handleLogin Bundled "http://page" (Responded 401 "denied") (signed_in "")) /\
  token (app (handleLogout Bundled "http://page" (Responded 401 "denied") (signed_in "")))
    = VStr "".
Proof.
  pose proof (@non_2xx_response Json.reference_browser Bundled "http://page" 401
                "denied" (signed_in "") eq_refl) as Hall.
  destruct Hall as (_ & _ & _ & Hlogin & _ & Htoken & _).
  split; [exact Hlogin | exact Htoken].
Defined.

(** C2 (as stated) fails in the logout flow: after a 401 the token that was
    "abc" is the empty string and the toast is a success toast. *)
Lemma logout_failure_clears_token :
  let before := signed_in "" in
  let after := handleLogout Inline "http://page"
                 (Responded 401 "denied") before in
  is_ok 401 = false /\
  token (app before) = VStr "abc" /\
  token (app after) = VStr "" /\
  toast (app after) = {| tone := success; message := "Logged out and token cleared" |} /\
  ~ failure_recorded 401 before after.
Proof.
  cbv zeta. repeat split.
  intros (_ & Htone & _). discriminate Htone.
Qed.

(** The body text [{not json] is refused before any call; an empty body text
    goes out as a call without a body. *)
Lemma custom_call_body_witness :
  (sent (handleCustom Inline "http://page"
           (Responded 200 "[]") (signed_in "{not json")) = [] /\
   tone (toast (app (handleCustom Inline "http://page"
                       (Responded 200 "[]") (signed_in "{not json")))) = error) /\
  (exists req,
      sent (handleCustom Inline "http://page"
              (Responded 200 "[]") (signed_in "")) = [req] /\
      req_body req = None /\
      req_url req = "http://hub/admin/devices").
Proof.
  split.
  - destruct (proj1 (@custom_call_body Json.reference_browser Inline "http://page"
                       (Responded 200 "[]") (signed_in "{not json")))
      as [Hsent Htoast].
    + discriminate.
    + reflexivity.
    + split; [exact Hsent | now rewrite Htoast].
  - destruct (proj2 (@custom_call_body Json.reference_browser Inline "http://page"
                       (Responded 200 "[]") (signed_in "")) eq_refl)
      as (req & Hsent & Hbody & _ & Hurl).
    exists req. split; [exact Hsent | split; [exact Hbody | exact Hurl]].
Defined.

(** The sign-in of the specification, by a guest, in the bundled build. *)
Lemma login_stores_token_witness :
  token (app guest) = VStr "" /\
  token (app (handleLogin Bundled "http://page"
                (Responded 200 login_reply) guest)) = VStr "abc" /\
  message (toast (app (handleLogin Bundled "http://page"
                         (Responded 200 login_reply) guest))) = "Signed in as u".
Proof.
  destruct (@login_stores_token Json.reference_browser Bundled "http://page" 200
              login_reply
              (VObj [("access_token", VStr "abc"); ("username", VStr "u")])
              guest eq_refl eq_refl eq_refl eq_refl)
    as (Htoken & _ & Hmessage & _).
  split; [reflexivity | split; [exact Htoken | exact Hmessage]].
Defined.

(** The number 0 as the body of a POST. *)
Lemma falsy_body_not_attached_witness :
  exists req,
    sent (snd (sendRequest Inline "http://page"
                 (Responded 200 "{}") "/admin/devices" (Some "POST") (VNum 0)
                 (signed_in ""))) = [req] /\
    req_method req = "POST" /\
    req_body req = None.
Proof.
  exact (@falsy_body_not_attached Json.reference_browser Inline "http://page"
           (Responded 200 "{}") "/admin/devices" (Some "POST") (VNum 0)
           (signed_in "") eq_refl).
Defined.

(** The number 1 goes out, as the text "1". *)
Example truthy_body_attached_run :
  req_body <$> sent (snd (sendRequest Inline "http://page"
                            (Responded 200 "{}") "/admin/devices" (Some "POST") (VNum 1)
                            (signed_in "")))
  = [Some "1"].
Proof. reflexivity. Qed.

End HandlerRuns.

(** ** The runtime: leaves of the virtual tree *)

Section LeafFacts.

Import Runtime.

Context {Ext : Type}.

Variable component : nat -> option props -> list vnode -> M Ext vnode.

(** C9 fails on the code for the boolean leaf [true]: it is not one of the
    values the first test names and is neither a string nor a number, so it
    reaches the element branch, where reading its [children] throws.  The
    throw leaves [createDom], with any fuel, for the leaf alone and for the
    leaf as a child of an element, and leaves [render] before the container
    is touched. *)
Theorem createDom_true_leaf_throws (fuel : nat) (p : page Ext) :
  let thrown := TypeError "Cannot read properties of undefined (reading 'forEach')" in
  is_nothing (VnBool true) = false /\
  text_of (VnBool true) = None /\
  createDom component (S fuel) (VnBool true) p = (Throw thrown, p) /\
  createDom component (S (S fuel))
    (createElement (Tag "div") None [One (VnString "a"); One (VnBool true)]) p
    = (Throw thrown, p) /\
  fst (render component (S fuel) (VnBool true) 0 p) = Throw thrown /\
  containers (snd (render component (S fuel) (VnBool true) 0 p)) = containers p.
Proof. cbv zeta. repeat split. Qed.


End LeafFacts.

(** ** The runtime: dependency lists *)

Section DepsFacts.

Import Runtime.

Context {Ext : Type}.



(** A cell that recorded no list, asked about a list with an entry: the
    comparison reads an index of [undefined] and throws. *)
Lemma deps_changed_unrecorded (previous : slot Ext) (dep : value) (rest : list value) :
  slot_truthy previous = true ->
  slot_deps previous = VUndef ->
  deps_changed previous (Some (dep :: rest)) =
  inl (TypeError "Cannot read properties of undefined").
Proof.
  intros Htruthy Hold. unfold deps_changed. rewrite Htruthy, Hold. reflexivity.
Qed.



(** Both hooks throw on a cell that recorded no list when they are given a
    list with an entry; the factory is not called and nothing is pushed. *)
Lemma hooks_throw_on_unrecorded_deps (factory : factory_body Ext)
    (effect : effect_body Ext) (dep : value) (rest : list value) (p : page Ext) :
  let idx := hookIndex (rt p) in
  let p1 := with_rt (set_hookIndex (S idx)) p in
  ((exists cached, read_slot (rt p) idx = SMemo cached None) ->
   useMemo factory (Some (dep :: rest)) p =
   (Throw (TypeError "Cannot read properties of undefined"), p1)) /\
  ((exists cleanup, read_slot (rt p) idx = SEffect None cleanup) ->
   useEffect effect (Some (dep :: rest)) p =
   (Throw (TypeError "Cannot read properties of undefined"), p1)).
Proof.
  intros idx p1. split; intros (x & Hslot).
  - unfold useMemo. fold idx. fold p1.
    assert (Hread : read_slot (rt p1) idx = SMemo x None) by exact Hslot.
    rewrite Hread. reflexivity.
  - unfold useEffect. fold idx. fold p1.
    assert (Hread : read_slot (rt p1) idx = SEffect None x) by exact Hslot.
    rewrite Hread. reflexivity.
Qed.

End DepsFacts.

(** ** The runtime, run *)

Section RuntimeRuns.

Import Runtime Storage Samples.

#[local] Existing Instance Json.reference_browser.

(** C4 fails on the code when the previous render left the dependency list
    out and this one passes a list with an entry: after the flag of
    [late_deps_memo] (of [late_deps_effect]) is set, the re-render throws a
    TypeError from the hook; the factory (the effect) has run once, in the
    first render, and is not run again. *)
Theorem late_deps_throw :
  let first_memo := snd (render late_deps_memo 3 root 0 (initial_page 0)) in
  let second_memo := setState late_deps_memo 3 0 (SetValue (VBool true)) first_memo in
  let first_effect := snd (render late_deps_effect 3 root 0 (initial_page 0)) in
  let second_effect := setState late_deps_effect 3 0 (SetValue (VBool true)) first_effect in
  (hooks (rt first_memo) !! 1 = Some (SMemo (VNum 0) None) /\
   ext first_memo = 1 /\
   fst second_memo = Throw (TypeError "Cannot read properties of undefined") /\
   ext (snd second_memo) = 1) /\
  (ext first_effect = 1 /\
   fst second_effect = Throw (TypeError "Cannot read properties of undefined") /\
   ext (snd second_effect) = 1 /\
   pendingEffects (rt (snd second_effect)) = []).
Proof. vm_compute. repeat split. Qed.

(** The same throw, from the hook alone on the page the re-render reaches it
    with. *)
Example late_memo_reached_throws :
  let first_memo := snd (render late_deps_memo 3 root 0 (initial_page 0)) in
  let reached := with_rt (set_hookIndex 1) first_memo in
  fst (useMemo (fun calls => (VNum (Z.of_nat calls), S calls)) (Some [VNum 7]) reached)
  = Throw (TypeError "Cannot read properties of undefined").
Proof.
  cbv zeta.
  rewrite (proj1 (hooks_throw_on_unrecorded_deps
                    (fun calls => (VNum (Z.of_nat calls), S calls))
                    (fun calls => (None, calls)) (VNum 7) []
                    (with_rt (set_hookIndex 1)
                       (snd (render late_deps_memo 3 root 0 (initial_page 0)))))
             (ex_intro _ (VNum 0) eq_refl)).
  reflexivity.
Qed.

(** C5 fails on the code when a cell is set to [undefined]: the cell of
    [counter_view], first 5, holds 9 after it is set to 9, and holds 5 again,
    and shows it, after it is set to [undefined]. *)
Theorem state_set_to_undefined_is_reset :
  let p1 := snd (render counter_view 3 root 0 (initial_page tt)) in
  let p2 := snd (setState counter_view 3 0 (SetValue (VNum 9)) p1) in
  let p3 := snd (setState counter_view 3 0 (SetValue VUndef) p2) in
  (read_slot (rt p2) 0 = SValue (VNum 9) /\ containers p2 !! 0 = Some [TextNode "9"]) /\
  (read_slot (rt p3) 0 = SValue (VNum 5) /\ containers p3 !! 0 = Some [TextNode "5"]) /\
  fst (useState (InitValue (VNum 5)) (with_rt (set_hookIndex 0) p3)) = Ok (VNum 5, 0).
Proof. vm_compute. repeat split. Qed.

(** C8 fails on the code when the value is set to [undefined]: with "1"
    stored under the key, the hook first reads 1; set to 2, it writes "2";
    set to [undefined], it reads the stored "2" back as its value and leaves
    the key in storage. *)
Theorem stored_undefined_keeps_key :
  let view := stored_view "hub.token" (VStr "") in
  let p1 := snd (render view 3 root 0 (initial_page (browser_with "hub.token" "1"))) in
  let p2 := snd (setState view 3 0 (SetValue (VNum 2)) p1) in
  let p3 := snd (setState view 3 0 (SetValue VUndef) p2) in
  (read_slot (rt p1) 0 = SValue (VNum 1) /\ getItem "hub.token" (ext p1) = Some "1") /\
  (read_slot (rt p2) 0 = SValue (VNum 2) /\ getItem "hub.token" (ext p2) = Some "2") /\
  (read_slot (rt p3) 0 = SValue (VNum 2) /\ getItem "hub.token" (ext p3) = Some "2") /\
  getItem "hub.token" (ext p3) <> None.
Proof. vm_compute. repeat split. discriminate. Qed.

End RuntimeRuns.

(** ** Strict equality *)

Section ValueFacts.

#[local] Open Scope list_scope.

Lemma strict_eq_bounded (n : nat) :
  forall a b, value_size a <= n -> strict_eq a b = true -> a = b.
Proof.
  induction n as [|n IH]; intros a b Hsize Heq.
  - destruct a; cbn in Hsize; lia.
  - destruct a, b; cbn in Heq; try discriminate; try reflexivity.
    + f_equal. now apply Bool.eqb_prop.
    + f_equal. now apply Z.eqb_eq.
    + f_equal. now apply String.eqb_eq.
    + f_equal. cbn in Hsize. apply le_S_n in Hsize.
      revert items0 Heq. induction items as [|x xs IHxs]; intros [|y ys] Heq;
        try discriminate; [reflexivity|].
      apply andb_true_iff in Heq as [Hx Hxs]. cbn in Hsize. f_equal.
      * apply IH; [lia | exact Hx].
      * apply IHxs; [lia | exact Hxs].
    + f_equal. cbn in Hsize. apply le_S_n in Hsize.
      revert fields0 Heq. induction fields as [|[k x] xs IHxs]; intros [|[k' y] ys] Heq;
        try discriminate; [reflexivity|].
      apply andb_true_iff in Heq as [Hkx Hxs]. apply andb_true_iff in Hkx as [Hk Hx].
      cbn in Hsize. f_equal.
      * f_equal; [now apply String.eqb_eq | apply IH; [lia | exact Hx]].
      * apply IHxs; [lia | exact Hxs].
Qed.

(** Strictly equal values of this development are equal. *)
Lemma strict_eq_sound (a b : value) : strict_eq a b = true -> a = b.
Proof. apply (strict_eq_bounded (value_size a)). lia. Qed.

End ValueFacts.

(** ** The runtime: one hook call *)

Section HookFacts.

Import Runtime.

#[local] Open Scope list_scope.

Context {Ext : Type}.

Lemma read_write_same (idx : nat) (s : slot Ext) (r : runtime Ext) :
  read_slot (write_slot idx s r) idx = s.
Proof. unfold read_slot, write_slot. cbn. now rewrite lookup_insert_eq. Qed.

Lemma read_write_other (idx j : nat) (s : slot Ext) (r : runtime Ext) :
  idx <> j -> read_slot (write_slot idx s r) j = read_slot r j.
Proof. intros Hne. unfold read_slot, write_slot. cbn. now rewrite lookup_insert_ne. Qed.

(** The assignment a setter makes writes its own cell and no other. *)
Lemma assign_state_cells (idx : nat) (u : update) (r : runtime Ext) :
  read_slot (assign_state idx u r) idx
    = SValue (apply_update u (slot_as_value (read_slot r idx))) /\
  (forall j, j <> idx -> read_slot (assign_state idx u r) j = read_slot r j).
Proof.
  unfold assign_state. split.
  - apply read_write_same.
  - intros j Hj. apply read_write_other. congruence.
Qed.

(** The state hook on an empty cell: the cell is initialised. *)
Lemma useState_fresh (f : Ext -> value * Ext) (p : page Ext) :
  read_slot (rt p) (hookIndex (rt p)) = SValue VUndef ->
  useState (InitFunction f) p =
  (Ok (fst (f (ext p)), hookIndex (rt p)),
   with_rt (write_slot (hookIndex (rt p)) (SValue (fst (f (ext p)))))
     (with_ext (snd (f (ext p))) (with_rt (set_hookIndex (S (hookIndex (rt p)))) p))).
Proof.
  intros Hslot. unfold useState.
  change (read_slot (rt (with_rt (set_hookIndex (S (hookIndex (rt p)))) p)) (hookIndex (rt p)))
    with (read_slot (rt p) (hookIndex (rt p))).
  rewrite Hslot. cbn [slot_as_value is_undefined].
  change (ext (with_rt (set_hookIndex (S (hookIndex (rt p)))) p)) with (ext p).
  destruct (f (ext p)) as [v e]. cbn [fst snd].
  change (rt (with_rt (write_slot (hookIndex (rt p)) (SValue v))
                (with_ext e (with_rt (set_hookIndex (S (hookIndex (rt p)))) p))))
    with (write_slot (hookIndex (rt p)) (SValue v)
            (rt (with_ext e (with_rt (set_hookIndex (S (hookIndex (rt p)))) p)))).
  rewrite read_write_same. reflexivity.
Qed.

(** The state hook on a cell that holds a value other than [undefined]: the
    value is returned, whatever the initial value, and only the hook index
    moves. *)
Lemma useState_kept (init : initial Ext) (v : value) (p : page Ext) :
  read_slot (rt p) (hookIndex (rt p)) = SValue v ->
  defined v ->
  useState init p =
  (Ok (v, hookIndex (rt p)), with_rt (set_hookIndex (S (hookIndex (rt p)))) p).
Proof.
  intros Hslot Hv. unfold useState.
  change (read_slot (rt (with_rt (set_hookIndex (S (hookIndex (rt p)))) p)) (hookIndex (rt p)))
    with (read_slot (rt p) (hookIndex (rt p))).
  rewrite Hslot. cbn [slot_as_value]. rewrite Hv.
  change (read_slot (rt (with_rt (set_hookIndex (S (hookIndex (rt p)))) p)) (hookIndex (rt p)))
    with (read_slot (rt p) (hookIndex (rt p))).
  rewrite Hslot. reflexivity.
Qed.

(** The state hook on a cell that was set to [undefined]: the cell is
    initialised again. *)
Lemma useState_after_undefined (idx : nat) (v : value) (p : page Ext) :
  hookIndex (rt p) = idx ->
  useState (InitValue v) (with_rt (assign_state idx (SetValue VUndef)) p) =
  (Ok (v, idx),
   with_rt (write_slot idx (SValue v))
     (with_rt (set_hookIndex (S idx)) (with_rt (assign_state idx (SetValue VUndef)) p))).
Proof.
  intros <-. unfold useState.
  change (hookIndex (rt (with_rt (assign_state (hookIndex (rt p)) (SetValue VUndef)) p)))
    with (hookIndex (rt p)).
  set (q := with_rt (set_hookIndex (S (hookIndex (rt p))))
              (with_rt (assign_state (hookIndex (rt p)) (SetValue VUndef)) p)).
  assert (Hread : read_slot (rt q) (hookIndex (rt p)) = SValue VUndef).
  { unfold read_slot. cbn. now rewrite lookup_insert_eq. }
  rewrite Hread. cbn [slot_as_value is_undefined].
  change (rt (with_rt (write_slot (hookIndex (rt p)) (SValue v)) q))
    with (write_slot (hookIndex (rt p)) (SValue v) (rt q)).
  rewrite read_write_same. reflexivity.
Qed.

(** The effect hook on an empty cell: the effect is pushed. *)
Lemma useEffect_fresh (effect : effect_body Ext) (deps : deps_arg) (p : page Ext) :
  read_slot (rt p) (hookIndex (rt p)) = SValue VUndef ->
  useEffect effect deps p =
  (Ok tt,
   with_rt (fun r =>
              set_pendingEffects
                (pendingEffects r ++
                   [{| pe_idx := hookIndex (rt p); pe_previous := SValue VUndef;
                       pe_effect := effect; pe_deps := deps |}]) r)
     (with_rt (set_hookIndex (S (hookIndex (rt p)))) p)).
Proof.
  intros Hslot. unfold useEffect.
  change (read_slot (rt (with_rt (set_hookIndex (S (hookIndex (rt p)))) p)) (hookIndex (rt p)))
    with (read_slot (rt p) (hookIndex (rt p))).
  rewrite Hslot. reflexivity.
Qed.

(** The effect hook on a cell whose comparison with the new list succeeds:
    the closure is pushed exactly when the lists differ. *)
Lemma useEffect_compared (effect : effect_body Ext) (deps : deps_arg) (previous : slot Ext)
    (changed : bool) (p : page Ext) :
  read_slot (rt p) (hookIndex (rt p)) = previous ->
  deps_changed previous deps = inr changed ->
  useEffect effect deps p =
  (Ok tt,
   if changed
   then with_rt (fun r =>
                   set_pendingEffects
                     (pendingEffects r ++
                        [{| pe_idx := hookIndex (rt p); pe_previous := previous;
                            pe_effect := effect; pe_deps := deps |}]) r)
          (with_rt (set_hookIndex (S (hookIndex (rt p)))) p)
   else with_rt (set_hookIndex (S (hookIndex (rt p)))) p).
Proof.
  intros Hslot Hchanged. unfold useEffect.
  change (read_slot (rt (with_rt (set_hookIndex (S (hookIndex (rt p)))) p)) (hookIndex (rt p)))
    with (read_slot (rt p) (hookIndex (rt p))).
  rewrite Hslot, Hchanged. destruct changed; reflexivity.
Qed.

(** A render of the root node whose component returns a text: two units of
    fuel are enough. *)
Lemma render_root (component : nat -> option props -> list vnode -> M Ext vnode)
    (fuel container : nat) (p p' : page Ext) (s : string) :
  component 0 (Some []) [] (with_rt (reset_for container root) p) = (Ok (VnString s), p') ->
  render component (S (S fuel)) root container p =
  (Ok tt, flush_effects {| rt := rt p'; ext := ext p';
                           containers := <[container := [TextNode s]]> (containers p') |}).
Proof.
  intros Hc. unfold render, bind, modify_rt.
  change (createDom component (S (S fuel)) root) with
    (bind (component 0 (Some []) []) (fun rendered => createDom component (S fuel) rendered)).
  unfold bind. rewrite Hc. reflexivity.
Qed.

End HookFacts.

(** ** The runtime: state cells over many renders *)

Section CellFacts.

Import Runtime Cells.

#[local] Open Scope list_scope.

Context {Ext : Type}.

(** The state hooks of a first render: every cell is initialised. *)
Lemma use_states_fresh (rest done : list value) (p : page Ext) :
  hooks (rt p) = map_seq 0 (SValue <$> done) ->
  hookIndex (rt p) = length done ->
  use_states rest p =
  (Ok rest,
   with_rt (fun r => set_hookIndex (length (done ++ rest))
                       (set_hooks (map_seq 0 (SValue <$> (done ++ rest))) r)) p).
Proof.
  revert done p. induction rest as [|v rest IH]; intros done p Hh Hi.
  - cbn. rewrite app_nil_r, <- Hi, <- Hh. destruct p as [[] ? ?]; reflexivity.
  - cbn [use_states]. unfold bind at 1.
    assert (Hread : read_slot (rt p) (length done) = SValue VUndef).
    { unfold read_slot. rewrite Hh, lookup_map_seq_0, list_lookup_fmap.
      rewrite lookup_ge_None_2 by lia. reflexivity. }
    unfold useState. rewrite Hi.
    change (read_slot (rt (with_rt (set_hookIndex (S (length done))) p)) (length done))
      with (read_slot (rt p) (length done)).
    rewrite Hread. cbn [slot_as_value is_undefined].
    assert (Hwritten :
              hooks (rt (with_rt (write_slot (length done) (SValue v))
                           (with_rt (set_hookIndex (S (length done))) p)))
              = map_seq 0 (SValue <$> (done ++ [v]))).
    { cbn. rewrite Hh, fmap_app. cbn. rewrite map_seq_snoc, length_fmap. reflexivity. }
    assert (Hback : read_slot (rt (with_rt (write_slot (length done) (SValue v))
                                     (with_rt (set_hookIndex (S (length done))) p)))
                      (length done) = SValue v).
    { unfold read_slot. cbn. rewrite lookup_insert_eq. reflexivity. }
    rewrite Hback. cbn [slot_as_value fst]. unfold bind.
    rewrite (IH (done ++ [v])
               (with_rt (write_slot (length done) (SValue v))
                  (with_rt (set_hookIndex (S (length done))) p)) Hwritten).
    + cbn [ret]. rewrite <- app_assoc. reflexivity.
    + cbn. rewrite length_app. cbn. lia.
Qed.

(** One state hook of a later render, on a cell that holds [v]. *)
Lemma useState_settles (init v : value) (done vals : list value) (p : page Ext) :
  hooks (rt p) = map_seq 0 (SValue <$> (done ++ v :: vals)) ->
  hookIndex (rt p) = length done ->
  useState (InitValue init) p =
  (Ok (settle init v, length done),
   with_rt (fun r => set_hookIndex (S (length done))
                       (set_hooks (map_seq 0 (SValue <$> (done ++ settle init v :: vals))) r))
     p).
Proof.
  intros Hh Hi.
  assert (Hread : read_slot (rt p) (length done) = SValue v).
  { unfold read_slot. rewrite Hh, lookup_map_seq_0, list_lookup_fmap.
    rewrite lookup_app_r by lia. rewrite Nat.sub_diag. reflexivity. }
  unfold useState. rewrite Hi.
  change (read_slot (rt (with_rt (set_hookIndex (S (length done))) p)) (length done))
    with (read_slot (rt p) (length done)).
  rewrite Hread. cbn [slot_as_value]. unfold settle.
  destruct (is_undefined v) eqn:Hv.
  - assert (Hback : read_slot (rt (with_rt (write_slot (length done) (SValue init))
                                     (with_rt (set_hookIndex (S (length done))) p)))
                      (length done) = SValue init).
    { unfold read_slot. cbn. rewrite lookup_insert_eq. reflexivity. }
    rewrite Hback. cbn [slot_as_value]. f_equal.
    unfold with_rt, write_slot, set_hooks, set_hookIndex. cbn. rewrite Hh.
    assert (Hl : <[length done := init]> (done ++ v :: vals) = done ++ init :: vals).
    { replace (length done) with (length done + 0) at 1 by lia.
      rewrite insert_app_r. reflexivity. }
    rewrite insert_map_seq_0
      by (rewrite length_fmap, length_app; cbn; lia).
    rewrite <- list_fmap_insert, Hl. reflexivity.
  - change (read_slot (rt (with_rt (set_hookIndex (S (length done))) p)) (length done))
      with (read_slot (rt p) (length done)).
    rewrite Hread. cbn [slot_as_value]. f_equal.
    rewrite <- Hh. destruct p as [[] ? ?]; reflexivity.
Qed.

(** The state hooks of a later render: every cell is read, and a cell that
    holds [undefined] is initialised again. *)
Lemma use_states_settle (inits vals done : list value) (p : page Ext) :
  length inits = length vals ->
  hooks (rt p) = map_seq 0 (SValue <$> (done ++ vals)) ->
  hookIndex (rt p) = length done ->
  use_states inits p =
  (Ok (zip_with settle inits vals),
   with_rt (fun r => set_hookIndex (length (done ++ vals))
                       (set_hooks (map_seq 0 (SValue <$> (done ++ zip_with settle inits vals)))
                          r)) p).
Proof.
  revert vals done p. induction inits as [|init inits IH]; intros vals done p Hlen Hh Hi.
  - destruct vals; [|discriminate]. rewrite app_nil_r in Hh.
    cbn [use_states zip_with]. unfold ret. rewrite !app_nil_r, <- Hi, <- Hh.
    destruct p as [[] ? ?]; reflexivity.
  - destruct vals as [|v vals]; [discriminate|]. cbn [use_states zip_with]. unfold bind at 1.
    rewrite (useState_settles init v done vals p Hh Hi). cbn [fst]. unfold bind.
    rewrite (IH vals (done ++ [settle init v])).
    + unfold ret. rewrite <- !app_assoc. cbn [app].
      rewrite !length_app. cbn [length]. reflexivity.
    + now injection Hlen.
    + cbn. rewrite <- app_assoc. reflexivity.
    + cbn. rewrite length_app. cbn. lia.
Qed.

(** The first render initialises every cell and shows the initial values. *)
Lemma first_render_mounts (inits : list value) (e : Ext) (fuel container : nat) :
  render (states_view inits) (S (S fuel)) root container (initial_page e) =
  (Ok tt, mounted inits e container).
Proof.
  rewrite (render_root (states_view inits) fuel container (initial_page e)
             (with_rt (fun r => set_hookIndex (length inits)
                                  (set_hooks (map_seq 0 (SValue <$> inits)) r))
                (with_rt (reset_for container root) (initial_page e)))
             (show inits)).
  - reflexivity.
  - cbn [states_view]. unfold bind.
    rewrite (use_states_fresh inits []
               (with_rt (reset_for container root) (initial_page e)) eq_refl eq_refl).
    reflexivity.
Qed.

Lemma cells_step_length (inits vals : list value) (idx : nat) (u : update) :
  length inits = length vals -> length (cells_step inits idx u vals) = length inits.
Proof.
  intros Hlen. unfold cells_step. rewrite length_zip_with, length_insert. lia.
Qed.

(** One setter call and its re-render. *)
Lemma set_then_render (inits vals : list value) (e : Ext) (fuel container idx : nat)
    (u : update) :
  length inits = length vals ->
  idx < length vals ->
  setState (states_view inits) (S (S fuel)) idx u (mounted vals e container) =
  (Ok tt, mounted (cells_step inits idx u vals) e container).
Proof.
  intros Hlen Hidx. unfold setState, bind, modify_rt, rerender.
  set (c := apply_update u (default VUndef (vals !! idx))).
  assert (Hold : slot_as_value (read_slot (rt (mounted vals e container)) idx)
                 = default VUndef (vals !! idx)).
  { unfold read_slot, mounted. cbn [rt hooks]. rewrite lookup_map_seq_0, list_lookup_fmap.
    destruct (vals !! idx); reflexivity. }
  assert (Hcells : <[idx := SValue c]> (map_seq 0 (SValue <$> vals)) =
                   map_seq (M := gmap nat (slot Ext)) 0 (SValue <$> <[idx := c]> vals)).
  { rewrite insert_map_seq_0 by (rewrite length_fmap; exact Hidx).
    rewrite list_fmap_insert. reflexivity. }
  set (q := {| rt := {| hooks := map_seq 0 (SValue <$> <[idx := c]> vals);
                        hookIndex := length vals; pendingEffects := [];
                        currentRoot := Some container; currentVNode := Some root |};
               ext := e;
               containers := {[ container := [TextNode (show vals)] ]} |}).
  assert (Hq : with_rt (assign_state idx u) (mounted vals e container) = q).
  { unfold q, with_rt, assign_state, write_slot, set_hooks. rewrite Hold. fold c.
    cbn. rewrite Hcells. reflexivity. }
  rewrite Hq. cbn [fst snd rt currentRoot currentVNode q].
  change (vnode_truthy root) with true. cbv iota.
  assert (Hlen' : length inits = length (<[idx := c]> vals))
    by (rewrite length_insert; exact Hlen).
  rewrite (render_root (states_view inits) fuel container q
             (with_rt (fun r => set_hookIndex (length ([] ++ <[idx := c]> vals))
                                  (set_hooks
                                     (map_seq 0
                                        (SValue <$> ([] ++ zip_with settle inits
                                                              (<[idx := c]> vals)))) r))
                (with_rt (reset_for container root) q))
             (show (zip_with settle inits (<[idx := c]> vals)))).
  - subst q. unfold mounted, flush_effects, cells_step. fold c. cbn.
    rewrite length_zip_with, length_insert, <- Hlen, Nat.min_id.
    rewrite insert_singleton_eq. reflexivity.
  - cbn [states_view]. unfold bind.
    rewrite (use_states_settle inits (<[idx := c]> vals) []
               (with_rt (reset_for container root) q) Hlen' eq_refl eq_refl).
    reflexivity.
Qed.

Lemma set_each_mounted (inits : list value) (calls : list (nat * update))
    (vals : list value) (e : Ext) (fuel container : nat) :
  length inits = length vals ->
  calls_in_range (length inits) calls ->
  set_each (S (S fuel)) inits calls (mounted vals e container) =
  (Ok tt, mounted (cells_after inits calls vals) e container).
Proof.
  revert vals. induction calls as [|[idx u] rest IH]; intros vals Hlen Hc.
  - reflexivity.
  - inversion Hc as [|? ? Hidx Hrest]; subst. cbn in Hidx.
    cbn [set_each]. unfold bind.
    rewrite set_then_render by (try assumption; lia).
    cbn [cells_after fold_left fst snd]. apply IH.
    + now rewrite cells_step_length.
    + exact Hrest.
Qed.

(** A component of state cells, rendered and then set any number of times
    through its setters: no call throws, and after the last re-render each
    cell holds, and the page shows, what [cells_after] says: the value last
    set for its index, or its initial value when none was set or when the
    value set was [undefined]. *)
Theorem state_cells_settle (inits : list value) (calls : list (nat * update))
    (e : Ext) (fuel container : nat) :
  calls_in_range (length inits) calls ->
  (_ <- render (states_view inits) (S (S fuel)) root container ;;
   set_each (S (S fuel)) inits calls) (initial_page e) =
  (Ok tt, mounted (cells_after inits calls inits) e container).
Proof.
  intros Hc. unfold bind. rewrite first_render_mounts.
  now apply set_each_mounted.
Qed.

(** Cells that hold no [undefined] are read as they are. *)
Lemma settle_defined (inits vals : list value) :
  length inits = length vals ->
  Forall defined vals ->
  zip_with settle inits vals = vals.
Proof.
  revert vals. induction inits as [|init inits IH]; intros [|v vals] Hlen Hd;
    try discriminate; [reflexivity|].
  inversion Hd as [|? ? Hv Hd']; subst. cbn. unfold settle at 1. rewrite Hv.
  f_equal. apply IH; [now injection Hlen | exact Hd'].
Qed.

Lemma cells_after_written (inits : list value) (calls : list (nat * update))
    (vals : list value) :
  length inits = length vals ->
  Forall defined vals ->
  calls_defined calls vals ->
  cells_after inits calls vals = cells_written calls vals /\
  calls_in_range (length inits) calls.
Proof.
  revert vals. induction calls as [|[idx u] rest IH]; intros vals Hlen Hd Hc.
  - split; [reflexivity | constructor].
  - destruct Hc as (Hidx & Hv & Hrest).
    assert (Hstep : cells_step inits idx u vals = cells_set idx u vals).
    { unfold cells_step, cells_set. apply settle_defined.
      - rewrite length_insert. exact Hlen.
      - apply Forall_insert; assumption. }
    destruct (IH (cells_set idx u vals)) as [Hafter Hrange].
    + unfold cells_set. rewrite length_insert. exact Hlen.
    + unfold cells_set. apply Forall_insert; assumption.
    + exact Hrest.
    + split.
      * cbn [cells_after cells_written fold_left fst snd]. rewrite Hstep. exact Hafter.
      * constructor; [cbn; lia | exact Hrange].
Qed.

(** A component of state cells, rendered and then set any number of times
    with values other than [undefined]: no call throws, and after the last
    re-render each cell holds, and the page shows, the value last set for
    its index, or its initial value if none was; a call changes no cell but
    its own. *)
Theorem state_cells_persist (inits : list value) (calls : list (nat * update))
    (e : Ext) (fuel container : nat) :
  Forall defined inits ->
  calls_defined calls inits ->
  (_ <- render (states_view inits) (S (S fuel)) root container ;;
   set_each (S (S fuel)) inits calls) (initial_page e) =
  (Ok tt, mounted (cells_written calls inits) e container) /\
  (forall idx u cells,
      idx < length cells ->
      cells_set idx u cells !! idx
        = Some (apply_update u (default VUndef (cells !! idx))) /\
      (forall j, j <> idx -> cells_set idx u cells !! j = cells !! j)).
Proof.
  intros Hd Hc. split.
  - destruct (cells_after_written inits calls inits eq_refl Hd Hc) as [Hafter Hrange].
    rewrite <- Hafter. unfold bind. rewrite first_render_mounts.
    now apply set_each_mounted.
  - intros idx u cells Hidx. unfold cells_set. split.
    + now apply list_lookup_insert_eq.
    + intros j Hj. apply list_lookup_insert_ne. congruence.
Qed.

End CellFacts.

(** ** The persistence hook over many renders *)

Section StoredFacts.

Import Runtime Storage.

#[local] Open Scope list_scope.

Context `{Browser}.

(** The first read: the parsed text when the key is present and its text
    parses; the default, and a warning, when the text does not parse; the
    default when the key is absent.  Storage is left as it was. *)
Lemma read_stored_cases (key : string) (initialValue : value) (b : browser) :
  (forall raw v, getItem key b = Some raw -> JSON_parse raw = Some v ->
                 read_stored key initialValue b = (v, b)) /\
  (forall raw, getItem key b = Some raw -> JSON_parse raw = None ->
               read_stored key initialValue b =
               (initialValue, warn "Failed to parse localStorage value" b)) /\
  (getItem key b = None -> read_stored key initialValue b = (initialValue, b)) /\
  localStorage (snd (read_stored key initialValue b)) = localStorage b.
Proof.
  unfold read_stored. repeat split.
  - intros raw v -> ->. reflexivity.
  - intros raw -> ->. reflexivity.
  - intros ->. reflexivity.
  - destruct (getItem key b) as [raw|]; [|reflexivity].
    destruct (JSON_parse raw); reflexivity.
Qed.

(** What the effect leaves under the key. *)
Lemma write_stored_entry (key : string) (v : value) (b : browser) :
  getItem key (snd (write_stored key v b)) = stored_entry v /\
  fst (write_stored key v b) = None.
Proof.
  unfold write_stored, stored_entry, getItem.
  destruct (is_undefined v); cbn.
  - now rewrite lookup_delete_eq.
  - now rewrite lookup_insert_eq.
Qed.

Lemma is_undefined_eq (v : value) : is_undefined v = true -> v = VUndef.
Proof. destruct v; try discriminate; reflexivity. Qed.

(** The hook in a re-render, on the two cells a render left, the first of
    which now holds [c]: the value read is [c], or what the initialiser
    reads when [c] is [undefined]; the effect is pushed exactly when that
    value is not strictly equal to the recorded one. *)
Lemma useLocalStorage_again (key : string) (initialValue old c : value)
    (p : page browser) :
  hooks (rt p) = map_seq 0 [SValue c; SEffect (Some [VStr key; old]) None] ->
  hookIndex (rt p) = 0 ->
  pendingEffects (rt p) = [] ->
  let v := stored_next key initialValue c (ext p) in
  let b := if is_undefined c then snd (read_stored key initialValue (ext p)) else ext p in
  useLocalStorage key initialValue p =
  (Ok (v, 0),
   {| rt := {| hooks := map_seq 0 [SValue v; SEffect (Some [VStr key; old]) None];
               hookIndex := 2;
               pendingEffects :=
                 if strict_neq v old
                 then [{| pe_idx := 1;
                          pe_previous := SEffect (Some [VStr key; old]) None;
                          pe_effect := write_stored key v;
                          pe_deps := Some [VStr key; v] |}]
                 else [];
               currentRoot := currentRoot (rt p);
               currentVNode := currentVNode (rt p) |};
      ext := b;
      containers := containers p |}).
Proof.
  intros Hhooks Hidx Hpending v b.
  destruct p as [[h i pe cr cv] e cs]. cbn in Hhooks, Hidx, Hpending. subst h i pe.
  cbn [ext] in v, b.
  assert (Hchanged : forall w, @deps_changed browser (SEffect (Some [VStr key; old]) None)
                                 (Some [VStr key; w]) = inr (strict_neq w old)).
  { intros w. unfold deps_changed. cbn. unfold strict_neq at 1. cbn.
    rewrite String.eqb_refl. cbn. destruct (strict_neq w old); reflexivity. }
  assert (Hmap : forall w w',
             <[0 := SValue w']>
               (map_seq 0 [SValue w; SEffect (Some [VStr key; old]) None])
             = map_seq (M := gmap nat (slot browser)) 0
                 [SValue w'; SEffect (Some [VStr key; old]) None]).
  { intros w w'. apply map_eq. intros [|[|j]]; reflexivity. }
  unfold useLocalStorage, bind.
  destruct (is_undefined c) eqn:Hc.
  - apply is_undefined_eq in Hc. subst c.
    rewrite useState_fresh by reflexivity. cbn [fst].
    unfold stored_next in v. cbn [is_undefined] in v, b.
    cbn [ext rt hookIndex]. fold v. fold b.
    set (q := with_rt (write_slot 0 (SValue v)) _).
    rewrite (useEffect_compared (write_stored key v) (Some [VStr key; v])
               (SEffect (Some [VStr key; old]) None) (strict_neq v old) q
               eq_refl (Hchanged v)).
    f_equal. subst q. unfold with_rt, with_ext, write_slot, set_hooks, set_hookIndex,
      set_pendingEffects.
    cbn [rt ext containers hooks hookIndex pendingEffects currentRoot currentVNode app].
    cbn [map_seq] in Hmap |- *. rewrite Hmap. destruct (strict_neq v old); reflexivity.
  - assert (Hread : read_slot
                      (rt {| rt := {| hooks := map_seq 0 [SValue c; SEffect (Some [VStr key; old]) None];
                                      hookIndex := 0; pendingEffects := [];
                                      currentRoot := cr; currentVNode := cv |};
                             ext := e; containers := cs |}) 0 = SValue c) by reflexivity.
    rewrite (useState_kept _ c _ Hread Hc). cbn [fst].
    subst v b. unfold stored_next. rewrite ?Hc. cbv iota.
    cbn [rt hookIndex].
    set (q := with_rt (set_hookIndex 1) _).
    rewrite (useEffect_compared (write_stored key c) (Some [VStr key; c])
               (SEffect (Some [VStr key; old]) None) (strict_neq c old) q
               eq_refl (Hchanged c)).
    f_equal. subst q. unfold with_rt, set_hookIndex, set_pendingEffects.
    cbn [rt ext containers hooks hookIndex pendingEffects currentRoot currentVNode app].
    destruct (strict_neq c old); reflexivity.
Qed.

(** After the flush that follows, the value, the cells and the key agree. *)
Lemma flush_agrees (key : string) (old v : value) (container : nat)
    (cr : option nat) (cv : option vnode) (b : browser) (cs : gmap nat (list dom)) :
  getItem key b = stored_entry old ->
  let flushed :=
    flush_effects
      {| rt := {| hooks := map_seq 0 [SValue v; SEffect (Some [VStr key; old]) None];
                  hookIndex := 2;
                  pendingEffects :=
                    if strict_neq v old
                    then [{| pe_idx := 1;
                             pe_previous := SEffect (Some [VStr key; old]) None;
                             pe_effect := write_stored key v;
                             pe_deps := Some [VStr key; v] |}]
                    else [];
                  currentRoot := cr; currentVNode := cv |};
         ext := b; containers := cs |} in
  hooks (rt flushed) = map_seq 0 [SValue v; SEffect (Some [VStr key; v]) None] /\
  currentRoot (rt flushed) = cr /\
  currentVNode (rt flushed) = cv /\
  getItem key (ext flushed) = stored_entry v /\
  containers flushed = cs.
Proof.
  intros Hitem flushed. subst flushed. unfold flush_effects. cbn [rt pendingEffects].
  destruct (strict_neq v old) eqn:Hdiff.
  - cbn [fold_left]. unfold run_pending. cbn [pe_previous slot_cleanup ext pe_effect].
    destruct (write_stored_entry key v b) as [Hentry Hnone].
    destruct (write_stored key v b) as [cleanup b'] eqn:Hw. cbn in Hentry, Hnone. subst cleanup.
    cbn. repeat split; assumption.
  - cbn [fold_left]. unfold strict_neq in Hdiff. apply negb_false_iff in Hdiff.
    apply strict_eq_sound in Hdiff. subst old. cbn. repeat split. exact Hitem.
Qed.

(** The first render over any storage: the hook's value is its first read,
    and the value, the cells and the key agree. *)
Lemma first_render_agrees (key : string) (initialValue : value) (b : browser)
    (fuel container : nat) :
  exists p,
    render (stored_view key initialValue) (S (S fuel)) root container (initial_page b)
    = (Ok tt, p) /\
    agrees key (fst (read_stored key initialValue b)) container p.
Proof.
  set (v := fst (read_stored key initialValue b)).
  set (p0 := with_rt (reset_for container root) (initial_page b)).
  assert (Hhook : useLocalStorage key initialValue p0 =
            (Ok (v, 0),
             with_rt (fun r =>
                        set_pendingEffects
                          [{| pe_idx := 1; pe_previous := SValue VUndef;
                              pe_effect := write_stored key v;
                              pe_deps := Some [VStr key; v] |}] r)
               (with_rt (set_hookIndex 2)
                  (with_rt (write_slot 0 (SValue v))
                     (with_ext (snd (read_stored key initialValue b)) p0))))).
  { unfold useLocalStorage, bind.
    rewrite (useState_fresh (read_stored key initialValue) p0 eq_refl).
    cbn [fst]. fold v. rewrite useEffect_fresh by reflexivity. reflexivity. }
  eexists. split.
  - apply render_root. cbn [stored_view]. unfold bind. fold p0. rewrite Hhook. reflexivity.
  - unfold flush_effects. cbn. unfold run_pending. cbn.
    destruct (write_stored_entry key v (snd (read_stored key initialValue b)))
      as [Hentry Hnone].
    destruct (write_stored key v (snd (read_stored key initialValue b)))
      as [cleanup b'] eqn:Hw.
    cbn in Hentry, Hnone. subst cleanup. unfold agrees. cbn.
    split; [|split; [|split; [|split]]].
    + apply map_eq. intros [|[|i]]; reflexivity.
    + reflexivity.
    + reflexivity.
    + exact Hentry.
    + now rewrite lookup_insert_eq.
Qed.

(** One setter call, with any argument, and its re-render: the hook's value
    is the value set, or its initialiser's reading when that is [undefined],
    and the value, the cells and the key agree again. *)
Lemma set_agrees (key : string) (initialValue old : value) (u : update)
    (fuel container : nat) (p : page browser) :
  agrees key old container p ->
  exists p',
    setState (stored_view key initialValue) (S (S fuel)) 0 u p = (Ok tt, p') /\
    agrees key (stored_next key initialValue (apply_update u old) (ext p)) container p'.
Proof.
  intros (Hhooks & Hroot & Hvnode & Hitem & _).
  set (c := apply_update u old).
  set (v := stored_next key initialValue c (ext p)).
  set (pr := with_rt (reset_for container root) (with_rt (assign_state 0 u) p)).
  assert (Hold : slot_as_value (read_slot (rt p) 0) = old).
  { unfold read_slot. rewrite Hhooks. reflexivity. }
  assert (Hcells : hooks (rt pr) = map_seq 0 [SValue c; SEffect (Some [VStr key; old]) None]).
  { unfold pr, assign_state. cbn. rewrite Hold. fold c. rewrite Hhooks.
    apply map_eq. intros [|[|j]]; reflexivity. }
  pose proof (useLocalStorage_again key initialValue old c pr Hcells eq_refl eq_refl) as Hhook.
  cbv zeta in Hhook. change (ext pr) with (ext p) in Hhook. fold v in Hhook.
  set (b := if is_undefined c then snd (read_stored key initialValue (ext p)) else ext p)
    in Hhook.
  assert (Hb : getItem key b = stored_entry old).
  { unfold b, getItem. destruct (is_undefined c); [|exact Hitem].
    destruct (read_stored_cases key initialValue (ext p)) as (_ & _ & _ & Hsame).
    rewrite Hsame. exact Hitem. }
  set (q := {| rt := _; ext := b; containers := containers pr |}) in Hhook.
  pose proof (flush_agrees key old v container (currentRoot (rt pr)) (currentVNode (rt pr))
                b (<[container := [TextNode (to_string v)]]> (containers pr)) Hb) as Hflush.
  cbv zeta in Hflush.
  set (flushed := flush_effects _) in Hflush.
  destruct Hflush as (Hh & Hr & Hv & Hi & Hc).
  exists flushed. split.
  - unfold setState, bind, modify_rt, rerender.
    change (currentRoot (rt (with_rt (assign_state 0 u) p))) with (currentRoot (rt p)).
    change (currentVNode (rt (with_rt (assign_state 0 u) p))) with (currentVNode (rt p)).
    rewrite Hroot, Hvnode. change (vnode_truthy root) with true. cbv iota.
    rewrite (render_root (stored_view key initialValue) fuel container _ q (to_string v));
      [reflexivity|].
    cbn [stored_view]. unfold bind. fold pr. rewrite Hhook. reflexivity.
  - unfold agrees. split; [exact Hh|]. split; [exact Hr|]. split; [exact Hv|].
    split; [exact Hi|].
    rewrite Hc. now rewrite lookup_insert_eq.
Qed.

Lemma store_each_agrees (key : string) (initialValue : value) (calls : list update)
    (old : value) (fuel container : nat) (p : page browser) :
  agrees key old container p ->
  exists v p',
    store_each (S (S fuel)) key initialValue calls p = (Ok tt, p') /\
    agrees key v container p'.
Proof.
  revert old p. induction calls as [|u rest IH]; intros old p Hp.
  - exists old, p. split; [reflexivity | exact Hp].
  - destruct (set_agrees key initialValue old u fuel container p Hp) as (p1 & Hset & Hp1).
    destruct (IH _ p1 Hp1) as (v & p' & Hrest & Hp').
    exists v, p'. split; [|exact Hp'].
    cbn [store_each]. unfold bind. rewrite Hset. exact Hrest.
Qed.

(** The persistence hook, first rendered over any storage and then set any
    number of times, with any arguments: no call throws, and after each
    re-render the key holds the serialisation of the value the hook reads,
    or is absent when that value is [undefined]. *)
Theorem stored_value_agrees (key : string) (initialValue : value) (b : browser)
    (calls : list update) (fuel container : nat) :
  exists v p,
    (_ <- render (stored_view key initialValue) (S (S fuel)) root container ;;
     store_each (S (S fuel)) key initialValue calls) (initial_page b) = (Ok tt, p) /\
    read_slot (rt p) 0 = SValue v /\
    getItem key (ext p) = stored_entry v /\
    containers p !! container = Some [TextNode (to_string v)].
Proof.
  destruct (first_render_agrees key initialValue b fuel container) as (p0 & Hrender & Hp0).
  destruct (store_each_agrees key initialValue calls _ fuel container p0 Hp0)
    as (v & p & Hstore & Hp).
  exists v, p. split.
  - unfold bind. rewrite Hrender. exact Hstore.
  - destruct Hp as (Hhooks & _ & _ & Hitem & Hshown).
    split; [|split; assumption].
    unfold read_slot. rewrite Hhooks. reflexivity.
Qed.

Lemma last_cons (v old : value) (rest : list value) :
  List.last (v :: rest) old = List.last rest v.
Proof.
  revert v old. induction rest as [|w rest IH]; intros v old; [reflexivity|].
  change (List.last (v :: w :: rest) old) with (List.last (w :: rest) old).
  now rewrite !IH.
Qed.

Lemma store_each_written (key : string) (initialValue : value) (vals : list value)
    (old : value) (fuel container : nat) (p : page browser) :
  agrees key old container p ->
  Forall defined vals ->
  exists p',
    store_each (S (S fuel)) key initialValue (SetValue <$> vals) p = (Ok tt, p') /\
    agrees key (List.last vals old) container p'.
Proof.
  revert old p. induction vals as [|v rest IH]; intros old p Hp Hd.
  - exists p. split; [reflexivity | exact Hp].
  - inversion Hd as [|? ? Hv Hd']; subst.
    destruct (set_agrees key initialValue old (SetValue v) fuel container p Hp)
      as (p1 & Hset & Hp1).
    unfold stored_next in Hp1. cbn [apply_update] in Hp1. rewrite Hv in Hp1.
    destruct (IH v p1 Hp1 Hd') as (p' & Hrest & Hp').
    exists p'. split.
    + cbn [fmap list_fmap store_each]. unfold bind. rewrite Hset. exact Hrest.
    + rewrite last_cons. exact Hp'.
Qed.

(** The persistence hook, first rendered over any storage and then set any
    number of times with values other than [undefined]: the first value is
    the parsed text of the key, or the default when the key is absent or its
    text does not parse; no call throws; and after the last re-render the
    hook's value is the one last set (the first one if none was) and the key
    holds its serialisation. *)
Theorem stored_value_written (key : string) (initialValue : value) (b : browser)
    (vals : list value) (fuel container : nat) :
  let first := fst (read_stored key initialValue b) in
  defined first ->
  Forall defined vals ->
  first = match getItem key b with
          | Some raw => default initialValue (JSON_parse raw)
          | None => initialValue
          end /\
  exists p,
    (_ <- render (stored_view key initialValue) (S (S fuel)) root container ;;
     store_each (S (S fuel)) key initialValue (SetValue <$> vals)) (initial_page b)
    = (Ok tt, p) /\
    read_slot (rt p) 0 = SValue (List.last vals first) /\
    getItem key (ext p) = Some (stored_text (List.last vals first)) /\
    containers p !! container = Some [TextNode (to_string (List.last vals first))].
Proof.
  intros first Hfirst Hd. split.
  - subst first. unfold read_stored.
    destruct (getItem key b) as [raw|]; [|reflexivity].
    destruct (JSON_parse raw); reflexivity.
  - destruct (first_render_agrees key initialValue b fuel container)
      as (p0 & Hrender & Hp0).
    destruct (store_each_written key initialValue vals first fuel container p0 Hp0 Hd)
      as (p & Hstore & Hp).
    exists p. split.
    + unfold bind. rewrite Hrender. exact Hstore.
    + destruct Hp as (Hhooks & _ & _ & Hitem & Hshown).
      assert (Hlast : defined (List.last vals first)).
      { clear -Hfirst Hd. revert Hfirst. generalize first.
        induction Hd as [|v rest Hv Hrest IH]; intros w Hw; [exact Hw|].
        rewrite last_cons. now apply IH. }
      split; [|split; [|assumption]].
      * unfold read_slot. rewrite Hhooks. reflexivity.
      * rewrite Hitem. unfold stored_entry. now rewrite Hlast.
Qed.

End StoredFacts.

(** ** The general facts, at pages that were run *)

Section GeneralRuns.

Import Runtime Storage Cells Samples.

#[local] Open Scope list_scope.

#[local] Existing Instance Json.reference_browser.



(** Two cells, set three times: the first twice by value, the second once by
    a function of its previous value. *)
Lemma state_cells_persist_witness :
  (_ <- render (states_view [VStr "a"; VNum 1]) 2 root 0 ;;
   set_each 2 [VStr "a"; VNum 1]
     [(0, SetValue (VStr "b")); (1, SetFunction (fun v => VArr [v; v]));
      (0, SetValue (VStr "c"))]) (initial_page tt)
  = (Ok tt, mounted [VStr "c"; VArr [VNum 1; VNum 1]] tt 0).
Proof.
  apply (state_cells_persist [VStr "a"; VNum 1]
           [(0, SetValue (VStr "b")); (1, SetFunction (fun v => VArr [v; v]));
            (0, SetValue (VStr "c"))] tt 0 0).
  - repeat constructor.
  - cbn. repeat split; lia.
Defined.

(** Two cells, the first set to [undefined] and the second to 5: the first
    reads its initial value again. *)
Lemma state_cells_settle_witness :
  (_ <- render (states_view [VStr "a"; VNum 1]) 2 root 0 ;;
   set_each 2 [VStr "a"; VNum 1]
     [(0, SetValue (VStr "b")); (0, SetValue VUndef); (1, SetValue (VNum 5))])
    (initial_page tt)
  = (Ok tt, mounted [VStr "a"; VNum 5] tt 0).
Proof.
  apply (state_cells_settle [VStr "a"; VNum 1]
           [(0, SetValue (VStr "b")); (0, SetValue VUndef); (1, SetValue (VNum 5))]
           tt 0 0).
  repeat constructor.
Defined.

(** The token key holding "1", then set to 2 and to the text "t". *)
Lemma stored_value_written_witness :
  exists p,
    (_ <- render (stored_view "hub.token" (VStr "")) 2 root 0 ;;
     store_each 2 "hub.token" (VStr "") [SetValue (VNum 2); SetValue (VStr "t")])
      (initial_page (browser_with "hub.token" "1")) = (Ok tt, p) /\
    read_slot (rt p) 0 = SValue (VStr "t") /\
    getItem "hub.token" (ext p) = Some (stored_text (VStr "t")) /\
    containers p !! 0 = Some [TextNode "t"].
Proof.
  destruct (stored_value_written "hub.token" (VStr "")
              (browser_with "hub.token" "1") [VNum 2; VStr "t"] 0 0)
    as (_ & p & Hp).
  - reflexivity.
  - repeat constructor.
  - exists p. exact Hp.
Defined.

End GeneralRuns.

(** ** What a dispatch sends and what it leaves alone *)

Section DispatchFacts.

Import App.

Context `{Browser}.

#[local] Open Scope list_scope.

Variable build : Build.
Variable origin : string.

Abbreviation sendRequest := (App.sendRequest build origin).
Abbreviation handleLogin := (App.handleLogin build origin).
Abbreviation handleLogout := (App.handleLogout build origin).
Abbreviation handleCustom := (App.handleCustom build origin).
Abbreviation triggerQuickAction := (App.triggerQuickAction build origin).

Lemma sendRequest_issues (o : FetchOutcome) (path : string) (m : option string)
    (body : value) (p : Page) :
  sent (snd (sendRequest o path m body p)) =
  sent p ++ [build_request origin (app p) path (default "GET" m) body].
Proof. unfold App.sendRequest. destruct o; reflexivity. Qed.

Lemma sendRequest_same_forms (o : FetchOutcome) (path : string) (m : option string)
    (body : value) (p : Page) :
  same_forms (app p) (app (snd (sendRequest o path m body p))) /\
  token (app (snd (sendRequest o path m body p))) = token (app p).
Proof. unfold App.sendRequest, same_forms. destruct o; repeat split. Qed.


(** No dispatch writes a form field: the base URL, the credentials and the
    custom call's path, method and body are after it what they were before,
    whatever the outcome, for sendRequest and for every handler; and only the
    login and the logout can change the token. *)
Theorem dispatch_keeps_forms (o : FetchOutcome) (p : Page) :
  (forall path m body,
      same_forms (app p) (app (snd (sendRequest o path m body p))) /\
      token (app (snd (sendRequest o path m body p))) = token (app p)) /\
  (forall action,
      same_forms (app p) (app (triggerQuickAction o action p)) /\
      token (app (triggerQuickAction o action p)) = token (app p)) /\
  (same_forms (app p) (app (handleCustom o p)) /\
   token (app (handleCustom o p)) = token (app p)) /\
  same_forms (app p) (app (handleLogin o p)) /\
  same_forms (app p) (app (handleLogout o p)).
Proof.
  split; [|split; [|split; [|split]]].
  - intros path m body. apply sendRequest_same_forms.
  - intros action. apply sendRequest_same_forms.
  - unfold App.handleCustom.
    destruct (negb (String.eqb (trim (customBody (app p))) "")).
    + destruct (JSON_parse (customBody (app p))).
      * apply sendRequest_same_forms.
      * unfold same_forms. repeat split.
    + apply sendRequest_same_forms.
  - unfold App.handleLogin.
    destruct (sendRequest_same_forms o "/authenticate" (Some "POST")
                (VObj [("username", VStr (username (app p)));
                       ("password", VStr (password (app p)))]) p) as [Hforms _].
    destruct (sendRequest _ _ _ _ p) as [result p1]. cbn [snd] in Hforms.
    destruct (data result); [|exact Hforms].
    destruct (ok result && truthy (get_prop_opt v "access_token")); [|exact Hforms].
    exact Hforms.
  - unfold App.handleLogout.
    destruct (sendRequest_same_forms o "/logout" (Some "POST") VUndef p) as [Hforms _].
    destruct (sendRequest _ _ _ _ p) as [result p1]. exact Hforms.
Qed.

(** A response with a status from 200 to 299: the dispatch returns ok with
    the body as data, parsed when it is JSON and as the raw text when it is
    not; the response record holds the method, the path, the status and that
    data; the toast is the success toast of the call. *)
Theorem ok_response_recorded (status : nat) (text path : string) (m : option string)
    (body : value) (p : Page) :
  is_ok status = true ->
  let r := sendRequest (Responded status text) path m body p in
  let parsed := default (VStr text) (JSON_parse text) in
  fst r = {| ok := true; data := DataValue parsed |} /\
  response (app (snd r)) =
    Some {| r_method := default "GET" m; r_path := path;
            r_status := StatusCode status; r_data := parsed |} /\
  toast (app (snd r)) =
    {| tone := success;
       message := default "GET" m +:+ " " +:+ path +:+ " succeeded" |}.
Proof.
  intros Hok r parsed. subst r parsed. unfold App.sendRequest, outcome_message.
  cbn. rewrite Hok. destruct (JSON_parse text); repeat split.
Qed.

(** A GET never carries a body: when the method is GET, given or by default,
    the call goes out without one, whatever body was passed. *)
Theorem get_request_has_no_body (o : FetchOutcome) (path : string)
    (m : option string) (body : value) (p : Page) :
  default "GET" m = "GET" ->
  exists req,
    sent (snd (sendRequest o path m body p)) = sent p ++ [req] /\
    req_method req = "GET" /\
    req_body req = None.
Proof.
  intros Hm. eexists. rewrite sendRequest_issues. split; [reflexivity|].
  cbn. rewrite Hm. cbn. rewrite andb_false_r. split; reflexivity.
Qed.

(** Every quick action of either build is a GET without a body to its own
    path, which starts with a slash, joined to the base URL. *)
Theorem quick_action_request (o : FetchOutcome) (action : QuickAction) (p : Page) :
  In action (QUICK_ACTIONS build) ->
  startsWith_slash (qa_path action) = true /\
  exists req,
    sent (triggerQuickAction o action p) = sent p ++ [req] /\
    req_method req = "GET" /\
    req_body req = None /\
    req_url req =
      strip_trailing_slash (resolvedBaseUrl origin (app p)) +:+ qa_path action.
Proof.
  intros Hin.
  assert (Hshape : startsWith_slash (qa_path action) = true /\ qa_method action = "GET").
  { destruct build; cbn in Hin;
      repeat (destruct Hin as [<- | Hin]; [split; reflexivity|]); contradiction. }
  destruct Hshape as [Hslash Hget]. split; [exact Hslash|].
  eexists. unfold App.triggerQuickAction. rewrite sendRequest_issues.
  split; [reflexivity|]. cbn -[buildUrl]. rewrite Hget. repeat split.
  unfold buildUrl. rewrite Hslash. reflexivity.
Qed.


(** The login sends the credentials of the form as the JSON body of a POST
    to /authenticate.  Unless the answer is ok and its body has a truthy
    access_token, the page is left as the dispatch left it: the token is
    what it was and no sign-in toast is shown. *)
Theorem login_without_grant (o : FetchOutcome) (p : Page) :
  let creds := VObj [("username", VStr (username (app p)));
                     ("password", VStr (password (app p)))] in
  (exists req,
      sent (handleLogin o p) = sent p ++ [req] /\
      req_method req = "POST" /\
      req_url req = buildUrl (resolvedBaseUrl origin (app p)) "/authenticate" /\
      req_body req = JSON_stringify creds) /\
  (match o with
   | Rejected _ => True
   | Responded status text =>
       is_ok status = false \/
       truthy (get_prop_opt (default (VStr text) (JSON_parse text)) "access_token") = false
   end ->
   handleLogin o p = snd (sendRequest o "/authenticate" (Some "POST") creds p) /\
   token (app (handleLogin o p)) = token (app p)).
Proof.
  cbv zeta. split.
  - unfold App.handleLogin.
    pose proof (sendRequest_issues o "/authenticate" (Some "POST")
                  (VObj [("username", VStr (username (app p)));
                         ("password", VStr (password (app p)))]) p) as Hsent.
    destruct (sendRequest _ _ _ _ p) as [result p1]. cbn [snd] in Hsent.
    eexists. split.
    + destruct (data result); [|exact Hsent].
      destruct (ok result && truthy (get_prop_opt v "access_token")); exact Hsent.
    + cbn -[buildUrl]. repeat split.
  - intros Hno.
    assert (Hsame : handleLogin o p =
                    snd (sendRequest o "/authenticate" (Some "POST")
                           (VObj [("username", VStr (username (app p)));
                                  ("password", VStr (password (app p)))]) p)).
    { unfold App.handleLogin, App.sendRequest. destruct o as [e | status text].
      - reflexivity.
      - cbn. destruct Hno as [Hfail | Hfalsy].
        + rewrite Hfail. reflexivity.
        + destruct (JSON_parse text); cbn in Hfalsy |- *;
            [rewrite Hfalsy, andb_false_r; reflexivity|].
          rewrite andb_false_r. reflexivity. }
    split; [exact Hsame|]. rewrite Hsame. apply sendRequest_same_forms.
Qed.


(** A custom call whose body text parses to a truthy value, with a method
    other than GET: the body that goes out is the serialisation of the
    parsed value, not the text as typed. *)
Theorem custom_body_reserialised (o : FetchOutcome) (v : value) (p : Page) :
  trim (customBody (app p)) <> "" ->
  JSON_parse (customBody (app p)) = Some v ->
  truthy v = true ->
  customMethod (app p) <> "GET" ->
  exists req,
    sent (handleCustom o p) = sent p ++ [req] /\
    req_method req = customMethod (app p) /\
    req_url req = buildUrl (resolvedBaseUrl origin (app p)) (customPath (app p)) /\
    req_body req = JSON_stringify v.
Proof.
  intros Hblank Hparse Htruthy Hmethod. unfold App.handleCustom.
  destruct (String.eqb_spec (trim (customBody (app p))) "") as [E|_]; [contradiction|].
  cbn [negb]. rewrite Hparse. eexists. rewrite sendRequest_issues.
  split; [reflexivity|]. cbn -[buildUrl]. rewrite Htruthy.
  destruct (String.eqb_spec (customMethod (app p)) "GET"); [contradiction|].
  repeat split.
Qed.

End DispatchFacts.

(** ** Dispatches, run against the reference reader *)

Section DispatchRuns.

Import App Samples.

#[local] Open Scope list_scope.

#[local] Existing Instance Json.reference_browser.

(** A 204 without a body text: the data is the empty text. *)
Lemma ok_response_recorded_witness :
  response (app (snd (sendRequest Inline "http://page" (Responded 204 "")
                        "/health" None VUndef guest))) =
  Some {| r_method := "GET"; r_path := "/health"; r_status := StatusCode 204;
          r_data := VStr "" |}.
Proof.
  destruct (@ok_response_recorded Json.reference_browser Inline "http://page" 204 ""
              "/health" None VUndef guest eq_refl) as (_ & Hresponse & _).
  exact Hresponse.
Defined.

(** A body passed without a method. *)
Lemma get_request_has_no_body_witness :
  exists req,
    sent (snd (sendRequest Inline "http://page" (Responded 200 "{}") "/health" None
                 (VObj [("a", VNum 1)]) guest)) = [req] /\
    req_method req = "GET" /\
    req_body req = None.
Proof.
  exact (@get_request_has_no_body Json.reference_browser Inline "http://page"
           (Responded 200 "{}") "/health" None (VObj [("a", VNum 1)]) guest eq_refl).
Defined.

(** The Health action of the bundled build, from a signed-in page. *)
Lemma quick_action_request_witness :
  exists req,
    sent (triggerQuickAction Bundled "http://page" (Responded 200 "ok")
            {| title := "Health"; qa_path := "/health"; qa_method := "GET";
               description := "Quick readiness check for the hub service." |}
            (signed_in "")) = [req] /\
    req_method req = "GET" /\
    req_body req = None /\
    req_url req = "http://hub/health".
Proof.
  destruct (@quick_action_request Json.reference_browser Bundled "http://page"
              (Responded 200 "ok")
              {| title := "Health"; qa_path := "/health"; qa_method := "GET";
                 description := "Quick readiness check for the hub service." |}
              (signed_in "")) as (_ & req & Hreq).
  - cbn. tauto.
  - exists req. exact Hreq.
Defined.

(** A 200 whose body is not JSON: the login leaves the token empty. *)
Lemma login_without_grant_witness :
  token (app (handleLogin Inline "http://page" (Responded 200 "welcome") guest)) = VStr "".
Proof.
  destruct (@login_without_grant Json.reference_browser Inline "http://page"
              (Responded 200 "welcome") guest) as (_ & Hkeeps).
  destruct Hkeeps as (_ & Htoken).
  - right. reflexivity.
  - exact Htoken.
Defined.


(** A body typed with spaces goes out without them. *)
Lemma custom_body_reserialised_witness :
  req_body <$> sent (handleCustom Inline "http://page" (Responded 200 "{}")
                       (signed_in " [1, 2 ] "))
  = [Some "[1,2]"].
Proof.
  destruct (@custom_body_reserialised Json.reference_browser Inline "http://page"
              (Responded 200 "{}") (VArr [VNum 1; VNum 2]) (signed_in " [1, 2 ] "))
    as (req & Hsent & _ & _ & Hbody).
  - discriminate.
  - reflexivity.
  - reflexivity.
  - discriminate.
  - rewrite Hsent. cbn. rewrite Hbody. reflexivity.
Defined.

End DispatchRuns.

(** ** What setProp writes *)

Section PropFacts.

Import Runtime.

#[local] Open Scope list_scope.

Lemma starts_with_on_shape (name : string) :
  starts_with_on name = true ->
  exists rest, name = String "o" (String "n" rest).
Proof.
  unfold starts_with_on. destruct name as [|a [|b rest]]; cbn -[ascii_dec]; try discriminate.
  - destruct (ascii_dec "o" a); discriminate.
  - destruct (ascii_dec "o" a) as [<-|]; [|discriminate].
    destruct (ascii_dec "n" b) as [<-|]; [|discriminate].
    intros _. now exists rest.
Qed.

(** A function passed under a name that starts with "on" is registered as a
    listener, for the event named by the rest of the name in lower case, on
    an element and on a fragment alike; it writes no attribute, no property
    and no style. *)
Theorem setProp_registers_listener (on_fragment : bool) (d : node_data) (name : string)
    (f : nat) :
  starts_with_on name = true ->
  setProp on_fragment d name (PFunction f) =
  inr {| attributes := attributes d; style := style d;
         listeners := listeners d ++ [(toLowerCase (substring_from 2 name), f)];
         properties := properties d |}.
Proof.
  intros Hon. destruct (starts_with_on_shape name Hon) as (rest & ->).
  unfold setProp. rewrite Hon. reflexivity.
Qed.

(** The values [false] and [undefined] write nothing under an ordinary name,
    on an element and on a fragment alike.  Three names are not ordinary:
    className sets the class attribute even to such a value, and value and
    checked are assigned as properties whatever the value. *)
Theorem setProp_skips_absent (on_fragment : bool) (d : node_data) (name : string)
    (v : value) :
  v = VBool false \/ v = VUndef ->
  (name <> "className" -> name <> "value" -> name <> "checked" ->
   setProp on_fragment d name (PValue v) = inr d) /\
  setProp false d "className" (PValue v) = inr (setAttribute "class" (PValue v) d) /\
  setProp on_fragment d "value" (PValue v) = inr (set_property "value" (PValue v) d) /\
  setProp on_fragment d "checked" (PValue v) = inr (set_property "checked" (PValue v) d).
Proof.
  intros Hv. split; [|repeat split].
  intros Hclass Hvalue Hchecked. unfold setProp.
  destruct (String.eqb_spec name "key"); [reflexivity|].
  destruct (String.eqb_spec name "className"); [contradiction|].
  destruct (String.eqb_spec name "value"); [contradiction|].
  destruct (String.eqb_spec name "checked"); [contradiction|].
  destruct Hv as [-> | ->]; cbn;
    destruct (String.eqb name "style"), (starts_with_on name); cbn;
    rewrite andb_false_r; reflexivity.
Qed.



End PropFacts.

(** ** Trees without components *)

Section TreeFacts.

Import Runtime Tree.

#[local] Open Scope list_scope.

Context {Ext : Type}.

Variable component : nat -> option props -> list vnode -> M Ext vnode.








End TreeFacts.

(** ** Fragments in the DOM *)

Section FragmentFacts.

Import Runtime Tree.

#[local] Open Scope list_scope.

Context {Ext : Type}.

Variable component : nat -> option props -> list vnode -> M Ext vnode.

Lemma appended_settled (kids : list dom) :
  forallb fragment_free kids = true ->
  forallb settled (appended kids) = true.
Proof.
  induction kids as [|k kids IH]; intros Hk; [reflexivity|].
  cbn [forallb] in Hk. apply andb_prop in Hk as [Hk Hkids].
  unfold appended in *. cbn [flat_map]. rewrite forallb_app, (IH Hkids), andb_true_r.
  destruct k; cbn [forallb]; unfold settled; cbn [is_fragment negb andb].
  - reflexivity.
  - now rewrite Hk.
  - exact Hk.
Qed.

Lemma each_child_fragment_free (fuel : nat) (children : list vnode) :
  (forall v p d p', createDom component fuel v p = (Ok d, p') -> fragment_free d = true) ->
  forall p kids p',
    each_child (createDom component fuel) children p = (Ok kids, p') ->
    forallb fragment_free kids = true.
Proof.
  intros IH. induction children as [|c rest IHrest]; intros p kids p' Hrun.
  - cbn in Hrun. injection Hrun as <- _. reflexivity.
  - cbn [each_child] in Hrun. unfold bind in Hrun.
    destruct (createDom component fuel c p) as [[d| |] p1] eqn:Hd; try discriminate.
    destruct (each_child (createDom component fuel) rest p1) as [[ds| |] p2] eqn:Hds;
      try discriminate.
    cbn in Hrun. injection Hrun as <- _. cbn [forallb].
    now rewrite (IH _ _ _ _ Hd), (IHrest _ _ _ Hds).
Qed.

Lemma createDom_fragment_free (fuel : nat) (v : vnode) (p : page Ext) (d : dom)
    (p' : page Ext) :
  createDom component fuel v p = (Ok d, p') -> fragment_free d = true.
Proof.
  revert v p d p'. induction fuel as [|fuel IH]; intros v p d p' Hrun; [discriminate|].
  cbn [createDom] in Hrun.
  destruct (is_nothing v); [injection Hrun as <- _; reflexivity|].
  destruct (text_of v); [injection Hrun as <- _; reflexivity|].
  assert (Helement :
    forall type,
      (d0 <- lift_error (setProps (match type with Some Fragment => true | _ => false end)
                           empty_node (default [] (vnode_props v))) ;;
       match vnode_children v with
       | None => throw (TypeError "Cannot read properties of undefined (reading 'forEach')")
       | Some children =>
           kids <- each_child (createDom component fuel) children ;;
           ret (if match type with Some Fragment => true | _ => false end
                then DocumentFragment d0 (appended kids)
                else ElementNode (tag_name type) d0 (appended kids))
       end) p = (Ok d, p') ->
      fragment_free d = true).
  { clear Hrun. intros type Hrun. unfold bind, lift_error in Hrun.
    destruct (setProps _ empty_node _) as [e|d0]; [discriminate|].
    cbn in Hrun. destruct (vnode_children v) as [children|]; [|discriminate].
    destruct (each_child (createDom component fuel) children p) as [[kids| |] p1] eqn:Hkids;
      try discriminate.
    cbn in Hrun. injection Hrun as <- _.
    pose proof (appended_settled kids
                  (each_child_fragment_free fuel children IH _ _ _ Hkids)) as Hsettled.
    destruct (match type with Some Fragment => true | _ => false end); exact Hsettled. }
  destruct (vnode_type v) as [[name| |c]|].
  - exact (Helement (Some (Tag name)) Hrun).
  - exact (Helement (Some Fragment) Hrun).
  - unfold bind in Hrun.
    destruct (component c (vnode_props v) (default [] (vnode_children v)) p)
      as [[rendered| |] p1]; try discriminate.
    exact (IH _ _ _ _ Hrun).
  - exact (Helement None Hrun).
Qed.

(** Whatever the components return, a render that completes leaves no
    document fragment in the container: not among its children, and not
    below them.  A fragment gives its children to the node it is appended
    to. *)
Theorem render_mounts_no_fragment (fuel : nat) (v : vnode) (container : nat)
    (p p' : page Ext) :
  render component fuel v container p = (Ok tt, p') ->
  exists kids,
    containers p' !! container = Some kids /\
    forallb (fun k => negb (is_fragment k) && fragment_free k) kids = true.
Proof.
  unfold render, bind, modify_rt, replaceChildren. intros Hrun.
  destruct (createDom component fuel v _) as [[d| |] p1] eqn:Hd; try discriminate.
  cbn in Hrun. injection Hrun as <-.
  exists (appended [d]). split.
  - unfold flush_effects.
    set (q := {| rt := rt p1; ext := ext p1;
                 containers := <[container := appended [d]]> (containers p1) |}).
    assert (Hkeep : forall (l : list (pending Ext)) (q0 : page Ext), containers (fold_left (fun q1 entry => run_pending entry q1) l q0)
                                 = containers q0).
    { induction l as [|entry l IHl]; intros q0; [reflexivity|].
      cbn [fold_left]. rewrite IHl. unfold run_pending.
      destruct (pe_effect entry _). reflexivity. }
    rewrite Hkeep. subst q. cbn. now rewrite lookup_insert_eq.
  - apply (appended_settled [d]). cbn. now rewrite (createDom_fragment_free _ _ _ _ _ Hd).
Qed.

End FragmentFacts.

(** ** Effects and their cleanups *)

Section CleanupFacts.

Import Runtime.

#[local] Open Scope list_scope.

Context {Ext : Type}.


End CleanupFacts.

(** ** The runtime on sample trees *)

Section TreeRuns.

Import Runtime Tree Samples.

#[local] Open Scope list_scope.

(** The click handler of a button. *)
Lemma setProp_registers_listener_witness :
  setProp false empty_node "onClick" (PFunction 7) =
  inr {| attributes := []; style := []; listeners := [("click", 7)]; properties := [] |}.
Proof. exact (setProp_registers_listener false empty_node "onClick" 7 eq_refl). Defined.

(** [disabled: false] on a button. *)
Lemma setProp_skips_absent_witness :
  setProp false empty_node "disabled" (PValue (VBool false)) = inr empty_node.
Proof.
  apply (setProp_skips_absent false empty_node "disabled" (VBool false)).
  - now left.
  - discriminate.
  - discriminate.
  - discriminate.
Defined.


(** The fragment in a fragment leaves a text and an element in the container. *)
Lemma render_mounts_no_fragment_witness :
  exists kids,
    containers (snd (render fragments_view 5 root 0 (initial_page tt))) !! 0 = Some kids /\
    forallb (fun k => negb (is_fragment k) && fragment_free k) kids = true.
Proof.
  apply (render_mounts_no_fragment fragments_view 5 root 0 (initial_page tt)
           (snd (render fragments_view 5 root 0 (initial_page tt)))).
  vm_compute. reflexivity.
Defined.


End TreeRuns.

(** ** The persistence hook and the rest of the storage *)

Section StorageFrame.

Import Runtime Storage.

#[local] Open Scope list_scope.

Context `{Browser}.

Lemma only_key_refl (key : string) (b : browser) : only_key key b b.
Proof. intros other _. reflexivity. Qed.

Lemma only_key_trans (key : string) (b1 b2 b3 : browser) :
  only_key key b1 b2 -> only_key key b2 b3 -> only_key key b1 b3.
Proof. intros H12 H23 other Hother. now rewrite (H23 other Hother), (H12 other Hother). Qed.

Lemma read_stored_only_key (key : string) (initialValue : value) (b : browser) :
  only_key key b (snd (read_stored key initialValue b)).
Proof.
  intros other _. unfold getItem.
  destruct (read_stored_cases key initialValue b) as (_ & _ & _ & Hsame).
  now rewrite Hsame.
Qed.

Lemma write_stored_only_key (key : string) (v : value) (b : browser) :
  only_key key b (snd (write_stored key v b)).
Proof.
  intros other Hother. unfold write_stored, getItem.
  destruct (is_undefined v); cbn.
  - now rewrite lookup_delete_ne.
  - now rewrite lookup_insert_ne.
Qed.

Lemma browser_after_only_key (key : string) (initialValue old c : value) (b : browser) :
  only_key key b (browser_after key initialValue old c b).
Proof.
  unfold browser_after.
  assert (Hread : only_key key b
                    (if is_undefined c then snd (read_stored key initialValue b) else b)).
  { destruct (is_undefined c); [apply read_stored_only_key | apply only_key_refl]. }
  destruct (strict_neq _ old); [|exact Hread].
  eapply only_key_trans; [exact Hread | apply write_stored_only_key].
Qed.

Lemma flush_ext (key : string) (old v : value) (cr : option nat) (cv : option vnode)
    (b : browser) (cs : gmap nat (list dom)) :
  ext (flush_effects
         {| rt := {| hooks := map_seq 0 [SValue v; SEffect (Some [VStr key; old]) None];
                     hookIndex := 2;
                     pendingEffects :=
                       if strict_neq v old
                       then [{| pe_idx := 1;
                                pe_previous := SEffect (Some [VStr key; old]) None;
                                pe_effect := write_stored key v;
                                pe_deps := Some [VStr key; v] |}]
                       else [];
                     currentRoot := cr; currentVNode := cv |};
            ext := b; containers := cs |})
  = if strict_neq v old then snd (write_stored key v b) else b.
Proof.
  unfold flush_effects. cbn [rt pendingEffects].
  destruct (strict_neq v old); cbn [fold_left]; [|reflexivity].
  unfold run_pending. cbn [pe_previous slot_cleanup ext pe_effect].
  destruct (write_stored key v b). reflexivity.
Qed.

(** The first render, with the browser it leaves. *)
Lemma first_render_browser (key : string) (initialValue : value) (b : browser)
    (fuel container : nat) :
  exists p,
    render (stored_view key initialValue) (S (S fuel)) root container (initial_page b)
    = (Ok tt, p) /\
    agrees key (fst (read_stored key initialValue b)) container p /\
    ext p = snd (write_stored key (fst (read_stored key initialValue b))
                   (snd (read_stored key initialValue b))).
Proof.
  set (v := fst (read_stored key initialValue b)).
  set (p0 := with_rt (reset_for container root) (initial_page b)).
  assert (Hhook : useLocalStorage key initialValue p0 =
            (Ok (v, 0),
             with_rt (fun r =>
                        set_pendingEffects
                          [{| pe_idx := 1; pe_previous := SValue VUndef;
                              pe_effect := write_stored key v;
                              pe_deps := Some [VStr key; v] |}] r)
               (with_rt (set_hookIndex 2)
                  (with_rt (write_slot 0 (SValue v))
                     (with_ext (snd (read_stored key initialValue b)) p0))))).
  { unfold useLocalStorage, bind.
    rewrite (useState_fresh (read_stored key initialValue) p0 eq_refl).
    cbn [fst]. fold v. rewrite useEffect_fresh by reflexivity. reflexivity. }
  eexists. split.
  - apply render_root. cbn [stored_view]. unfold bind. fold p0. rewrite Hhook. reflexivity.
  - unfold flush_effects. cbn. unfold run_pending. cbn.
    destruct (write_stored_entry key v (snd (read_stored key initialValue b)))
      as [Hentry Hnone].
    destruct (write_stored key v (snd (read_stored key initialValue b)))
      as [cleanup b'] eqn:Hw.
    cbn in Hentry, Hnone. subst cleanup. unfold agrees. cbn.
    split; [split; [|split; [|split; [|split]]]|reflexivity].
    + apply map_eq. intros [|[|i]]; reflexivity.
    + reflexivity.
    + reflexivity.
    + exact Hentry.
    + now rewrite lookup_insert_eq.
Qed.

(** One setter call and its re-render, with the browser it leaves. *)
Lemma set_browser (key : string) (initialValue old : value) (u : update)
    (fuel container : nat) (p : page browser) :
  agrees key old container p ->
  exists p',
    setState (stored_view key initialValue) (S (S fuel)) 0 u p = (Ok tt, p') /\
    agrees key (stored_next key initialValue (apply_update u old) (ext p)) container p' /\
    ext p' = browser_after key initialValue old (apply_update u old) (ext p).
Proof.
  intros (Hhooks & Hroot & Hvnode & Hitem & _).
  set (c := apply_update u old).
  set (v := stored_next key initialValue c (ext p)).
  set (pr := with_rt (reset_for container root) (with_rt (assign_state 0 u) p)).
  assert (Hold : slot_as_value (read_slot (rt p) 0) = old).
  { unfold read_slot. rewrite Hhooks. reflexivity. }
  assert (Hcells : hooks (rt pr) = map_seq 0 [SValue c; SEffect (Some [VStr key; old]) None]).
  { unfold pr, assign_state. cbn. rewrite Hold. fold c. rewrite Hhooks.
    apply map_eq. intros [|[|j]]; reflexivity. }
  pose proof (useLocalStorage_again key initialValue old c pr Hcells eq_refl eq_refl) as Hhook.
  cbv zeta in Hhook. change (ext pr) with (ext p) in Hhook. fold v in Hhook.
  set (b := if is_undefined c then snd (read_stored key initialValue (ext p)) else ext p)
    in Hhook.
  assert (Hb : getItem key b = stored_entry old).
  { unfold b, getItem. destruct (is_undefined c); [|exact Hitem].
    destruct (read_stored_cases key initialValue (ext p)) as (_ & _ & _ & Hsame).
    rewrite Hsame. exact Hitem. }
  set (q := {| rt := _; ext := b; containers := containers pr |}) in Hhook.
  pose proof (flush_agrees key old v container (currentRoot (rt pr)) (currentVNode (rt pr))
                b (<[container := [TextNode (to_string v)]]> (containers pr)) Hb) as Hflush.
  pose proof (flush_ext key old v (currentRoot (rt pr)) (currentVNode (rt pr))
                b (<[container := [TextNode (to_string v)]]> (containers pr))) as Hext.
  cbv zeta in Hflush.
  set (flushed := flush_effects _) in Hflush, Hext.
  destruct Hflush as (Hh & Hr & Hv & Hi & Hc).
  exists flushed. split; [|split].
  - unfold setState, bind, modify_rt, rerender.
    change (currentRoot (rt (with_rt (assign_state 0 u) p))) with (currentRoot (rt p)).
    change (currentVNode (rt (with_rt (assign_state 0 u) p))) with (currentVNode (rt p)).
    rewrite Hroot, Hvnode. change (vnode_truthy root) with true. cbv iota.
    rewrite (render_root (stored_view key initialValue) fuel container _ q (to_string v));
      [reflexivity|].
    cbn [stored_view]. unfold bind. fold pr. rewrite Hhook. reflexivity.
  - unfold agrees. split; [exact Hh|]. split; [exact Hr|]. split; [exact Hv|].
    split; [exact Hi|].
    rewrite Hc. now rewrite lookup_insert_eq.
  - exact Hext.
Qed.

Lemma store_each_only_key (key : string) (initialValue : value) (calls : list update)
    (old : value) (fuel container : nat) (p : page browser) :
  agrees key old container p ->
  exists p',
    store_each (S (S fuel)) key initialValue calls p = (Ok tt, p') /\
    only_key key (ext p) (ext p').
Proof.
  revert old p. induction calls as [|u rest IH]; intros old p Hp.
  - exists p. split; [reflexivity | apply only_key_refl].
  - destruct (set_browser key initialValue old u fuel container p Hp)
      as (p1 & Hset & Hp1 & Hext).
    destruct (IH _ p1 Hp1) as (p' & Hrest & Hkeys).
    exists p'. split.
    + cbn [store_each]. unfold bind. rewrite Hset. exact Hrest.
    + eapply only_key_trans; [|exact Hkeys]. rewrite Hext. apply browser_after_only_key.
Qed.

(** The persistence hook, first rendered over any storage and then set any
    number of times with any arguments, reads and writes its own key only:
    every other key of the storage holds what it held. *)
Theorem other_keys_untouched (key other : string) (initialValue : value) (b : browser)
    (calls : list update) (fuel container : nat) :
  other <> key ->
  exists p,
    (_ <- render (stored_view key initialValue) (S (S fuel)) root container ;;
     store_each (S (S fuel)) key initialValue calls) (initial_page b) = (Ok tt, p) /\
    getItem other (ext p) = getItem other b.
Proof.
  intros Hother.
  destruct (first_render_browser key initialValue b fuel container)
    as (p0 & Hrender & Hp0 & Hext0).
  destruct (store_each_only_key key initialValue calls _ fuel container p0 Hp0)
    as (p & Hstore & Hkeys).
  exists p. split.
  - unfold bind. rewrite Hrender. exact Hstore.
  - rewrite (Hkeys other Hother), Hext0.
    rewrite (write_stored_only_key key _ _ other Hother).
    apply (read_stored_only_key key initialValue b other Hother).
Qed.

(** A key whose text does not parse: the first render warns once on the
    console, the hook's value is the default, and the effect replaces the
    text by the serialisation of the default, so that the next page load
    parses it. *)
Theorem corrupt_text_replaced (key raw : string) (initialValue : value) (b : browser)
    (fuel container : nat) :
  getItem key b = Some raw ->
  JSON_parse raw = None ->
  defined initialValue ->
  exists p,
    render (stored_view key initialValue) (S (S fuel)) root container (initial_page b)
    = (Ok tt, p) /\
    read_slot (rt p) 0 = SValue initialValue /\
    getItem key (ext p) = Some (stored_text initialValue) /\
    console (ext p) = console b ++ ["Failed to parse localStorage value"] /\
    containers p !! container = Some [TextNode (to_string initialValue)].
Proof.
  intros Hraw Hparse Hdefined.
  destruct (first_render_browser key initialValue b fuel container)
    as (p & Hrender & Hp & Hext).
  destruct (read_stored_cases key initialValue b) as (_ & Hcorrupt & _).
  rewrite (Hcorrupt raw Hraw Hparse) in Hp, Hext. cbn [fst snd] in Hp, Hext.
  exists p. split; [exact Hrender|].
  destruct Hp as (Hhooks & _ & _ & Hitem & Hshown).
  split; [|split; [|split]].
  - unfold read_slot. rewrite Hhooks. reflexivity.
  - rewrite Hitem. unfold stored_entry. now rewrite Hdefined.
  - rewrite Hext. unfold write_stored. rewrite Hdefined. reflexivity.
  - exact Hshown.
Qed.

(** What was set last is what a page load reads: after any number of setter
    calls with values other than [undefined], the last one a value that
    parses back from its serialisation, a first render over the storage left
    behind, with whatever default, reads that value and shows it. *)
Theorem stored_value_survives_reload (key : string) (initialValue later v : value)
    (b : browser) (earlier : list value) (fuel container : nat) :
  Forall defined earlier ->
  defined v ->
  JSON_parse (stored_text v) = Some v ->
  exists p p2,
    (_ <- render (stored_view key initialValue) (S (S fuel)) root container ;;
     store_each (S (S fuel)) key initialValue (SetValue <$> (earlier ++ [v])))
      (initial_page b) = (Ok tt, p) /\
    render (stored_view key later) (S (S fuel)) root container (initial_page (ext p))
    = (Ok tt, p2) /\
    read_slot (rt p2) 0 = SValue v /\
    containers p2 !! container = Some [TextNode (to_string v)].
Proof.
  intros Hearlier Hv Hround.
  destruct (first_render_agrees key initialValue b fuel container) as (p0 & Hrender & Hp0).
  destruct (store_each_written key initialValue (earlier ++ [v]) _ fuel container p0 Hp0)
    as (p & Hstore & Hp).
  { apply Forall_app. split; [exact Hearlier | now constructor]. }
  rewrite last_last in Hp.
  destruct (first_render_agrees key later (ext p) fuel container) as (p2 & Hreload & Hp2).
  assert (Hread : read_stored key later (ext p) = (v, ext p)).
  { destruct (read_stored_cases key later (ext p)) as (Hparsed & _).
    apply (Hparsed (stored_text v)); [|exact Hround].
    destruct Hp as (_ & _ & _ & Hitem & _). rewrite Hitem.
    unfold stored_entry. now rewrite Hv. }
  rewrite Hread in Hp2. cbn [fst] in Hp2.
  exists p, p2. split; [|split; [exact Hreload|]].
  - unfold bind. rewrite Hrender. exact Hstore.
  - destruct Hp2 as (Hhooks & _ & _ & _ & Hshown). split; [|exact Hshown].
    unfold read_slot. rewrite Hhooks. reflexivity.
Qed.

End StorageFrame.

(** ** The persistence hook, run against the reference reader *)

Section StorageRuns.

Import Runtime Storage Samples.

#[local] Open Scope list_scope.

#[local] Existing Instance Json.reference_browser.

(** The base URL key while the token is set twice. *)
Lemma other_keys_untouched_witness :
  exists p,
    (_ <- render (stored_view "hub.token" (VStr "")) 2 root 0 ;;
     store_each 2 "hub.token" (VStr "") [SetValue (VStr "t"); SetValue VUndef])
      (initial_page (browser_with "hub.baseUrl" "1")) = (Ok tt, p) /\
    getItem "hub.baseUrl" (ext p) = Some "1".
Proof.
  apply (other_keys_untouched "hub.token" "hub.baseUrl" (VStr "")
           (browser_with "hub.baseUrl" "1") [SetValue (VStr "t"); SetValue VUndef] 0 0).
  discriminate.
Defined.

(** A token key that holds the text [{oops]. *)
Lemma corrupt_text_replaced_witness :
  exists p,
    render (stored_view "hub.token" (VNum 0)) 2 root 0
      (initial_page (browser_with "hub.token" "{oops")) = (Ok tt, p) /\
    read_slot (rt p) 0 = SValue (VNum 0) /\
    getItem "hub.token" (ext p) = Some "0" /\
    console (ext p) = ["Failed to parse localStorage value"] /\
    containers p !! 0 = Some [TextNode "0"].
Proof.
  destruct (corrupt_text_replaced "hub.token" "{oops" (VNum 0)
              (browser_with "hub.token" "{oops") 0 0)
    as (p & Hrender & Hvalue & Hkey & Hconsole & Hshown).
  - reflexivity.
  - vm_compute. reflexivity.
  - reflexivity.
  - exists p. split; [exact Hrender|]. split; [exact Hvalue|]. split; [exact Hkey|].
    split; [exact Hconsole | exact Hshown].
Defined.

(** The token set to 2 and then to the text "t", and the page loaded again. *)
Lemma stored_value_survives_reload_witness :
  exists p p2,
    (_ <- render (stored_view "hub.token" (VStr "")) 2 root 0 ;;
     store_each 2 "hub.token" (VStr "") [SetValue (VNum 2); SetValue (VStr "t")])
      (initial_page (browser_with "hub.token" "1")) = (Ok tt, p) /\
    render (stored_view "hub.token" (VStr "")) 2 root 0 (initial_page (ext p))
    = (Ok tt, p2) /\
    read_slot (rt p2) 0 = SValue (VStr "t") /\
    containers p2 !! 0 = Some [TextNode "t"].
Proof.
  apply (stored_value_survives_reload "hub.token" (VStr "") (VStr "") (VStr "t")
           (browser_with "hub.token" "1") [VNum 2] 0 0).
  - repeat constructor.
  - reflexivity.
  - reflexivity.
Defined.

End StorageRuns.

(** ** Equal values *)

Section EqualValues.

#[local] Open Scope list_scope.

Lemma strict_eq_refl_bounded (n : nat) :
  forall a, value_size a <= n -> strict_eq a a = true.
Proof.
  induction n as [|n IH]; intros a Hsize.
  - destruct a; cbn in Hsize; lia.
  - destruct a; cbn; try reflexivity.
    + now destruct b.
    + apply Z.eqb_refl.
    + apply String.eqb_refl.
    + cbn in Hsize. apply le_S_n in Hsize.
      induction items as [|x xs IHxs]; [reflexivity|].
      cbn in Hsize. rewrite IH by lia. cbn. apply IHxs. lia.
    + cbn in Hsize. apply le_S_n in Hsize.
      induction fields as [|[k x] xs IHxs]; [reflexivity|].
      cbn in Hsize. rewrite String.eqb_refl, IH by lia. cbn. apply IHxs. lia.
Qed.

(** A value is strictly equal to itself: the numbers of this development
    are integers. *)
Lemma strict_eq_refl (a : value) : strict_eq a a = true.
Proof. apply (strict_eq_refl_bounded (value_size a)). lia. Qed.

End EqualValues.

(** ** The page: its hooks *)

Section PageHooks.

Import Runtime Storage Tree View.

#[local] Open Scope list_scope.

Context `{Browser}.

Variable stringify_indented : value -> option string.
Variable function_text : nat -> string.
Variable other_child : prop_value -> child_arg.
Variable origin : string.

Abbreviation page_component :=
  (View.page_component stringify_indented function_text other_child origin).
Abbreviation App := (View.App other_child origin).
Abbreviation state_cells := (View.state_cells origin).
Abbreviation state_view := (View.state_view other_child origin).
Abbreviation payload_text := (View.payload_text stringify_indented).

(** The persistence hook on two empty cells. *)
Lemma useLocalStorage_fresh (key : string) (initialValue : value) (p : page browser) :
  read_slot (rt p) (hookIndex (rt p)) = SValue VUndef ->
  read_slot (rt p) (S (hookIndex (rt p))) = SValue VUndef ->
  let idx := hookIndex (rt p) in
  let v := fst (read_stored key initialValue (ext p)) in
  useLocalStorage key initialValue p =
  (Ok (v, idx),
   with_rt (fun r =>
              set_pendingEffects
                (pendingEffects r ++
                   [{| pe_idx := S idx; pe_previous := SValue VUndef;
                       pe_effect := write_stored key v;
                       pe_deps := Some [VStr key; v] |}]) r)
     (with_rt (set_hookIndex (S (S idx)))
        (with_rt (write_slot idx (SValue v))
           (with_ext (snd (read_stored key initialValue (ext p))) p)))).
Proof.
  intros Hfirst Hsecond idx v. unfold useLocalStorage, bind.
  rewrite (useState_fresh (read_stored key initialValue) p Hfirst).
  cbn [fst]. fold v. fold idx.
  rewrite useEffect_fresh.
  - reflexivity.
  - change (read_slot (write_slot idx (SValue v) (set_hookIndex (S idx) (rt p))) (S idx)
            = SValue VUndef).
    rewrite read_write_other by lia. exact Hsecond.
Qed.

(** The persistence hook on two cells a render left. *)
Lemma useLocalStorage_settled (key : string) (initialValue v : value)
    (cleanup : option (browser -> browser)) (p : page browser) :
  read_slot (rt p) (hookIndex (rt p)) = SValue v ->
  defined v ->
  read_slot (rt p) (S (hookIndex (rt p))) = SEffect (Some [VStr key; v]) cleanup ->
  useLocalStorage key initialValue p =
  (Ok (v, hookIndex (rt p)), with_rt (set_hookIndex (S (S (hookIndex (rt p))))) p).
Proof.
  intros Hfirst Hv Hsecond. unfold useLocalStorage, bind.
  rewrite (useState_kept _ v p Hfirst Hv). cbn [fst].
  assert (Hsame : @deps_changed browser (SEffect (Some [VStr key; v]) cleanup)
                    (Some [VStr key; v]) = inr false).
  { unfold deps_changed. cbn. unfold strict_neq. cbn.
    rewrite String.eqb_refl, strict_eq_refl. reflexivity. }
  rewrite (useEffect_compared _ _ (SEffect (Some [VStr key; v]) cleanup) false
             (with_rt (set_hookIndex (S (hookIndex (rt p)))) p) Hsecond Hsame).
  reflexivity.
Qed.

(** The memo hook on a cell that recorded the very list it is given. *)
Lemma useMemo_kept (factory : factory_body browser) (cached a b : value)
    (p : page browser) :
  read_slot (rt p) (hookIndex (rt p)) = SMemo cached (Some [a; b]) ->
  useMemo factory (Some [a; b]) p =
  (Ok cached, with_rt (set_hookIndex (S (hookIndex (rt p)))) p).
Proof.
  intros Hslot. unfold useMemo.
  change (read_slot (rt (with_rt (set_hookIndex (S (hookIndex (rt p)))) p)) (hookIndex (rt p)))
    with (read_slot (rt p) (hookIndex (rt p))).
  rewrite Hslot. unfold deps_changed. cbn. unfold strict_neq.
  rewrite !strict_eq_refl. reflexivity.
Qed.

(** A render of the root node: the component number 0 is called on the
    page the four assignments of [render] leave. *)
Lemma render_calls_root (component : nat -> option props -> list vnode -> M browser vnode)
    (fuel container : nat) (p : page browser) :
  render component (S fuel) root container p =
  match component 0 (Some []) [] (with_rt (reset_for container root) p) with
  | (Ok rendered, p1) =>
      (d <- createDom component fuel rendered ;;
       _ <- replaceChildren container d ;;
       fun q => (Ok tt, flush_effects q)) p1
  | (Throw e, p1) => (Throw e, p1)
  | (OutOfFuel, p1) => (OutOfFuel, p1)
  end.
Proof.
  unfold render, bind, modify_rt. cbn [createDom root createElement is_nothing text_of
    vnode_type vnode_props vnode_children flat flat_map default from_option id].
  unfold bind.
  destruct (component 0 (Some []) [] _) as [[rendered|e|] p1]; reflexivity.
Qed.

(** [App] on the cells of a state: every hook reads its cell, no cell is
    written, nothing is pushed, and the tree is the one of the state. *)
Lemma App_settled (st : App.AppState) (pe : list (pending browser))
    (cr : option nat) (cv : option vnode) (e : browser) (cs : gmap nat (list dom)) :
  defined (App.token st) ->
  App {| rt := {| hooks := map_seq 0 (state_cells st); hookIndex := 0;
                  pendingEffects := pe; currentRoot := cr; currentVNode := cv |};
         ext := e; containers := cs |} =
  (Ok (state_view st),
   {| rt := {| hooks := map_seq 0 (state_cells st); hookIndex := 13;
               pendingEffects := pe; currentRoot := cr; currentVNode := cv |};
      ext := e; containers := cs |}).
Proof.
  intros Htoken. unfold View.App, bind.
  rewrite (useLocalStorage_settled "hub.baseUrl" _ (VStr (App.baseUrl st)) None)
    by reflexivity.
  rewrite (useLocalStorage_settled "hub.token" _ (App.token st) None)
    by (exact Htoken || reflexivity).
  rewrite (useState_kept _ (VStr (App.username st))) by reflexivity.
  rewrite (useState_kept _ (VStr (App.password st))) by reflexivity.
  rewrite (useState_kept _ (VBool (App.isLoading st))) by reflexivity.
  rewrite (useState_kept _ (response_object (App.response st)))
    by (reflexivity || (destruct (App.response st); reflexivity)).
  rewrite (useState_kept _ (toast_object (App.toast st))) by reflexivity.
  rewrite (useState_kept _ (VStr (App.customPath st))) by reflexivity.
  rewrite (useState_kept _ (VStr (App.customMethod st))) by reflexivity.
  rewrite (useState_kept _ (VStr (App.customBody st))) by reflexivity.
  cbn [fst].
  rewrite (useMemo_kept _ (if truthy (VStr (App.baseUrl st)) then VStr (App.baseUrl st)
                           else VStr origin)
             (VStr (App.baseUrl st)) (VStr origin)) by reflexivity.
  reflexivity.
Qed.

(** [App] on empty cells, over a storage that has neither key: every
    state cell takes its initial value, the memo is computed, the two
    effects are pushed, and the tree is the one of the initial state. *)
Lemma App_first (b : browser) (cr : option nat) (cv : option vnode)
    (cs : gmap nat (list dom)) :
  getItem "hub.baseUrl" b = None ->
  getItem "hub.token" b = None ->
  let st := App.initialState origin in
  App {| rt := {| hooks := ∅; hookIndex := 0; pendingEffects := [];
                  currentRoot := cr; currentVNode := cv |};
         ext := b; containers := cs |} =
  (Ok (state_view st),
   {| rt := {| hooks := delete 3 (delete 1 (map_seq 0 (state_cells st)));
               hookIndex := 13;
               pendingEffects :=
                 [{| pe_idx := 1; pe_previous := SValue VUndef;
                     pe_effect := write_stored "hub.baseUrl" (VStr origin);
                     pe_deps := Some [VStr "hub.baseUrl"; VStr origin] |};
                  {| pe_idx := 3; pe_previous := SValue VUndef;
                     pe_effect := write_stored "hub.token" (VStr "");
                     pe_deps := Some [VStr "hub.token"; VStr ""] |}];
               currentRoot := cr; currentVNode := cv |};
      ext := b; containers := cs |}).
Proof.
  intros Hbase Htoken st.
  assert (Hr1 : read_stored "hub.baseUrl" (VStr origin) b = (VStr origin, b)).
  { unfold read_stored. now rewrite Hbase. }
  assert (Hr2 : read_stored "hub.token" (VStr "") b = (VStr "", b)).
  { unfold read_stored. now rewrite Htoken. }
  unfold View.App, bind.
  rewrite useLocalStorage_fresh by reflexivity.
  cbn [fst snd ext with_rt with_ext]. rewrite Hr1. cbn [fst snd].
  rewrite useLocalStorage_fresh by reflexivity.
  cbn [fst snd ext with_rt with_ext]. rewrite Hr2. cbn [fst snd].
  vm_compute. reflexivity.
Qed.

End PageHooks.

(** ** The page: its DOM *)

Section PageDom.

Import Runtime Storage Tree View.

#[local] Open Scope list_scope.

Context `{Browser}.

Variable stringify_indented : value -> option string.
Variable function_text : nat -> string.
Variable other_child : prop_value -> child_arg.
Variable origin : string.

Abbreviation page_component :=
  (View.page_component stringify_indented function_text other_child origin).
Abbreviation state_cells := (View.state_cells origin).
Abbreviation state_view := (View.state_view other_child origin).
Abbreviation payload_text := (View.payload_text stringify_indented).
Abbreviation settled_page := (View.settled_page origin).

Ltac read_dom := vm_compute; repeat split.

Lemma prettyPayload_cases (data : value) :
  View.prettyPayload stringify_indented data = VnString (payload_text data) \/
  (View.prettyPayload stringify_indented data = VnUndefined /\ payload_text data = "").
Proof.
  unfold View.prettyPayload, View.payload_text.
  destruct data; try (destruct (stringify_indented _)); auto.
Qed.

(** A component node is, to [createDom], the tree its component returns. *)
Lemma createDom_component (component : nat -> option props -> list vnode -> M browser vnode)
    (c k : nat) (p : option props) (children : list vnode) (body : vnode)
    (q : page browser) :
  component c p children q = (Ok body, q) ->
  createDom component (S k) (VnNode (Component c) p children) q =
  createDom component k body q.
Proof.
  intros Hbody. cbn [createDom is_nothing text_of vnode_type vnode_props vnode_children
                     default from_option id].
  unfold bind. now rewrite Hbody.
Qed.

(** An element whose props are set and whose children are made. *)
Lemma createDom_element (component : nat -> option props -> list vnode -> M browser vnode)
    (k : nat) (tag : string) (p : option props) (children : list vnode)
    (d : node_data) (kids : list dom) (q q' : page browser) :
  setProps false empty_node (default [] p) = inr d ->
  each_child (createDom component k) children q = (Ok kids, q') ->
  createDom component (S k) (VnNode (Tag tag) p children) q =
  (Ok (ElementNode tag d (appended kids)), q').
Proof.
  intros Hd Hkids.
  cbn [createDom is_nothing text_of vnode_type vnode_props vnode_children].
  rewrite Hd. unfold bind, lift_error, ret. rewrite Hkids. reflexivity.
Qed.

Lemma header_dom (t : string) (tone : App.Tone) (k : nat) (p : page browser) :
  exists d,
    createDom page_component (7 + k) (header (VStr t)) p = (Ok d, p) /\
    shows d [] [if String.eqb t "" then "Guest mode" else "Authenticated"] [] [] tone.
Proof.
  destruct t, tone; eexists; (split; [vm_compute; reflexivity|]); read_dom.
Qed.

Lemma grid_dom (t : string) (l : bool) (resolved username password : value)
    (tone : App.Tone) (k : nat) (p : page browser) :
  exists d,
    createDom page_component (7 + k)
      (h (Tag "div") (cls "grid")
         [One (connection_card resolved);
          One (authentication_card other_child (VStr t) username password (VBool l))]) p
    = (Ok d, p) /\
    shows d [("Reset to page origin", false, [handler_id ResetBaseUrl]);
             ("Request token", l, [handler_id HandleLogin]);
             ("Log out", String.eqb t "" || l, [handler_id HandleLogout])]
      [] [] [] tone.
Proof.
  destruct t, l, tone; eexists; (split; [vm_compute; reflexivity|]); read_dom.
Qed.

Lemma quick_dom (l : bool) (tone : App.Tone) (k : nat) (p : page browser) :
  exists d,
    createDom page_component (7 + k) (quick_actions_card (VBool l)) p = (Ok d, p) /\
    shows d [("Providers", l, [handler_id (SendQuick 0)]);
             ("Devices", l, [handler_id (SendQuick 1)]);
             ("Workspaces", l, [handler_id (SendQuick 2)]);
             ("User Info", l, [handler_id (SendQuick 3)]);
             ("Health", l, [handler_id (SendQuick 4)])]
      [] [] [] tone.
Proof.
  destruct l, tone; eexists; (split; [vm_compute; reflexivity|]); read_dom.
Qed.

Lemma lab_dom (l : bool) (customMethod customPath customBody : value)
    (tone : App.Tone) (k : nat) (p : page browser) :
  exists d,
    createDom page_component (7 + k)
      (request_lab_card customMethod customPath customBody (VBool l)) p = (Ok d, p) /\
    shows d [("Send request", l, [handler_id HandleCustom])] [] [] [] tone.
Proof.
  destruct l, tone; eexists; (split; [vm_compute; reflexivity|]); read_dom.
Qed.

Lemma toast_dom (t : App.Toast) (k : nat) (p : page browser) :
  exists d,
    createDom page_component (7 + k)
      (h (Component Toast_number)
         (Some [("tone", PValue (VStr (tone_text (App.tone t))));
                ("message", PValue (VStr (App.message t)))]) []) p
    = (Ok d, p) /\
    shows d [] [] (if String.eqb (App.message t) "" then [] else [App.message t]) []
      (App.tone t).
Proof.
  destruct t as [tone message]. destruct tone, message; eexists;
    (split; [vm_compute; reflexivity|]); read_dom.
Qed.

Lemma panel_dom (r : option App.ResponseRecord) (tone : App.Tone) (k : nat)
    (p : page browser) :
  exists d,
    createDom page_component (7 + k)
      (h (Component ResultPanel_number)
         (Some [("response", PValue (response_object r)); ("onClear", fn ClearResponse)])
         []) p
    = (Ok d, p) /\
    shows d (match r with
             | Some _ => [("Clear", false, [handler_id ClearResponse])]
             | None => []
             end)
      [] []
      (match r with
       | Some r => [payload_text (App.r_data r)]
       | None => []
       end) tone /\
    texts_of_class "chip" d =
      match r with
      | Some r => [to_string (status_value (App.r_status r))]
      | None => []
      end.
Proof.
  destruct r as [[method path status data]|];
    [|destruct tone; eexists; (split; [vm_compute; reflexivity|]); read_dom].
  cbn [App.r_data App.r_status].
  change (7 + k) with (S (6 + k)). unfold h at 1, createElement at 1. cbn [flat flat_map].
  rewrite (createDom_component page_component ResultPanel_number (6 + k) _ []
             (ResultPanel stringify_indented other_child _) p eq_refl).
  unfold View.ResultPanel. cbv zeta.
  match goal with
  | |- context [View.prettyPayload stringify_indented ?d] =>
      change (View.prettyPayload stringify_indented d)
        with (View.prettyPayload stringify_indented data)
  end.
  destruct (prettyPayload_cases data) as [-> | [-> ->]];
    destruct status, tone; eexists; (split; [vm_compute; reflexivity|]); read_dom.
Qed.

Lemma appended_plain (kids : list dom) :
  forallb (fun k => negb (is_fragment k)) kids = true -> appended kids = kids.
Proof.
  induction kids as [|k kids IH]; [reflexivity|].
  cbn [forallb]. intros Hk. apply andb_prop in Hk as [Hk Hkids].
  unfold appended in *. cbn [flat_map]. rewrite (IH Hkids).
  destruct k; [reflexivity | reflexivity | discriminate].
Qed.

(** The tree of a state whose token is a text, materialised. *)
Lemma view_dom (st : App.AppState) (t : string) (k : nat) (p : page browser) :
  App.token st = VStr t ->
  exists d,
    createDom page_component (8 + k) (state_view st) p = (Ok d, p) /\
    shows d
      (page_buttons t (App.isLoading st) ++
       match App.response st with
       | Some _ => [clear_button]
       | None => []
       end)
      [if String.eqb t "" then "Guest mode" else "Authenticated"]
      (if String.eqb (App.message (App.toast st)) "" then []
       else [App.message (App.toast st)])
      (match App.response st with
       | Some r => [payload_text (App.r_data r)]
       | None => []
       end)
      (App.tone (App.toast st)).
Proof.
  intros Ht. unfold View.state_view, View.App_view. rewrite Ht.
  pose (tone := App.tone (App.toast st)).
  destruct (header_dom t tone k p) as (d1 & H1 & F1 & B1 & C1 & T1 & R1).
  destruct (grid_dom t (App.isLoading st)
              (if truthy (VStr (App.baseUrl st)) then VStr (App.baseUrl st) else VStr origin)
              (VStr (App.username st)) (VStr (App.password st)) tone k p)
    as (d2 & H2 & F2 & B2 & C2 & T2 & R2).
  destruct (quick_dom (App.isLoading st) tone k p) as (d3 & H3 & F3 & B3 & C3 & T3 & R3).
  destruct (lab_dom (App.isLoading st) (VStr (App.customMethod st))
              (VStr (App.customPath st)) (VStr (App.customBody st)) tone k p)
    as (d4 & H4 & F4 & B4 & C4 & T4 & R4).
  destruct (toast_dom (App.toast st) k p) as (d5 & H5 & F5 & B5 & C5 & T5 & R5).
  destruct (panel_dom (App.response st) tone k p)
    as (d6 & H6 & (F6 & B6 & C6 & T6 & R6) & _).
  exists (ElementNode "div"
            {| attributes := [("class", str "app-shell")]; style := []; listeners := [];
               properties := [] |}
            [d1; d2; d3; d4; d5; d6]).
  split.
  - change (8 + k) with (S (7 + k)). unfold h at 1, createElement at 1.
    cbn [flat flat_map app].
    rewrite (createDom_element page_component (7 + k) "div" (cls "app-shell") _
               {| attributes := [("class", str "app-shell")]; style := []; listeners := [];
                  properties := [] |}
               [d1; d2; d3; d4; d5; d6] p p eq_refl).
    + rewrite appended_plain; [reflexivity|].
      cbn [forallb]. now rewrite F1, F2, F3, F4, F5, F6.
    + cbn [each_child]. unfold bind. rewrite H1, H2, H3, H4, H5, H6. reflexivity.
  - unfold shows. cbn [is_fragment buttons texts_of_class flat_map].
    rewrite B1, B2, B3, B4, B5, B6, C1, C2, C3, C4, C5, C6, R1, R2, R3, R4, R5, R6.
    subst tone. rewrite T1, T2, T3, T4, T5, T6.
    destruct (App.tone (App.toast st)); cbn; rewrite ?app_nil_r; repeat split.
Qed.

(** The effects of a render write no container. *)
Lemma flush_keeps_containers (q : page browser) :
  containers (flush_effects q) = containers q.
Proof.
  unfold flush_effects.
  assert (Hkeep : forall (l : list (pending browser)) (q0 : page browser),
             containers (fold_left (fun q1 entry => run_pending entry q1) l q0)
             = containers q0).
  { induction l as [|entry l IHl]; intros q0; [reflexivity|].
    cbn [fold_left]. rewrite IHl. unfold run_pending.
    destruct (pe_effect entry _). reflexivity. }
  apply Hkeep.
Qed.

(** A render over the cells of a state whose tree is materialised: the cells
    and the browser are left as they are and the container takes the DOM. *)
Lemma render_settled (st : App.AppState) (d : dom) (p : page browser)
    (fuel container : nat) :
  defined (App.token st) ->
  hooks (rt p) = map_seq 0 (state_cells st) ->
  createDom page_component (8 + fuel) (state_view st)
    (settled_page st container (ext p) (containers p))
  = (Ok d, settled_page st container (ext p) (containers p)) ->
  is_fragment d = false ->
  render page_component (9 + fuel) root container p =
  (Ok tt, settled_page st container (ext p) (<[container := [d]]> (containers p))).
Proof.
  intros Htoken Hcells Hd Hplain.
  destruct p as [[hk i pe cr cv] e cs]. cbn [rt hooks ext containers] in *. subst hk.
  change (9 + fuel) with (S (8 + fuel)). rewrite render_calls_root.
  change (page_component 0 (Some []) []) with (View.App other_child origin).
  unfold with_rt, reset_for. cbn [rt ext containers hooks].
  rewrite App_settled by exact Htoken.
  unfold bind. fold (settled_page st container e cs) in *. rewrite Hd. unfold replaceChildren.
  rewrite (appended_plain [d]) by (cbn; now rewrite Hplain).
  reflexivity.
Qed.


(** Every state whose token is a text renders: from the cells of the state,
    a render completes, writes no cell, pushes no effect, leaves storage and
    console alone, and puts in the container one element that shows the
    state: the nine buttons (all disabled while loading, the logout also
    without a token, the reset never), the Clear button when there is a
    response, the chip, the toast unless its message is empty, and the data
    of the response. *)
Theorem page_renders_state (st : App.AppState) (t : string) (p : page browser)
    (fuel container : nat) :
  App.token st = VStr t ->
  hooks (rt p) = map_seq 0 (state_cells st) ->
  exists p' d,
    render page_component (9 + fuel) root container p = (Ok tt, p') /\
    hooks (rt p') = hooks (rt p) /\
    pendingEffects (rt p') = [] /\
    ext p' = ext p /\
    containers p' = <[container := [d]]> (containers p) /\
    shows_state stringify_indented st t d.
Proof.
  intros Ht Hcells.
  destruct (view_dom st t fuel (settled_page st container (ext p) (containers p)) Ht)
    as (d & Hd & Hshows).
  exists (settled_page st container (ext p) (<[container := [d]]> (containers p))), d.
  split.
  - apply render_settled; [rewrite Ht; reflexivity | exact Hcells | exact Hd |].
    now destruct Hshows as (Hplain & _).
  - split; [now rewrite Hcells|]. split; [reflexivity|]. split; [reflexivity|].
    split; [reflexivity | exact Hshows].
Qed.




Lemma spaced_is_not_empty (a b : string) : String.eqb (a +:+ " " +:+ b) "" = false.
Proof. destruct a; reflexivity. Qed.

(** What the page shows after a dispatch, when the token is a text: every
    button is enabled again, the logout unless the token is empty, and the
    Clear button is there.  After a response the toast is the one of the
    outcome and the results show the body, parsed and printed when it is
    JSON and as it came when it is not; after a rejected call the results
    show the message of the error, and the toast shows it too unless it is
    empty, in which case no toast is shown at all. *)
Theorem dispatch_shown (o : App.FetchOutcome) (path : string) (m : option string)
    (body : value) (pg : App.Page) (t : string) (p : page browser)
    (fuel container : nat) :
  let st := App.app (snd (App.sendRequest App.Inline origin o path m body pg)) in
  App.token (App.app pg) = VStr t ->
  hooks (rt p) = map_seq 0 (state_cells st) ->
  exists p' d,
    render page_component (9 + fuel) root container p = (Ok tt, p') /\
    containers p' !! container = Some [d] /\
    buttons d = page_buttons t false ++ [clear_button] /\
    match o with
    | App.Responded status text =>
        texts_of_class (if App.is_ok status then "toast success" else "toast error") d
        = [default "GET" m +:+ " " +:+ path +:+
           (if App.is_ok status then " succeeded" else " failed")] /\
        texts_of_class "results" d = [payload_text (default (VStr text) (JSON_parse text))]
    | App.Rejected e =>
        texts_of_class "toast error" d
        = (if String.eqb (err_message e) "" then [] else [err_message e]) /\
        texts_of_class "results" d = [err_message e]
    end.
Proof.
  intros st Ht Hcells.
  assert (Htoken : App.token st = VStr t).
  { subst st. unfold App.sendRequest. destruct o; exact Ht. }
  destruct (view_dom st t fuel (settled_page st container (ext p) (containers p)) Htoken)
    as (d & Hd & Hplain & Hbuttons & _ & Htoast & Hresults).
  exists (settled_page st container (ext p) (<[container := [d]]> (containers p))), d.
  split; [|split; [|split]].
  - apply render_settled; [rewrite Htoken; reflexivity | exact Hcells | exact Hd |].
    exact Hplain.
  - cbn [settled_page containers]. now rewrite lookup_insert_eq.
  - rewrite Hbuttons. subst st. unfold App.sendRequest. destruct o; reflexivity.
  - subst st. unfold App.sendRequest in Htoast, Hresults. destruct o as [e | status text].
    + cbn in Htoast, Hresults. split; [exact Htoast | exact Hresults].
    + cbn in Htoast, Hresults. unfold App.outcome_message in Htoast.
      destruct (App.is_ok status); cbn in Htoast;
        rewrite spaced_is_not_empty in Htoast;
        (split; [exact Htoast|]); destruct (JSON_parse text); exact Hresults.
Qed.

(** The first visit: a storage that has neither key.  The render completes;
    the two effects write the page origin and the empty token under their
    keys and leave the rest of the storage and the console alone; the cells
    are those of the initial state, and the page shows it: the guest chip,
    no toast, no result, and nine buttons of which only the logout is
    disabled. *)
Theorem first_visit_mounts (b : browser) (fuel container : nat) :
  getItem "hub.baseUrl" b = None ->
  getItem "hub.token" b = None ->
  let st := App.initialState origin in
  exists p d,
    render page_component (9 + fuel) root container (initial_page b) = (Ok tt, p) /\
    hooks (rt p) = map_seq 0 (state_cells st) /\
    ext p = setItem "hub.token" (stored_text (VStr ""))
              (setItem "hub.baseUrl" (stored_text (VStr origin)) b) /\
    containers p !! container = Some [d] /\
    shows_state stringify_indented st "" d.
Proof.
  intros Hbase Htoken st.
  pose proof (App_first other_child origin b (Some container) (Some root) ∅ Hbase Htoken)
    as Happ.
  cbv zeta in Happ. fold st in Happ.
  set (p1 := {| rt := {| hooks := delete 3 (delete 1 (map_seq 0 (state_cells st)));
                         hookIndex := 13; pendingEffects := _;
                         currentRoot := Some container; currentVNode := Some root |};
                ext := b; containers := ∅ |}) in Happ.
  destruct (view_dom st "" fuel p1 eq_refl) as (d & Hd & Hshows).
  exists (flush_effects {| rt := rt p1; ext := ext p1;
                           containers := <[container := [d]]> (containers p1) |}), d.
  split; [|split; [|split; [|split]]].
  - change (9 + fuel) with (S (8 + fuel)). rewrite render_calls_root.
    change (page_component 0 (Some []) []) with (View.App other_child origin).
    change (with_rt (reset_for container root) (initial_page b))
      with {| rt := {| hooks := ∅; hookIndex := 0; pendingEffects := [];
                       currentRoot := Some container; currentVNode := Some root |};
              ext := b; containers := ∅ |}.
    rewrite Happ. unfold bind. rewrite Hd. unfold replaceChildren.
    destruct Hshows as (Hplain & _).
    rewrite (appended_plain [d]) by (cbn; now rewrite Hplain).
    reflexivity.
  - subst p1. vm_compute. reflexivity.
  - subst p1. reflexivity.
  - rewrite flush_keeps_containers. cbn [containers]. now rewrite lookup_insert_eq.
  - exact Hshows.
Qed.

End PageDom.

(** ** The page, run *)

Section PageRuns.

Import Runtime Storage Tree View Samples.

#[local] Open Scope list_scope.

#[local] Existing Instance Json.reference_browser.

Abbreviation sample_page :=
  (View.page_component sample_printer sample_function_text sample_other_child
     "http://page").

(** The first visit with an empty storage. *)
Lemma first_visit_mounts_witness :
  exists p d,
    render sample_page 9 root 0 (initial_page fresh_browser) = (Ok tt, p) /\
    getItem "hub.token" (ext p) = Some (stored_text (VStr "")) /\
    containers p !! 0 = Some [d] /\
    buttons d = page_buttons "" false.
Proof.
  destruct (first_visit_mounts sample_printer sample_function_text sample_other_child
              "http://page" fresh_browser 0 0 eq_refl eq_refl)
    as (p & d & Hrender & _ & Hext & Hmounted & _ & Hbuttons & _).
  exists p, d. split; [exact Hrender|]. split; [now rewrite Hext|].
  split; [exact Hmounted | exact Hbuttons].
Defined.

(** The signed-in page while a request is on its way. *)
Lemma page_renders_state_witness :
  let st := App.setIsLoading true (App.app (signed_in "")) in
  exists p' d,
    render sample_page 9 root 0 (settled_page "http://page" st 0 fresh_browser ∅)
    = (Ok tt, p') /\
    buttons d = page_buttons "abc" true /\
    texts_of_class "status-chip" d = ["Authenticated"].
Proof.
  intros st.
  destruct (page_renders_state sample_printer sample_function_text sample_other_child
              "http://page" st "abc" (settled_page "http://page" st 0 fresh_browser ∅)
              0 0 eq_refl eq_refl)
    as (p' & d & Hrender & _ & _ & _ & _ & _ & Hbuttons & Hchip & _).
  exists p', d. split; [exact Hrender|]. split; [exact Hbuttons | exact Hchip].
Defined.


(** A call rejected with an error whose message is empty: no toast. *)
Lemma dispatch_shown_witness :
  let st := App.app (snd (App.sendRequest App.Inline "http://page"
                            (App.Rejected (JsError "Error" "")) "/health" None VUndef
                            (signed_in ""))) in
  exists p' d,
    render sample_page 9 root 0 (settled_page "http://page" st 0 fresh_browser ∅)
    = (Ok tt, p') /\
    buttons d = page_buttons "abc" false ++ [clear_button] /\
    texts_of_class "toast error" d = [].
Proof.
  intros st.
  destruct (dispatch_shown sample_printer sample_function_text sample_other_child
              "http://page" (App.Rejected (JsError "Error" "")) "/health" None VUndef
              (signed_in "") "abc" (settled_page "http://page" st 0 fresh_browser ∅)
              0 0 eq_refl eq_refl)
    as (p' & d & Hrender & _ & Hbuttons & Htoast & _).
  exists p', d. split; [exact Hrender|]. split; [exact Hbuttons | exact Htoast].
Defined.

End PageRuns.

(** ** The setters of the page *)

Section PageSetters.

Import Runtime Storage Tree View.

#[local] Open Scope list_scope.

Context `{Browser}.

Variable stringify_indented : value -> option string.
Variable function_text : nat -> string.
Variable other_child : prop_value -> child_arg.
Variable origin : string.

Abbreviation page_component :=
  (View.page_component stringify_indented function_text other_child origin).
Abbreviation App := (View.App other_child origin).
Abbreviation state_cells := (View.state_cells origin).
Abbreviation state_view := (View.state_view other_child origin).
Abbreviation settled_page := (View.settled_page origin).














End PageSetters.

(** ** Setter calls on a sample page *)

Section SetterRuns.

Import Runtime Storage Tree View Samples.

#[local] Open Scope list_scope.

#[local] Existing Instance Json.reference_browser.

Abbreviation sample_page :=
  (View.page_component sample_printer sample_function_text sample_other_child
     "http://page").



End SetterRuns.
